(** * vibe-reviewer: the tutorial quality-evaluation pipeline

    A shallow embedding of [backend/vibe_reviewer] (agents, pipeline and the
    chapter model) and the properties of its specification.

    Conventions of the embedding.
    - A Python [str] is a Rocq [string] that holds its UTF-8 encoding; an
      [ascii] is one byte of it.  Stripping, splitting, slicing and
      searching are those of Python on the characters: white space is the
      Unicode white space of [str.isspace], a prefix and a negative index
      count characters.  Lower-casing is that of the ASCII letters.
    - A Python [int] is a [Z].  A Python [float] is a binary64 primitive
      float: the weights of the table, and the numbers that [json.loads]
      reads.  The relevance score is read as an exact rational where a
      bound is proved of it, and is any scoring function where a ranking
      is.
    - A call that may raise returns a [result]: [Ok v] or [Raise e].
    - Decoded JSON values are the Python objects the parsers work on
      ([pyval]): [None], [bool], [int], [float], [str], [list], [dict]. *)

From Stdlib Require Import ZArith QArith Qminmax Floats String Ascii List Lia Sorted Permutation.
From stdpp Require Import base option list gmap strings.

Set Warnings "-register-all,-inexact-float,-clear-no-such-hyp".

#[local] Open Scope Z_scope.
#[local] Open Scope stdpp_scope.

(** ** Exceptions and results *)

Inductive exn : Set :=
| JSONDecodeError | AttributeError | TypeError | ValueError | OverflowError
| ServiceError.

Inductive result (A : Type) : Type :=
| Ok (a : A)
| Raise (e : exn).
Arguments Ok {A} a.
Arguments Raise {A} e.

#[global] Instance result_ret : MRet result := fun A a => Ok a.
#[global] Instance result_bind : MBind result := fun A B f m =>
  match m with
  | Ok a => f a
  | Raise e => Raise e
  end.

(** [mapM] for [result]: the first raise aborts the loop, as in a Python
    [for] whose body raises. *)
Fixpoint for_each {A B : Type} (f : A -> result B) (l : list A) : result (list B) :=
  match l with
  | [] => Ok []
  | x :: l' =>
      match f x with
      | Ok y =>
          match for_each f l' with
          | Ok ys => Ok (y :: ys)
          | Raise e => Raise e
          end
      | Raise e => Raise e
      end
  end.

(** ** Python text primitives *)

Module Py.

(** The ASCII characters that [str.isspace] holds for: TAB, LF, VT, FF,
    CR, FS, GS, RS, US, SPACE. *)
Definition isspace (c : ascii) : bool :=
  let n := N_of_ascii c in
  ((9 <=? n) && (n <=? 13) || (28 <=? n) && (n <=? 32))%N.

(** The two-byte characters that [str.isspace] holds for: U+0085 and
    U+00A0. *)
Definition space2 (a b : ascii) : bool :=
  let '(a, b) := (N_of_ascii a, N_of_ascii b) in
  ((a =? 194) && ((b =? 133) || (b =? 160)))%N.

(** The three-byte ones: U+1680, U+2000 to U+200A, U+2028, U+2029,
    U+202F, U+205F and U+3000. *)
Definition space3 (a b c : ascii) : bool :=
  let '(a, b, c) := (N_of_ascii a, N_of_ascii b, N_of_ascii c) in
  ((a =? 225) && (b =? 154) && (c =? 128)
   || (a =? 226) && (b =? 128)
      && ((128 <=? c) && (c <=? 138) || (c =? 168) || (c =? 169) || (c =? 175))
   || (a =? 226) && (b =? 129) && (c =? 159)
   || (a =? 227) && (b =? 128) && (c =? 128))%N.

(** The number of bytes of the white-space character that [s] starts
    with, and 0 when it starts with none.  No white-space character
    starts with a continuation byte, so that in a text a match is a
    character. *)
Definition space_len (s : string) : nat :=
  match s with
  | String a r =>
      if isspace a then 1
      else match r with
           | String b r' =>
               if space2 a b then 2
               else match r' with
                    | String c _ => if space3 a b c then 3 else 0
                    | EmptyString => 0
                    end
           | EmptyString => 0
           end
  | EmptyString => 0
  end.

(** [s.lstrip()]; [skip] counts the bytes still to drop of the
    white-space character being dropped. *)
Fixpoint lstrip_go (skip : nat) (s : string) : string :=
  match s with
  | String _ s' =>
      match skip with
      | S k => lstrip_go k s'
      | O =>
          match space_len s with
          | S k => lstrip_go k s'
          | O => s
          end
      end
  | EmptyString => EmptyString
  end.
Definition lstrip (s : string) : string := lstrip_go 0 s.

(** Whether [s] is white space throughout. *)
Fixpoint all_space (skip : nat) (s : string) : bool :=
  match s with
  | String _ s' =>
      match skip with
      | S k => all_space k s'
      | O =>
          match space_len s with
          | S k => all_space k s'
          | O => false
          end
      end
  | EmptyString => true
  end.

(** [s.rstrip()]: [s] up to where the rest is white space throughout. *)
Fixpoint rstrip (s : string) : string :=
  match s with
  | String c s' => if all_space 0 s then EmptyString else String c (rstrip s')
  | EmptyString => EmptyString
  end.

(** [s.strip()]. *)
Definition strip (s : string) : string := rstrip (lstrip s).

(** A position in a text is the byte offset of a character; [len s] is
    the position of the end of [s].  The code takes positions from [find]
    and adds the length of an ASCII marker, so that the offsets it reaches
    are those of the characters Python counts. *)
Definition len (s : string) : Z := Z.of_nat (String.length s).

(** [s.find(sub, start)] for [0 <= start]: the lowest position at or
    after [start] where [sub] occurs, and [-1] when there is none. *)
Definition find (sub : string) (start : Z) (s : string) : Z :=
  match String.index (Z.to_nat start) sub s with
  | Some i => Z.of_nat i
  | None => -1
  end.

(** [sub in s]. *)
Definition contains (sub s : string) : bool :=
  match String.index 0 sub s with
  | Some _ => true
  | None => false
  end.

(** A continuation byte of UTF-8: every byte of a character but its
    first. *)
Definition is_cont (c : ascii) : bool :=
  let n := N_of_ascii c in ((128 <=? n) && (n <? 192))%N.

Fixpoint all_cont (s : string) : bool :=
  match s with
  | String c s' => is_cont c && all_cont s'
  | EmptyString => true
  end.

(** [s[:-1]]: [s] without its last character, which starts at the last
    byte that is no continuation byte. *)
Fixpoint chop (s : string) : string :=
  match s with
  | String c s' => if all_cont s' then EmptyString else String c (chop s')
  | EmptyString => EmptyString
  end.

(** The position an index of a slice stands for, as Python normalises
    it: a negative index counts characters from the end, and an index
    past the end is the end. *)
Definition position (s : string) (i : Z) : Z :=
  if i <? 0 then len (Nat.iter (Z.to_nat (- i)) chop s) else Z.min (len s) i.

(** [s[start:stop]]. *)
Definition slice (s : string) (start stop : Z) : string :=
  let a := position s start in
  let b := position s stop in
  String.substring (Z.to_nat a) (Z.to_nat (b - a)) s.

(** [s[:n]] for a literal [n >= 0]: the first [n] characters, a
    continuation byte going with the character before it. *)
Fixpoint prefix_of (n : nat) (s : string) : string :=
  match s with
  | String c s' =>
      if is_cont c then String c (prefix_of n s')
      else match n with
           | S k => String c (prefix_of k s')
           | O => EmptyString
           end
  | EmptyString => EmptyString
  end.

(** [s.split()]: the maximal runs of characters that are no white
    space.  [cur] is the run being read, and [skip] counts the bytes still
    to drop of the white-space character being dropped. *)
Fixpoint split_go (cur : option string) (skip : nat) (s : string) : list string :=
  match s with
  | EmptyString => option_list cur
  | String c s' =>
      match skip with
      | S k => split_go cur k s'
      | O =>
          match space_len s with
          | S k => option_list cur ++ split_go None k s'
          | O => split_go (Some (default EmptyString cur +:+ String c EmptyString)) 0 s'
          end
      end
  end.
Definition split (s : string) : list string := split_go None 0 s.

(** [sep.join(l)]. *)
Fixpoint join (sep : string) (l : list string) : string :=
  match l with
  | [] => EmptyString
  | [x] => x
  | x :: l' => x +:+ sep +:+ join sep l'
  end.


Definition lower_char (c : ascii) : ascii :=
  let n := N_of_ascii c in
  if ((65 <=? n) && (n <=? 90))%N then ascii_of_N (n + 32) else c.

(** [s.lower()] on the ASCII letters, the other bytes as they are:
    that of Python on a text whose cased letters are ASCII. *)
Fixpoint lower (s : string) : string :=
  match s with
  | EmptyString => EmptyString
  | String c s' => String (lower_char c) (lower s')
  end.

(** The number of bytes of the character whose first byte is [c]. *)
Definition char_len (c : ascii) : nat :=
  let n := N_of_ascii c in
  if (n <? 192)%N then 1 else if (n <? 224)%N then 2
  else if (n <? 240)%N then 3 else 4.

(** The payload bits of the continuation bytes at the head of [s], added
    to [acc]. *)
Fixpoint code_bits (k : nat) (acc : Z) (s : string) : Z :=
  match k, s with
  | S k', String c s' =>
      code_bits k' (64 * acc + Z.land (Z.of_N (N_of_ascii c)) 63) s'
  | _, _ => acc
  end.

(** The code point of the character that [s] starts with. *)
Definition code_point (s : string) : Z :=
  match s with
  | String c s' =>
      let n := Z.of_N (N_of_ascii c) in
      match char_len c with
      | 2%nat => code_bits 1 (Z.land n 31) s'
      | 3%nat => code_bits 2 (Z.land n 15) s'
      | 4%nat => code_bits 3 (Z.land n 7) s'
      | _ => n
      end
  | EmptyString => 0
  end.

(** The code points of the digit zero of each decimal number system of
    Unicode (category Nd, Unicode 14): the digits 1 to 9 of a system
    follow its zero. *)
Definition decimal_zeros : list Z :=
  [48; 1632; 1776; 1984; 2406; 2534; 2662; 2790; 2918; 3046; 3174; 3302;
   3430; 3558; 3664; 3792; 3872; 4160; 4240; 6112; 6160; 6470; 6608; 6784;
   6800; 6992; 7088; 7232; 7248; 42528; 43216; 43264; 43472; 43504; 43600;
   44016; 65296; 66720; 68912; 69734; 69872; 69942; 70096; 70384; 70736;
   70864; 71248; 71360; 71472; 71904; 72016; 72784; 73040; 73120; 92768;
   92864; 93008; 120782; 120792; 120802; 120812; 120822; 123200; 123632;
   125264; 130032].

(** The value of the decimal digit of code point [cp], as
    [unicodedata.decimal] gives it. *)
Definition decimal (cp : Z) : option Z :=
  (fun zero => cp - zero) <$>
    List.find (fun zero => (zero <=? cp) && (cp <? zero + 10)) decimal_zeros.

End Py.

(** ** Python floats

    Binary64 numbers, here Rocq's primitive floats, with the arithmetic
    of the machine. *)

Module PyFloat.

(** [float(z)] as Python converts an [int] operand: rounded to the
    nearest binary64 number, [OverflowError] beyond the finite range. *)
Definition of_int (z : Z) : result float :=
  match SpecFloat.binary_normalize prec emax z 0 false with
  | S754_infinity _ => Raise OverflowError
  | f => Ok (SF2Prim f)
  end.

(** [int(x)]: truncation toward zero. *)
Definition to_int (x : float) : result Z :=
  match Prim2SF x with
  | S754_zero _ => Ok 0
  | S754_finite s m e => Ok (SpecFloat.cond_Zopp s (Z.shiftl (Z.pos m) e))
  | S754_infinity _ => Raise OverflowError
  | S754_nan => Raise ValueError
  end.

(** [float(literal)] for the decimal literal [m * 10^e] with [0 <= m],
    negative when [neg]: the binary64 number nearest to it, ties to even,
    and an infinity beyond the finite range.  For a negative exponent the
    quotient is taken to 65 bits or more, with one more bit that is set
    when the division leaves a remainder, and this is rounded. *)
Definition of_decimal (neg : bool) (m e : Z) : float :=
  let sign (z : Z) := if neg then - z else z in
  if 0 <=? e then SF2Prim (SpecFloat.binary_normalize prec emax (sign (m * 10 ^ e)) 0 neg)
  else
    let d := 10 ^ (- e) in
    let s := Z.max 0 (66 + Z.log2 d - Z.log2 m) in
    let n := m * 2 ^ s in
    let q := 2 * (n / d) + (if n mod d =? 0 then 0 else 1) in
    SF2Prim (SpecFloat.binary_normalize prec emax (sign q) (- s - 1) neg).

(** [w * n] for a float [w] and an [int] [n]. *)
Definition mul_int (w : float) (n : Z) : result float :=
  x ← of_int n; Ok (w * x)%float.

End PyFloat.

(** ** Python values and [json.loads]

    [json] is Python's standard library, not code of the repository; the
    decoder below follows its grammar (RFC 8259 plus [NaN], [Infinity] and
    [-Infinity], strict strings).  A number with a fraction or an exponent
    is the binary64 number that [float] makes of the literal.  A JSON
    object keeps its members in source order and [dict_get] reads the last
    one of a repeated key, which is the value the Python [dict] ends up
    with.  The decoder of CPython is recursive and raises
    [RecursionError] when the nesting nears the recursion limit of the
    interpreter (1000 by default), and since 3.11 it raises [ValueError] on
    an integer of more than 4300 digits: neither is a constant of the
    language.  The decoder below has no such limit, and a property that
    needs the decoded value is stated of texts [within_limits]. *)

Inductive pyval : Set :=
| PNone
| PBool (b : bool)
| PInt (z : Z)
| PFloat (f : float)
| PStr (s : string)
| PList (l : list pyval)
| PDict (kvs : list (string * pyval)).

Module Json.

Definition is_ws (c : ascii) : bool :=
  match c with
  | " "%char | "009"%char | "010"%char | "013"%char => true
  | _ => false
  end.

Fixpoint skip_ws (s : string) : string :=
  match s with
  | String c s' => if is_ws c then skip_ws s' else s
  | EmptyString => EmptyString
  end.

Definition digit (c : ascii) : option Z :=
  let n := N_of_ascii c in
  if ((48 <=? n) && (n <=? 57))%N then Some (Z.of_N n - 48) else None.

Definition hex_digit (c : ascii) : option Z :=
  let n := N_of_ascii c in
  if ((48 <=? n) && (n <=? 57))%N then Some (Z.of_N n - 48)
  else if ((65 <=? n) && (n <=? 70))%N then Some (Z.of_N n - 55)
  else if ((97 <=? n) && (n <=? 102))%N then Some (Z.of_N n - 87)
  else None.

(** The longest run of decimal digits at the head of [s]: its value, its
    length, and the rest of [s]. *)
Fixpoint digits (s : string) (acc : Z) (count : Z) : Z * Z * string :=
  match s with
  | String c s' =>
      match digit c with
      | Some d => digits s' (10 * acc + d) (count + 1)
      | None => (acc, count, s)
      end
  | EmptyString => (acc, count, s)
  end.

(** The optional fraction of a number: a dot and at least one digit. *)
Definition fraction (s : string) : option (Z * Z * string) :=
  match s with
  | String "." s' =>
      let '(v, n, r) := digits s' 0 0 in
      if n =? 0 then None else Some (v, n, r)
  | _ => None
  end.

(** The optional exponent of a number: [e] or [E], an optional sign and
    at least one digit. *)
Definition exponent (s : string) : option (Z * string) :=
  let signed (neg : bool) (s' : string) :=
    let '(v, n, r) := digits s' 0 0 in
    if n =? 0 then None else Some (if neg then - v else v, r) in
  match s with
  | String c s' =>
      if Ascii.eqb c "e" || Ascii.eqb c "E" then
        match s' with
        | String "-" s'' => signed true s''
        | String "+" s'' => signed false s''
        | _ => signed false s'
        end
      else None
  | EmptyString => None
  end.

(** A number at the head of [s]: an optional minus sign, then [0] or a
    digit run that starts with a non-zero digit, then the optional
    fraction and the optional exponent.  It is an [int] when there is
    neither fraction nor exponent. *)
Definition number (s : string) : option (pyval * string) :=
  let '(neg, s1) :=
    match s with
    | String "-" s' => (true, s')
    | _ => (false, s)
    end in
  let int_part :=
    match s1 with
    | String "0" s' => Some (0, s')
    | String c _ =>
        match digit c with
        | Some _ => let '(v, _, r) := digits s1 0 0 in Some (v, r)
        | None => None
        end
    | EmptyString => None
    end in
  match int_part with
  | None => None
  | Some (i, r) =>
      match fraction r, exponent r with
      | None, None => Some (PInt (if neg then - i else i), r)
      | None, Some (e, r') => Some (PFloat (PyFloat.of_decimal neg i e), r')
      | Some (f, n, r'), _ =>
          let m := i * 10 ^ n + f in
          match exponent r' with
          | None => Some (PFloat (PyFloat.of_decimal neg m (- n)), r')
          | Some (e, r'') => Some (PFloat (PyFloat.of_decimal neg m (e - n)), r'')
          end
      end
  end.

Definition byte (z : Z) : ascii := ascii_of_N (Z.to_N z).

(** The UTF-8 bytes of a code point. *)
Definition utf8 (cp : Z) : string :=
  if cp <? 128 then String (byte cp) EmptyString
  else if cp <? 2048 then
    String (byte (192 + cp / 64)) (String (byte (128 + cp mod 64)) EmptyString)
  else if cp <? 65536 then
    String (byte (224 + cp / 4096))
      (String (byte (128 + (cp / 64) mod 64))
         (String (byte (128 + cp mod 64)) EmptyString))
  else
    String (byte (240 + cp / 262144))
      (String (byte (128 + (cp / 4096) mod 64))
         (String (byte (128 + (cp / 64) mod 64))
            (String (byte (128 + cp mod 64)) EmptyString))).

(** Four hexadecimal digits. *)
Definition hex4 (s : string) : option (Z * string) :=
  match s with
  | String a (String b (String c (String d r))) =>
      match hex_digit a, hex_digit b, hex_digit c, hex_digit d with
      | Some x, Some y, Some z, Some w => Some (((x * 16 + y) * 16 + z) * 16 + w, r)
      | _, _, _, _ => None
      end
  | _ => None
  end.

(** A [\uXXXX] escape after its [\u]; a high surrogate followed by an
    escaped low surrogate is one code point. *)
Definition unicode_escape (s : string) : option (string * string) :=
  match hex4 s with
  | None => None
  | Some (hi, r) =>
      let alone := Some (utf8 hi, r) in
      if (55296 <=? hi) && (hi <=? 56319) then
        match r with
        | String "\" (String "u" r') =>
            match hex4 r' with
            | Some (lo, r'') =>
                if (56320 <=? lo) && (lo <=? 57343)
                then Some (utf8 (65536 + (hi - 55296) * 1024 + (lo - 56320)), r'')
                else alone
            | None => alone
            end
        | _ => alone
        end
      else alone
  end.

(** The body of a string after its opening quote, up to the closing one.
    [acc] holds the text read so far, last character first. *)
Fixpoint scanstring (fuel : nat) (s : string) (acc : string) : option (string * string) :=
  match fuel with
  | O => None
  | S fuel' =>
      match s with
      | EmptyString => None
      | String "034" r => Some (String.rev acc, r)
      | String "\" r =>
          match r with
          | String e r' =>
              let simple (c : ascii) := scanstring fuel' r' (String c acc) in
              match e with
              | "034"%char => simple "034"%char
              | "\"%char => simple "\"%char
              | "/"%char => simple "/"%char
              | "b"%char => simple "008"%char
              | "f"%char => simple "012"%char
              | "n"%char => simple "010"%char
              | "r"%char => simple "013"%char
              | "t"%char => simple "009"%char
              | "u"%char =>
                  match unicode_escape r' with
                  | Some (bytes, r'') =>
                      scanstring fuel' r'' (String.rev_app bytes acc)
                  | None => None
                  end
              | _ => None
              end
          | EmptyString => None
          end
      | String c r =>
          if (N_of_ascii c <? 32)%N then None
          else scanstring fuel' r (String c acc)
      end
  end.

Section containers.
Variable scan_once : string -> option (pyval * string).

(** The elements of an array after [[] and white space, the head of
    [s] not being []]. *)
Fixpoint array_items (fuel : nat) (s : string) (acc : list pyval) :
    option (pyval * string) :=
  match fuel with
  | O => None
  | S fuel' =>
      match scan_once s with
      | None => None
      | Some (v, r) =>
          match skip_ws r with
          | String "]" r' => Some (PList (rev (v :: acc)), r')
          | String "," r' => array_items fuel' (skip_ws r') (v :: acc)
          | _ => None
          end
      end
  end.

(** The members of an object, [s] standing at the quote that opens a
    key. *)
Fixpoint object_items (fuel : nat) (s : string) (acc : list (string * pyval)) :
    option (pyval * string) :=
  match fuel with
  | O => None
  | S fuel' =>
      match s with
      | String "034" r =>
          match scanstring (S (String.length r)) r EmptyString with
          | None => None
          | Some (key, r1) =>
              match skip_ws r1 with
              | String ":" r2 =>
                  match scan_once (skip_ws r2) with
                  | None => None
                  | Some (v, r3) =>
                      match skip_ws r3 with
                      | String "}" r4 => Some (PDict (rev ((key, v) :: acc)), r4)
                      | String "," r4 =>
                          object_items fuel' (skip_ws r4) ((key, v) :: acc)
                      | _ => None
                      end
                  end
              | _ => None
              end
          end
      | _ => None
      end
  end.
End containers.

(** One JSON value at the head of [s]. [fuel] bounds the nesting. *)
Fixpoint scan_once (fuel : nat) (s : string) : option (pyval * string) :=
  match fuel with
  | O => None
  | S fuel' =>
      match s with
      | String "034" r =>
          match scanstring (S (String.length r)) r EmptyString with
          | Some (str, r') => Some (PStr str, r')
          | None => None
          end
      | String "{" r =>
          match skip_ws r with
          | String "}" r' => Some (PDict [], r')
          | r' => object_items (scan_once fuel') (S (String.length r')) r' []
          end
      | String "[" r =>
          match skip_ws r with
          | String "]" r' => Some (PList [], r')
          | r' => array_items (scan_once fuel') (S (String.length r')) r' []
          end
      | String "n" (String "u" (String "l" (String "l" r))) => Some (PNone, r)
      | String "t" (String "r" (String "u" (String "e" r))) => Some (PBool true, r)
      | String "f" (String "a" (String "l" (String "s" (String "e" r)))) =>
          Some (PBool false, r)
      | _ =>
          match number s with
          | Some res => Some res
          | None =>
              if String.prefix "NaN" s
              then Some (PFloat nan, Py.slice s 3 (Py.len s))
              else if String.prefix "Infinity" s
              then Some (PFloat infinity, Py.slice s 8 (Py.len s))
              else if String.prefix "-Infinity" s
              then Some (PFloat neg_infinity, Py.slice s 9 (Py.len s))
              else None
          end
      end
  end.


(** The opening brackets and braces of [s]: a bound of the nesting of
    the values it holds. *)
Fixpoint brackets (s : string) : nat :=
  match s with
  | String c s' => (if Ascii.eqb c "[" || Ascii.eqb c "{" then 1 else 0) + brackets s'
  | EmptyString => 0
  end.

(** The longest run of digits of [s], [run] being the length of the
    run that is read and [best] the longest one before it. *)
Fixpoint digit_run (run best : nat) (s : string) : nat :=
  match s with
  | String c s' =>
      match digit c with
      | Some _ => digit_run (S run) best s'
      | None => digit_run 0 (run `max` best) s'
      end
  | EmptyString => run `max` best
  end.

(** A text nested at most 100 deep, a tenth of the default recursion
    limit, and with no more than 4300 digits in a row: decoding it raises
    neither [RecursionError] nor the [ValueError] of a long integer. *)
Definition within_limits (s : string) : Prop :=
  (brackets s <= 100)%nat ∧ (digit_run 0 0 s <= 4300)%nat.

(** [json.loads(s)]: one value with white space around it and nothing
    else; anything else raises [JSONDecodeError]. *)
Definition loads (s : string) : result pyval :=
  let s := skip_ws s in
  match scan_once (S (String.length s)) s with
  | Some (v, r) =>
      match skip_ws r with
      | EmptyString => Ok v
      | _ => Raise JSONDecodeError
      end
  | None => Raise JSONDecodeError
  end.

End Json.

(** ** Operations of Python on decoded values *)

Module PyVal.

(** The value of key [k] in a [dict] given by its members in source
    order: a later member replaces an earlier one of the same key. *)
Fixpoint lookup (k : string) (kvs : list (string * pyval)) : option pyval :=
  match kvs with
  | [] => None
  | (k', v) :: rest =>
      match lookup k rest with
      | Some v' => Some v'
      | None => if String.eqb k k' then Some v else None
      end
  end.

(** [d.get(k, dflt)]: only a [dict] has the method. *)
Definition get (d : pyval) (k : string) (dflt : pyval) : result pyval :=
  match d with
  | PDict kvs => Ok (default dflt (lookup k kvs))
  | _ => Raise AttributeError
  end.

(** The keys of a [dict] in the order of their first insertion. *)
Fixpoint keys (seen : list string) (kvs : list (string * pyval)) : list string :=
  match kvs with
  | [] => []
  | (k, _) :: rest =>
      if bool_decide (k ∈ seen) then keys seen rest else k :: keys (k :: seen) rest
  end.

(** The characters of a text, each one a text: a continuation byte goes
    with the character before it. *)
Fixpoint chars (s : string) : list string :=
  match s with
  | EmptyString => []
  | String c s' =>
      match chars s' with
      | t :: l =>
          match s' with
          | String c' _ =>
              if Py.is_cont c' then (String c t) :: l
              else String c EmptyString :: t :: l
          | EmptyString => [String c EmptyString]
          end
      | [] => [String c EmptyString]
      end
  end.

(** What [for x in v] iterates over. *)
Definition iter (v : pyval) : result (list pyval) :=
  match v with
  | PList l => Ok l
  | PStr s => Ok (PStr <$> chars s)
  | PDict kvs => Ok (PStr <$> keys [] kvs)
  | _ => Raise TypeError
  end.

(** What [int] makes of a text before it reads it: a white-space
    character beyond ASCII becomes a space, a decimal digit of any number
    system of Unicode the ASCII digit of its value, and any other
    character beyond ASCII ends the text with a question mark.  [skip]
    counts the bytes still to drop of the character being replaced. *)
Fixpoint to_ascii (skip : nat) (s : string) : string :=
  match s with
  | EmptyString => EmptyString
  | String c s' =>
      match skip with
      | S k => to_ascii k s'
      | O =>
          if (N_of_ascii c <? 127)%N then String c (to_ascii 0 s')
          else match Py.space_len s with
               | S k => String " " (to_ascii k s')
               | O =>
                   match Py.decimal (Py.code_point s) with
                   | Some d =>
                       String (ascii_of_N (48 + Z.to_N d))
                         (to_ascii (Py.char_len c - 1) s')
                   | None => "?"
                   end
               end
      end
  end.

(** The white space of C that [int] skips around the number: TAB, LF,
    VT, FF, CR and SPACE. *)
Definition c_isspace (c : ascii) : bool :=
  let n := N_of_ascii c in ((9 <=? n) && (n <=? 13) || (n =? 32))%N.

Fixpoint c_lstrip (s : string) : string :=
  match s with
  | String c s' => if c_isspace c then c_lstrip s' else s
  | EmptyString => EmptyString
  end.

Fixpoint c_all_space (s : string) : bool :=
  match s with
  | String c s' => c_isspace c && c_all_space s'
  | EmptyString => true
  end.

Fixpoint c_rstrip (s : string) : string :=
  match s with
  | String c s' => if c_all_space s then EmptyString else String c (c_rstrip s')
  | EmptyString => EmptyString
  end.

(** A decimal literal as [int(str)] reads it once stripped and past its
    sign: digits, single underscores allowed between two digits. *)
Fixpoint int_digits (s : string) (acc : Z) (after_digit : bool) : option Z :=
  match s with
  | EmptyString => if after_digit then Some acc else None
  | String c s' =>
      match Json.digit c with
      | Some d => int_digits s' (10 * acc + d) true
      | None =>
          if Ascii.eqb c "_" && after_digit
          then match s' with
               | String c' _ =>
                   match Json.digit c' with
                   | Some _ => int_digits s' acc false
                   | None => None
                   end
               | EmptyString => None
               end
          else None
      end
  end.

(** The digits of [s]. *)
Fixpoint count_digits (s : string) : nat :=
  match s with
  | String c s' => (if Json.digit c is Some _ then 1 else 0) + count_digits s'
  | EmptyString => 0
  end.

(** [int(s)] for a text: white space around, a sign, and the digits.
    More than 4300 digits are refused, the default limit of CPython since
    3.11. *)
Definition int_of_str (s : string) : option Z :=
  let digits (s' : string) :=
    if (4300 <? count_digits s')%nat then None else int_digits s' 0 false in
  match c_rstrip (c_lstrip (to_ascii 0 s)) with
  | String "-" s' => Z.opp <$> digits s'
  | String "+" s' => digits s'
  | s' => digits s'
  end.

(** [int(v)]: a float is truncated toward zero, [nan] raises
    [ValueError] and an infinity [OverflowError]. *)
Definition int (v : pyval) : result Z :=
  match v with
  | PInt z => Ok z
  | PBool b => Ok (if b then 1 else 0)
  | PFloat f => PyFloat.to_int f
  | PStr s =>
      match int_of_str s with
      | Some z => Ok z
      | None => Raise ValueError
      end
  | PNone | PList _ | PDict _ => Raise TypeError
  end.

(** [v == s] for a string literal [s]. *)
Definition eq_str (v : pyval) (s : string) : bool :=
  match v with
  | PStr t => String.eqb t s
  | _ => false
  end.

End PyVal.

(** The text that is handed to [json.loads].  The [_parse_response] of
    the content analyzer, the depth checker, the quality reviewer, the
    readability checker and the improver open with these same lines (that
    of the image analyzer does not): strip the response; when it holds the
    marker of a json fence, or else any fence, keep what stands between
    the first such marker and the next fence, stripped, the closing fence
    being looked for with [find], whose [-1] for a fence that is missing
    is the index of the last character; otherwise keep the stripped
    response whole. *)
Definition fenced_payload (response : string) : string :=
  let response := Py.strip response in
  if Py.contains "```json" response then
    let start := Py.find "```json" 0 response + 7 in
    let end_ := Py.find "```" start response in
    Py.strip (Py.slice response start end_)
  else if Py.contains "```" response then
    let start := Py.find "```" 0 response + 3 in
    let end_ := Py.find "```" start response in
    Py.strip (Py.slice response start end_)
  else response.

(** ** The language model behind [llm.chat]

    [chat prompt] is the outcome of
    [self.llm.chat(messages=[{"role": "user", "content": prompt}])]: it
    raises, or returns [None] or a text. *)
Definition llm_service : Type := string -> result (option string).

(** [not response]. *)
Definition falsy (response : option string) : bool :=
  match response with
  | None => true
  | Some s => bool_decide (s = EmptyString)
  end.

(** ** Schemas

    [schemas.py] is not part of the sources at hand; the records below are
    read off the constructor calls and attribute reads of the agents and
    the pipeline. *)

(** Modelled from the spec: the enum [ContentType] of the missing
    [schemas.py].  Its members are the keys of [WEIGHT_CONFIGS]; their
    values are the tags the spec lists for the content type. *)
Inductive ContentType : Set :=
| TECHNICAL_TUTORIAL | SCIENCE_POPULAR | DOCUMENTATION | NEWS | OPINION | UNKNOWN.

#[global] Instance ContentType_eq_dec : EqDecision ContentType.
Proof. solve_decision. Defined.

Definition ContentType_value (t : ContentType) : string :=
  match t with
  | TECHNICAL_TUTORIAL => "technical-tutorial"
  | SCIENCE_POPULAR => "science-popular"
  | DOCUMENTATION => "documentation"
  | NEWS => "news"
  | OPINION => "opinion"
  | UNKNOWN => "unknown"
  end.

Definition ContentType_members : list ContentType :=
  [TECHNICAL_TUTORIAL; SCIENCE_POPULAR; DOCUMENTATION; NEWS; OPINION; UNKNOWN].

(** [ContentType(v)]: the member whose value is [v]; [ValueError] when
    there is none. *)
Definition ContentType_of (v : pyval) : result ContentType :=
  match v with
  | PStr s =>
      match filter (fun t => ContentType_value t = s) ContentType_members with
      | t :: _ => Ok t
      | [] => Raise ValueError
      end
  | _ => Raise ValueError
  end.

(** Modelled from the spec: the enum [ReadabilityLevel] of the missing
    [schemas.py].  The sources name one member, [NORMAL], the default on
    an unknown value; any other member is kept by its value. *)
Inductive ReadabilityLevel : Set :=
| NORMAL
| LEVEL (value : string).

(** Modelled from the spec: the dataclass [VaguePoint] of the missing
    [schemas.py] (location, issue, clarifying question, suggestion).  The
    fields hold the decoded values as the parser stores them. *)
Module VaguePoint.
Record t : Set := mk {
  location : pyval;
  issue : pyval;
  question : pyval;
  suggestion : pyval;
}.
End VaguePoint.

(** Modelled from the spec: the dataclass [ContentIssue] of the missing
    [schemas.py]; [reference] is optional and [None] when not given. *)
Module ContentIssue.
Record t : Set := mk {
  issue_type : pyval;
  severity : pyval;
  location : pyval;
  description : pyval;
  suggestion : pyval;
  reference : pyval;
}.
End ContentIssue.

(** Modelled from the spec: the result dataclasses of the three
    evaluators in the missing [schemas.py]. *)
Module DepthCheckResult.
Record t : Set := mk {
  score : Z;
  is_detailed_enough : pyval;
  vague_points : list VaguePoint.t;
  summary : pyval;
}.
End DepthCheckResult.

Module QualityReviewResult.
Record t : Set := mk {
  score : Z;
  approved : pyval;
  issues : list ContentIssue.t;
  summary : pyval;
  logic_score : Z;
  accuracy_score : Z;
  completeness_score : Z;
}.
End QualityReviewResult.

Module ReadabilityResult.
Record t : Set := mk {
  score : Z;
  level : ReadabilityLevel;
  issues : list ContentIssue.t;
  summary : pyval;
  vocabulary_score : Z;
  syntax_score : Z;
  discourse_score : Z;
  surface_score : Z;
}.
End ReadabilityResult.

(** Modelled from the spec: the dataclass [ActionableFeedback] of the
    missing [schemas.py]; [reference] is optional and [None] when not
    given. *)
Module ActionableFeedback.
Record t : Set := mk {
  priority : Z;
  location : pyval;
  issue_type : pyval;
  problem : pyval;
  action : pyval;
  reference : pyval;
  estimated_effort : pyval;
}.
End ActionableFeedback.

(** Modelled from the spec: the dataclass [ContentSummary] of the missing
    [schemas.py], at the types the spec gives its fields (a topic string
    and lists of strings), which are the types the search agent and the
    reference manager rely on when they call [str] methods on them. *)
Module ContentSummary.
Record t : Set := mk {
  topic : string;
  content_type : ContentType;
  core_points : list string;
  key_terms : list string;
  fact_claims : list string;
  search_queries : list string;
}.
End ContentSummary.

(** Modelled from the spec: the dataclass [SearchResult] of the missing
    [schemas.py].  The relevance score is a Python float, kept here as an
    exact rational. *)
Module SearchResult.
Record t : Set := mk {
  query : string;
  source_url : string;
  title : string;
  snippet : string;
  relevance_score : Q;
}.
End SearchResult.

(** A reference handed to the evaluators, as [get_top_references] shapes
    it. *)
Module Reference.
Record t : Set := mk {
  title : string;
  source_url : string;
  snippet : string;
  relevance_score : Q;
}.
End Reference.

(** ** agents/depth_checker.py *)

Module DepthChecker.

(** [_default_result]. *)
Definition _default_result : DepthCheckResult.t :=
  {| DepthCheckResult.score := 70;
     DepthCheckResult.is_detailed_enough := PBool true;
     DepthCheckResult.vague_points := [];
     DepthCheckResult.summary := PStr "深度检查完成" |}.

(** One turn of the loop over [data.get('vague_points', [])]. *)
Definition vague_point (vp : pyval) : result VaguePoint.t :=
  location ← PyVal.get vp "location" (PStr "");
  issue ← PyVal.get vp "issue" (PStr "");
  question ← PyVal.get vp "question" (PStr "");
  suggestion ← PyVal.get vp "suggestion" (PStr "");
  Ok (VaguePoint.mk location issue question suggestion).

(** [_parse_response]: only [JSONDecodeError] is caught here. *)
Definition _parse_response (response : string) : result DepthCheckResult.t :=
  match Json.loads (fenced_payload response) with
  | Raise JSONDecodeError => Ok _default_result
  | Raise e => Raise e
  | Ok data =>
      vps ← PyVal.get data "vague_points" (PList []);
      items ← PyVal.iter vps;
      vague_points ← for_each vague_point items;
      score ← PyVal.get data "score" (PInt 70) ≫= PyVal.int;
      is_detailed_enough ← PyVal.get data "is_detailed_enough" (PBool true);
      summary ← PyVal.get data "summary" (PStr "");
      Ok (DepthCheckResult.mk score is_detailed_enough vague_points summary)
  end.

Section check.
Variable llm : llm_service.
(** [self.pm.render_depth_check]; the prompt templates are not part of
    the sources at hand. *)
Variable render_depth_check : string -> option (list Reference.t) -> string.

(** [check]: every exception of the call or of the parse ends in the
    default result. *)
Definition check (content : string) (references : option (list Reference.t)) :
    DepthCheckResult.t :=
  let prompt := render_depth_check content references in
  match llm prompt with
  | Ok response =>
      if falsy response then _default_result
      else match _parse_response (default EmptyString response) with
           | Ok r => r
           | Raise _ => _default_result
           end
  | Raise _ => _default_result
  end.
End check.

End DepthChecker.

(** ** agents/quality_reviewer.py *)

Module QualityReviewer.

(** [_default_result]. *)
Definition _default_result : QualityReviewResult.t :=
  {| QualityReviewResult.score := 70;
     QualityReviewResult.approved := PBool true;
     QualityReviewResult.issues := [];
     QualityReviewResult.summary := PStr "质量审核完成";
     QualityReviewResult.logic_score := 70;
     QualityReviewResult.accuracy_score := 70;
     QualityReviewResult.completeness_score := 70 |}.

(** One turn of the loop over [data.get('issues', [])]. *)
Definition content_issue (issue : pyval) : result ContentIssue.t :=
  issue_type ← PyVal.get issue "issue_type" (PStr "unknown");
  severity ← PyVal.get issue "severity" (PStr "medium");
  location ← PyVal.get issue "location" (PStr "");
  description ← PyVal.get issue "description" (PStr "");
  suggestion ← PyVal.get issue "suggestion" (PStr "");
  reference ← PyVal.get issue "reference" PNone;
  Ok (ContentIssue.mk issue_type severity location description suggestion reference).

(** [_parse_response]: only [JSONDecodeError] is caught here. *)
Definition _parse_response (response : string) : result QualityReviewResult.t :=
  match Json.loads (fenced_payload response) with
  | Raise JSONDecodeError => Ok _default_result
  | Raise e => Raise e
  | Ok data =>
      raw ← PyVal.get data "issues" (PList []);
      items ← PyVal.iter raw;
      issues ← for_each content_issue items;
      score ← PyVal.get data "score" (PInt 70) ≫= PyVal.int;
      approved ← PyVal.get data "approved" (PBool true);
      summary ← PyVal.get data "summary" (PStr "");
      logic_score ← PyVal.get data "logic_score" (PInt 70) ≫= PyVal.int;
      accuracy_score ← PyVal.get data "accuracy_score" (PInt 70) ≫= PyVal.int;
      completeness_score ← PyVal.get data "completeness_score" (PInt 70) ≫= PyVal.int;
      Ok (QualityReviewResult.mk score approved issues summary
            logic_score accuracy_score completeness_score)
  end.

Section review.
Variable llm : llm_service.
(** [self.pm.render_quality_review]. *)
Variable render_quality_review : string -> option (list Reference.t) -> string.

(** [review]. *)
Definition review (content : string) (references : option (list Reference.t)) :
    QualityReviewResult.t :=
  let prompt := render_quality_review content references in
  match llm prompt with
  | Ok response =>
      if falsy response then _default_result
      else match _parse_response (default EmptyString response) with
           | Ok r => r
           | Raise _ => _default_result
           end
  | Raise _ => _default_result
  end.
End review.

End QualityReviewer.

(** ** agents/readability_checker.py *)

Module ReadabilityChecker.

(** [_default_result]. *)
Definition _default_result : ReadabilityResult.t :=
  {| ReadabilityResult.score := 70;
     ReadabilityResult.level := NORMAL;
     ReadabilityResult.issues := [];
     ReadabilityResult.summary := PStr "可读性检测完成";
     ReadabilityResult.vocabulary_score := 70;
     ReadabilityResult.syntax_score := 70;
     ReadabilityResult.discourse_score := 70;
     ReadabilityResult.surface_score := 70 |}.

(** One turn of the loop over [data.get('issues', [])]; no reference is
    passed, so the field keeps its default. *)
Definition content_issue (issue : pyval) : result ContentIssue.t :=
  issue_type ← PyVal.get issue "issue_type" (PStr "unknown");
  severity ← PyVal.get issue "severity" (PStr "medium");
  location ← PyVal.get issue "location" (PStr "");
  description ← PyVal.get issue "description" (PStr "");
  suggestion ← PyVal.get issue "suggestion" (PStr "");
  Ok (ContentIssue.mk issue_type severity location description suggestion PNone).

Section check.
Variable llm : llm_service.
(** [self.pm.render_readability_check]. *)
Variable render_readability_check : string -> string.
(** The values of the members of [ReadabilityLevel] other than
    [NORMAL]. *)
Variable level_values : list string.

(** [ReadabilityLevel(level_str)]. *)
Definition ReadabilityLevel_of (v : pyval) : result ReadabilityLevel :=
  match v with
  | PStr s =>
      if bool_decide (s = "normal") then Ok NORMAL
      else if bool_decide (s ∈ level_values) then Ok (LEVEL s)
      else Raise ValueError
  | _ => Raise ValueError
  end.

(** [_parse_response]: a [ValueError] of the level falls back to
    [NORMAL]; of the rest only [JSONDecodeError] is caught here. *)
Definition _parse_response (response : string) : result ReadabilityResult.t :=
  match Json.loads (fenced_payload response) with
  | Raise JSONDecodeError => Ok _default_result
  | Raise e => Raise e
  | Ok data =>
      level_str ← PyVal.get data "level" (PStr "normal");
      let level :=
        match ReadabilityLevel_of level_str with
        | Ok l => l
        | Raise _ => NORMAL
        end in
      raw ← PyVal.get data "issues" (PList []);
      items ← PyVal.iter raw;
      issues ← for_each content_issue items;
      score ← PyVal.get data "score" (PInt 70) ≫= PyVal.int;
      summary ← PyVal.get data "summary" (PStr "");
      vocabulary_score ← PyVal.get data "vocabulary_score" (PInt 70) ≫= PyVal.int;
      syntax_score ← PyVal.get data "syntax_score" (PInt 70) ≫= PyVal.int;
      discourse_score ← PyVal.get data "discourse_score" (PInt 70) ≫= PyVal.int;
      surface_score ← PyVal.get data "surface_score" (PInt 70) ≫= PyVal.int;
      Ok (ReadabilityResult.mk score level issues summary
            vocabulary_score syntax_score discourse_score surface_score)
  end.

(** [check]. *)
Definition check (content : string) : ReadabilityResult.t :=
  let prompt := render_readability_check content in
  match llm prompt with
  | Ok response =>
      if falsy response then _default_result
      else match _parse_response (default EmptyString response) with
           | Ok r => r
           | Raise _ => _default_result
           end
  | Raise _ => _default_result
  end.
End check.

End ReadabilityChecker.

(** ** [list.sort]

    Python's sort is stable; on a list it is the stable sort, whatever the
    algorithm.  [stable_sort before] inserts each element in front of the
    first element of the sorted tail that it may stand before, so that
    elements the order does not tell apart keep their places. *)

Section stable_sort.
Context {A : Type} (before : A -> A -> bool).

Fixpoint insert_sorted (x : A) (l : list A) : list A :=
  match l with
  | [] => [x]
  | y :: l' => if before x y then x :: l else y :: insert_sorted x l'
  end.

Definition stable_sort (l : list A) : list A := foldr insert_sorted [] l.
End stable_sort.

(** [l.sort(key=lambda x: key(x))] for an integer key. *)
Definition sort_by {A : Type} (key : A -> Z) : list A -> list A :=
  stable_sort (fun x y => key x <=? key y).

(** The order [sort_by key] sorts into. *)
Definition key_le {A : Type} (key : A -> Z) (x y : A) : Prop := key x <= key y.

(** [l.sort(key=lambda x: key(x), reverse=True)] for a rational key. *)
Definition sort_by_reverse {A : Type} (key : A -> Q) : list A -> list A :=
  stable_sort (fun x y => Qle_bool (key y) (key x)).

(** ** agents/improver.py *)

Module Improver.

(** One turn of the loop over [data.get('feedback', [])]. *)
Definition feedback (fb : pyval) : result ActionableFeedback.t :=
  priority ← PyVal.get fb "priority" (PInt 3) ≫= PyVal.int;
  location ← PyVal.get fb "location" (PStr "");
  issue_type ← PyVal.get fb "issue_type" (PStr "unknown");
  problem ← PyVal.get fb "problem" (PStr "");
  action ← PyVal.get fb "action" (PStr "");
  reference ← PyVal.get fb "reference" PNone;
  estimated_effort ← PyVal.get fb "estimated_effort" (PStr "medium");
  Ok (ActionableFeedback.mk priority location issue_type problem action
        reference estimated_effort).

(** [_parse_response]: a [JSONDecodeError] ends in the empty list. *)
Definition _parse_response (response : string) : result (list ActionableFeedback.t) :=
  match Json.loads (fenced_payload response) with
  | Raise JSONDecodeError => Ok []
  | Raise e => Raise e
  | Ok data =>
      raw ← PyVal.get data "feedback" (PList []);
      items ← PyVal.iter raw;
      feedback_list ← for_each feedback items;
      Ok (sort_by ActionableFeedback.priority feedback_list)
  end.

(** The feedback item of a vague point of the depth check. *)
Definition of_vague_point (vp : VaguePoint.t) : ActionableFeedback.t :=
  {| ActionableFeedback.priority := 3;
     ActionableFeedback.location := VaguePoint.location vp;
     ActionableFeedback.issue_type := PStr "missing_detail";
     ActionableFeedback.problem := VaguePoint.issue vp;
     ActionableFeedback.action := VaguePoint.suggestion vp;
     ActionableFeedback.reference := PNone;
     ActionableFeedback.estimated_effort := PStr "medium" |}.

(** The feedback item of an issue of the quality review. *)
Definition of_quality_issue (issue : ContentIssue.t) : ActionableFeedback.t :=
  let severity := ContentIssue.severity issue in
  {| ActionableFeedback.priority :=
       if PyVal.eq_str severity "high" then 1
       else if PyVal.eq_str severity "medium" then 2 else 4;
     ActionableFeedback.location := ContentIssue.location issue;
     ActionableFeedback.issue_type := ContentIssue.issue_type issue;
     ActionableFeedback.problem := ContentIssue.description issue;
     ActionableFeedback.action := ContentIssue.suggestion issue;
     ActionableFeedback.reference := ContentIssue.reference issue;
     ActionableFeedback.estimated_effort :=
       if negb (PyVal.eq_str severity "low") then PStr "medium" else PStr "low" |}.

(** The feedback item of an issue of the readability check. *)
Definition of_readability_issue (issue : ContentIssue.t) : ActionableFeedback.t :=
  let severity := ContentIssue.severity issue in
  {| ActionableFeedback.priority :=
       if PyVal.eq_str severity "high" then 2
       else if PyVal.eq_str severity "medium" then 3 else 4;
     ActionableFeedback.location := ContentIssue.location issue;
     ActionableFeedback.issue_type := ContentIssue.issue_type issue;
     ActionableFeedback.problem := ContentIssue.description issue;
     ActionableFeedback.action := ContentIssue.suggestion issue;
     ActionableFeedback.reference := PNone;
     ActionableFeedback.estimated_effort := PStr "low" |}.

(** The list [_generate_from_results] has built when it reaches its
    sort: the three loops in turn. *)
Definition generated (depth_result : DepthCheckResult.t)
    (quality_result : QualityReviewResult.t)
    (readability_result : ReadabilityResult.t) : list ActionableFeedback.t :=
  (of_vague_point <$> DepthCheckResult.vague_points depth_result)
  ++ (of_quality_issue <$> QualityReviewResult.issues quality_result)
  ++ (of_readability_issue <$> ReadabilityResult.issues readability_result).

(** [_generate_from_results], the fallback. *)
Definition _generate_from_results (depth_result : DepthCheckResult.t)
    (quality_result : QualityReviewResult.t)
    (readability_result : ReadabilityResult.t) : list ActionableFeedback.t :=
  sort_by ActionableFeedback.priority
    (generated depth_result quality_result readability_result).

(** The dictionaries [generate] hands to the prompt template. *)
Definition issue_dict (i : ContentIssue.t) : pyval :=
  PDict [("issue_type", ContentIssue.issue_type i);
         ("severity", ContentIssue.severity i);
         ("location", ContentIssue.location i);
         ("description", ContentIssue.description i);
         ("suggestion", ContentIssue.suggestion i)].

Definition depth_dict (r : DepthCheckResult.t) : pyval :=
  PDict [("score", PInt (DepthCheckResult.score r));
         ("vague_points",
          PList ((fun vp =>
                    PDict [("location", VaguePoint.location vp);
                           ("issue", VaguePoint.issue vp);
                           ("question", VaguePoint.question vp);
                           ("suggestion", VaguePoint.suggestion vp)])
                 <$> DepthCheckResult.vague_points r))].

Definition quality_dict (r : QualityReviewResult.t) : pyval :=
  PDict [("score", PInt (QualityReviewResult.score r));
         ("issues", PList (issue_dict <$> QualityReviewResult.issues r))].

Definition level_value (l : ReadabilityLevel) : string :=
  match l with
  | NORMAL => "normal"
  | LEVEL v => v
  end.

Definition readability_dict (r : ReadabilityResult.t) : pyval :=
  PDict [("score", PInt (ReadabilityResult.score r));
         ("level", PStr (level_value (ReadabilityResult.level r)));
         ("issues", PList (issue_dict <$> ReadabilityResult.issues r))].

Section generate.
Variable llm : llm_service.
(** [self.pm.render_improvement]. *)
Variable render_improvement : string -> pyval -> pyval -> pyval -> string.

(** [generate]. *)
Definition generate (content : string) (depth_result : DepthCheckResult.t)
    (quality_result : QualityReviewResult.t)
    (readability_result : ReadabilityResult.t) : list ActionableFeedback.t :=
  let prompt :=
    render_improvement content (depth_dict depth_result)
      (quality_dict quality_result) (readability_dict readability_result) in
  let fallback :=
    _generate_from_results depth_result quality_result readability_result in
  match llm prompt with
  | Ok response =>
      if falsy response then fallback
      else match _parse_response (default EmptyString response) with
           | Ok feedback_list => feedback_list
           | Raise _ => fallback
           end
  | Raise _ => fallback
  end.
End generate.

End Improver.

(** ** pipeline/analyzer.py *)

Module ContentAnalyzer.

(** [_default_summary]. *)
Definition _default_summary (content : string) : ContentSummary.t :=
  let words := take 10 (Py.split (Py.prefix_of 500 content)) in
  let search_queries :=
    match words with
    | [] => []
    | _ => [Py.join " " (take 5 words)]
    end in
  {| ContentSummary.topic := "";
     ContentSummary.content_type := UNKNOWN;
     ContentSummary.core_points := [];
     ContentSummary.key_terms := [];
     ContentSummary.fact_claims := [];
     ContentSummary.search_queries := search_queries |}.

Definition as_str (v : pyval) : option string :=
  match v with
  | PStr s => Some s
  | _ => None
  end.

Definition as_strs (v : pyval) : option (list string) :=
  match v with
  | PList l => mapM as_str l
  | _ => None
  end.

(** [ContentSummary(topic=..., ...)] on decoded values.  Python stores
    them unchecked; the summary exists at its declared types only when
    the values have them, and [None] stands for an object that does
    not. *)
Definition summary_of (topic : pyval) (content_type : ContentType)
    (core_points key_terms fact_claims search_queries : pyval) :
    option ContentSummary.t :=
  topic ← as_str topic;
  core_points ← as_strs core_points;
  key_terms ← as_strs key_terms;
  fact_claims ← as_strs fact_claims;
  search_queries ← as_strs search_queries;
  Some (ContentSummary.mk topic content_type core_points key_terms
          fact_claims search_queries).

(** What [_parse_response] does with the decoded [data]. *)
Definition summary_of_data (data : pyval) : result (option ContentSummary.t) :=
  content_type_str ← PyVal.get data "content_type" (PStr "unknown");
  let content_type :=
    match ContentType_of content_type_str with
    | Ok t => t
    | Raise _ => UNKNOWN
    end in
  topic ← PyVal.get data "topic" (PStr "");
  core_points ← PyVal.get data "core_points" (PList []);
  key_terms ← PyVal.get data "key_terms" (PList []);
  fact_claims ← PyVal.get data "fact_claims" (PList []);
  search_queries ← PyVal.get data "search_queries" (PList []);
  Ok (summary_of topic content_type core_points key_terms fact_claims search_queries).

(** What [_parse_response] does with the text the fences leave:
    [json.loads], then the summary of the data; a [JSONDecodeError] ends
    in the default summary of the empty text. *)
Definition decode (payload : string) : result (option ContentSummary.t) :=
  match Json.loads payload with
  | Raise JSONDecodeError => Ok (Some (_default_summary ""))
  | Raise e => Raise e
  | Ok data => summary_of_data data
  end.

(** [_parse_response]. *)
Definition _parse_response (response : string) : result (option ContentSummary.t) :=
  decode (fenced_payload response).

Section analyze.
Variable llm : llm_service.
(** [self.pm.render_analyze]. *)
Variable render_analyze : string -> string.

(** [analyze]. *)
Definition analyze (content : string) : option ContentSummary.t :=
  let prompt := render_analyze content in
  match llm prompt with
  | Ok response =>
      if falsy response then Some (_default_summary content)
      else match _parse_response (default EmptyString response) with
           | Ok summary => summary
           | Raise _ => Some (_default_summary content)
           end
  | Raise _ => Some (_default_summary content)
  end.
End analyze.

End ContentAnalyzer.

(** ** pipeline/search_agent.py *)

Module SearchAgent.

(** One raw result of the search service: a [dict] of texts. *)
Definition item : Type := gmap string string.

(** What [search_service.search(query, max_results=n)] returns. *)
Inductive response : Type :=
| Envelope (success : bool) (results : option (list item))
| Listing (results : list item)
| Other.

(** A search service: whether it has a [search] method, and the method. *)
Record service : Type := Service {
  has_search : bool;
  search_method : string -> Z -> result response;
}.

Definition to_result (query : string) (it : item) : SearchResult.t :=
  {| SearchResult.query := query;
     SearchResult.source_url := default "" (it !! "url");
     SearchResult.title := default "" (it !! "title");
     SearchResult.snippet := default (default "" (it !! "snippet")) (it !! "content");
     SearchResult.relevance_score := 0 |}.

Section agent.
(** [self.search_service]; [None] when the agent was built without
    one. *)
Variable search_service : option service.

(** [_execute_search]: every exception ends in the empty list. *)
Definition _execute_search (svc : service) (query : string) (max_results : Z) :
    list SearchResult.t :=
  if has_search svc then
    match search_method svc query max_results with
    | Ok (Envelope success results) =>
        if success then to_result query <$> default [] results else []
    | Ok (Listing results) => to_result query <$> results
    | Ok Other => []
    | Raise _ => []
    end
  else [].

(** The body of the inner loop of [search]: [all_results] and
    [seen_urls] after one more result. *)
Definition collect (st : list SearchResult.t * gset string) (r : SearchResult.t) :
    list SearchResult.t * gset string :=
  let '(all_results, seen_urls) := st in
  if bool_decide (SearchResult.source_url r ∈ seen_urls) then st
  else (all_results ++ [r], {[SearchResult.source_url r]} ∪ seen_urls).

(** [search].  Its [except] clause is not reached: [_execute_search]
    raises nothing and neither does the inner loop. *)
Definition search (queries : list string) (max_results_per_query : Z) :
    list SearchResult.t :=
  match search_service with
  | None => []
  | Some svc =>
      (foldl (fun st query =>
                foldl collect st (_execute_search svc query max_results_per_query))
         ([], ∅) queries).1
  end.

(** [search_multi_round]. *)
Definition search_multi_round (summary : ContentSummary.t)
    (max_rounds results_per_round : Z) : list SearchResult.t :=
  let all_results := [] in
  let all_results :=
    if bool_decide (ContentSummary.search_queries summary ≠ []) then
      all_results
      ++ search (take 3 (ContentSummary.search_queries summary))
           (results_per_round / 3 + 1)
    else all_results in
  let all_results :=
    if (2 <=? max_rounds) && bool_decide (ContentSummary.key_terms summary ≠ []) then
      let term_queries :=
        (fun term => ContentSummary.topic summary +:+ " " +:+ term)
        <$> take 2 (ContentSummary.key_terms summary) in
      all_results ++ search term_queries 2
    else all_results in
  all_results.
End agent.

End SearchAgent.

(** ** pipeline/reference_manager.py

    Scores are Python floats in the source.  [_calculate_relevance] below
    is the score in exact arithmetic, a rational: the binary64 score of
    the code differs from it by the rounding of its five operations.  What
    is proved of it is what rounding does not change: its bounds 0 and 1,
    that it is 0 where it has no term, and equations between two scores.
    The order of a ranking is proved of any scoring function, further
    down. *)

Module ReferenceManager.

(** [len(set(a) & set(b))]. *)
Definition common_words (a b : list string) : nat :=
  size ((list_to_set a : gset string) ∩ list_to_set b).

(** [matched / len(l)] as the source divides two lengths. *)
Definition ratio (matched total : nat) : Q :=
  inject_Z (Z.of_nat matched) / inject_Z (Z.of_nat total).

(** [_calculate_relevance]. *)
Definition _calculate_relevance (result : SearchResult.t) (summary : ContentSummary.t) : Q :=
  let score := 0%Q in
  let text := Py.lower (SearchResult.title result +:+ " " +:+ SearchResult.snippet result) in
  let topic := ContentSummary.topic summary in
  let score :=
    if bool_decide (topic ≠ "") && Py.contains (Py.lower topic) text
    then (score + (3 # 10))%Q else score in
  let matched_terms :=
    length (filter (fun term => Py.contains (Py.lower term) text = true)
              (ContentSummary.key_terms summary)) in
  let score :=
    if bool_decide (ContentSummary.key_terms summary ≠ [])
    then (score + (4 # 10) * ratio matched_terms (length (ContentSummary.key_terms summary)))%Q
    else score in
  let matched_points :=
    length (filter (fun point =>
                      (2 <= common_words (Py.split (Py.lower point)) (Py.split text))%nat)
              (ContentSummary.core_points summary)) in
  let score :=
    if bool_decide (ContentSummary.core_points summary ≠ [])
    then (score + (3 # 10) * ratio matched_points (length (ContentSummary.core_points summary)))%Q
    else score in
  Qmin score 1.

(** [evaluate_relevance]: every result gets its score, then the list is
    sorted by score, highest first. *)
Definition evaluate_relevance (results : list SearchResult.t) (summary : ContentSummary.t) :
    list SearchResult.t :=
  match results with
  | [] => []
  | _ =>
      let evaluated_results :=
        (fun result =>
           {| SearchResult.query := SearchResult.query result;
              SearchResult.source_url := SearchResult.source_url result;
              SearchResult.title := SearchResult.title result;
              SearchResult.snippet := SearchResult.snippet result;
              SearchResult.relevance_score := _calculate_relevance result summary |})
        <$> results in
      sort_by_reverse SearchResult.relevance_score evaluated_results
  end.

(** [filter_by_relevance]. *)
Definition filter_by_relevance (results : list SearchResult.t) (min_score : Q) :
    list SearchResult.t :=
  filter (fun r => Qle_bool min_score (SearchResult.relevance_score r) = true) results.

(** [get_top_references] for [0 <= top_k]. *)
Definition get_top_references (results : list SearchResult.t) (top_k : nat) :
    list Reference.t :=
  (fun r =>
     {| Reference.title := SearchResult.title r;
        Reference.source_url := SearchResult.source_url r;
        Reference.snippet := SearchResult.snippet r;
        Reference.relevance_score := SearchResult.relevance_score r |})
  <$> take top_k results.

End ReferenceManager.

(** ** pipeline/score_aggregator.py

    The weights are Python floats: binary64 numbers, here Rocq's primitive
    floats, with the arithmetic of the machine. *)

#[global] Instance ContentType_countable : Countable ContentType.
Proof.
  refine (inj_countable'
            (fun t => match t with
                      | TECHNICAL_TUTORIAL => 0 | SCIENCE_POPULAR => 1
                      | DOCUMENTATION => 2 | NEWS => 3 | OPINION => 4 | UNKNOWN => 5
                      end%nat)
            (fun n => match n with
                      | 0 => TECHNICAL_TUTORIAL | 1 => SCIENCE_POPULAR
                      | 2 => DOCUMENTATION | 3 => NEWS | 4 => OPINION | _ => UNKNOWN
                      end%nat) _).
  intros []; reflexivity.
Defined.

(** Modelled from the spec: the dataclass [DimensionScores] of the
    missing [schemas.py], with the fields [aggregate] fills. *)
Module DimensionScores.
Record t : Set := mk {
  depth : Z;
  accuracy : Z;
  completeness : Z;
  logic : Z;
  clarity : Z;
  usefulness : Z;
  novelty : Z;
  readability : Z;
}.
End DimensionScores.

Module ScoreAggregator.

Definition row (depth accuracy completeness logic readability : float) :
    gmap string float :=
  list_to_map [("depth", depth); ("accuracy", accuracy);
               ("completeness", completeness); ("logic", logic);
               ("readability", readability)].

(** [WEIGHT_CONFIGS]. *)
Definition WEIGHT_CONFIGS : gmap ContentType (gmap string float) :=
  list_to_map
    [(TECHNICAL_TUTORIAL, row 0.25 0.25 0.15 0.15 0.20);
     (SCIENCE_POPULAR, row 0.15 0.20 0.15 0.15 0.35);
     (DOCUMENTATION, row 0.20 0.30 0.25 0.15 0.10);
     (NEWS, row 0.10 0.35 0.20 0.15 0.20);
     (OPINION, row 0.20 0.15 0.15 0.30 0.20);
     (UNKNOWN, row 0.20 0.20 0.20 0.20 0.20)]%float.

(** The five dimensions of a row, in the order the rows list them. *)
Definition dimensions : list string :=
  ["depth"; "accuracy"; "completeness"; "logic"; "readability"].

(** [sum(weights.values())] of a row that has the five dimensions. *)
Definition weight_sum (weights : gmap string float) : float :=
  foldl (fun acc k => acc + default 0 (weights !! k))%float 0%float dimensions.

(** [abs(x - 1.0) <= 1e-6]. *)
Definition sums_to_one (x : float) : bool :=
  (abs (x - 1) <=? 1e-6)%float.

(** The truth value of [self.custom_weights]: [None] and the empty
    [dict] are false. *)
Definition given (custom_weights : option (gmap string float)) : bool :=
  match custom_weights with
  | Some w => bool_decide (w ≠ ∅)
  | None => false
  end.

Section aggregate.
(** [self.custom_weights]. *)
Variable custom_weights : option (gmap string float).

(** [aggregate]. *)
Definition aggregate (depth_result : DepthCheckResult.t)
    (quality_result : QualityReviewResult.t)
    (readability_result : ReadabilityResult.t)
    (content_type : ContentType) : result (Z * DimensionScores.t) :=
  let weights :=
    if given custom_weights then default ∅ custom_weights
    else default (WEIGHT_CONFIGS !!! UNKNOWN) (WEIGHT_CONFIGS !! content_type) in
  let dimension_scores :=
    {| DimensionScores.depth := DepthCheckResult.score depth_result;
       DimensionScores.accuracy := QualityReviewResult.accuracy_score quality_result;
       DimensionScores.completeness :=
         QualityReviewResult.completeness_score quality_result;
       DimensionScores.logic := QualityReviewResult.logic_score quality_result;
       DimensionScores.clarity := ReadabilityResult.vocabulary_score readability_result;
       DimensionScores.usefulness := 0;
       DimensionScores.novelty := 0;
       DimensionScores.readability := ReadabilityResult.score readability_result |} in
  d ← PyFloat.mul_int (default 0.2%float (weights !! "depth"))
         (DepthCheckResult.score depth_result);
  a ← PyFloat.mul_int (default 0.2%float (weights !! "accuracy"))
         (QualityReviewResult.accuracy_score quality_result);
  c ← PyFloat.mul_int (default 0.2%float (weights !! "completeness"))
         (QualityReviewResult.completeness_score quality_result);
  l ← PyFloat.mul_int (default 0.2%float (weights !! "logic"))
         (QualityReviewResult.logic_score quality_result);
  r ← PyFloat.mul_int (default 0.2%float (weights !! "readability"))
         (ReadabilityResult.score readability_result);
  let overall_score := (d + a + c + l + r)%float in
  overall ← PyFloat.to_int overall_score;
  Ok (overall, dimension_scores).
End aggregate.

(** [get_grade]. *)
Definition get_grade (score : Z) : string :=
  if 90 <=? score then "A"
  else if 80 <=? score then "B"
  else if 70 <=? score then "C"
  else if 60 <=? score then "D"
  else "F".

End ScoreAggregator.

(** ** models/reviewer_models.py: the chapter table

    A row of [reviewer_chapters] with the columns the pipeline reads and
    writes (time stamps left out), and the table as its rows in rowid
    order. *)

Module ChapterModel.

Record row : Set := mk {
  id : Z;
  tutorial_id : Z;
  file_path : string;
  chapter_order : Z;
  content_hash : option string;
  raw_content : option string;
  depth_score : Z;
  quality_score : Z;
  readability_score : Z;
  readability_level : option string;
  overall_score : Z;
  total_issues : Z;
  high_issues : Z;
  medium_issues : Z;
  low_issues : Z;
  status : string;
}.

#[global] Instance row_eq_dec : EqDecision row.
Proof. solve_decision. Defined.

Definition table : Set := list row.

(** [get_by_hash]: the first row of the tutorial with that content
    hash, if there is one. *)
Definition get_by_hash (db : table) (tutorial : Z) (hash : string) : option row :=
  List.find
    (fun r => bool_decide (tutorial_id r = tutorial)
              && bool_decide (content_hash r = Some hash)) db.

(** [get_by_id]: the row of that id, if there is one. *)
Definition get_by_id (db : table) (chapter_id : Z) : option row :=
  List.find (fun r => bool_decide (id r = chapter_id)) db.

(** [update_scores], for an id, scores and counts that SQLite can store:
    64-bit integers.  Beyond them the statement raises and the table is
    left as it was. *)
Definition update_scores (db : table) (chapter_id : Z)
    (overall depth quality readability : Z) (level : option string)
    (total high medium low : Z) : table :=
  (fun r =>
     if bool_decide (id r = chapter_id) then
       {| id := id r; tutorial_id := tutorial_id r; file_path := file_path r;
          chapter_order := chapter_order r; content_hash := content_hash r;
          raw_content := raw_content r;
          depth_score := depth; quality_score := quality;
          readability_score := readability; readability_level := level;
          overall_score := overall; total_issues := total; high_issues := high;
          medium_issues := medium; low_issues := low; status := "completed" |}
     else r) <$> db.

End ChapterModel.

(** ** The pipeline orchestrator

    [reviewer_service.py], which drives the pipeline, is not part of the
    sources at hand. *)

Module Orchestrator.

(** Modelled from the spec: what a run of stages 4.1 to 4.6 on one
    chapter text yields, with the number of calls into the generation
    capability and into the search capability that the run made. *)
Record evaluation : Set := mk_evaluation {
  overall : Z;
  depth : Z;
  quality : Z;
  readability : Z;
  level : option string;
  total : Z;
  high : Z;
  medium : Z;
  low : Z;
  generation_calls : nat;
  search_calls : nat;
}.

(** Modelled from the spec: the state of a run, which is the persisted
    chapter records and, for each call into the generation and the
    search capability, the position of the chapter it was made for. *)
Record state : Set := mk_state {
  chapters : ChapterModel.table;
  generation_log : list nat;
  search_log : list nat;
}.

Section run.
(** The content fingerprint, a pure function of the raw text (the
    scanner uses the MD5 digest in hexadecimal). *)
Variable fingerprint : string -> string.
(** Stages 4.1 to 4.6 on a chapter text. *)
Variable pipeline : string -> evaluation.
(** The tutorial under evaluation. *)
Variable tutorial : Z.

(** The row is the one of the given position of the tutorial. *)
Definition at_position (position : nat) (r : ChapterModel.row) : bool :=
  bool_decide (ChapterModel.tutorial_id r = tutorial)
  && bool_decide (ChapterModel.chapter_order r = Z.of_nat position).

(** Modelled from the spec: the record stored for a chapter position
    of the tutorial. *)
Definition stored (db : ChapterModel.table) (position : nat) : option ChapterModel.row :=
  List.find (at_position position) db.

(** Modelled from the spec: the chapter record of an evaluated
    chapter, with all its scores populated. *)
Definition completed (id : Z) (position : nat) (path text : string) (e : evaluation) :
    ChapterModel.row :=
  {| ChapterModel.id := id;
     ChapterModel.tutorial_id := tutorial;
     ChapterModel.file_path := path;
     ChapterModel.chapter_order := Z.of_nat position;
     ChapterModel.content_hash := Some (fingerprint text);
     ChapterModel.raw_content := Some text;
     ChapterModel.depth_score := depth e;
     ChapterModel.quality_score := quality e;
     ChapterModel.readability_score := readability e;
     ChapterModel.readability_level := level e;
     ChapterModel.overall_score := overall e;
     ChapterModel.total_issues := total e;
     ChapterModel.high_issues := high e;
     ChapterModel.medium_issues := medium e;
     ChapterModel.low_issues := low e;
     ChapterModel.status := "completed" |}.

(** Modelled from the spec: persisting the record of a position, in
    place of the one stored for it, or as a new row. *)
Fixpoint persist (db : ChapterModel.table) (position : nat)
    (fresh : Z -> ChapterModel.row) (next_id : Z) : ChapterModel.table :=
  match db with
  | [] => [fresh next_id]
  | r :: db' =>
      if at_position position r
      then fresh (ChapterModel.id r) :: db'
      else r :: persist db' position fresh (Z.max next_id (ChapterModel.id r + 1))
  end.

(** Modelled from the spec: one chapter of a run (4.7).  The
    fingerprint of the current text is compared with the one stored
    for the position; when they are equal the chapter is skipped
    entirely, otherwise the stages run, their calls are made and the
    record is persisted. *)
Definition evaluate_chapter (st : state) (position : nat) (path text : string) : state :=
  let unchanged :=
    match stored (chapters st) position with
    | Some r => bool_decide (ChapterModel.content_hash r = Some (fingerprint text))
    | None => false
    end in
  if unchanged then st
  else
    let e := pipeline text in
    {| chapters := persist (chapters st) position (fun id => completed id position path text e) 1;
       generation_log := generation_log st ++ replicate (generation_calls e) position;
       search_log := search_log st ++ replicate (search_calls e) position |}.

(** Modelled from the spec: the chapters of a run, in their order
    index; a unit is a path and a text, its position its index. *)
Fixpoint evaluate_from (st : state) (position : nat) (units : list (string * string)) :
    state :=
  match units with
  | [] => st
  | (path, text) :: rest =>
      evaluate_from (evaluate_chapter st position path text) (S position) rest
  end.

(** A run over the prior records: no call has been made yet. *)
Definition evaluate_tutorial (prior : ChapterModel.table) (units : list (string * string)) :
    state :=
  evaluate_from (mk_state prior [] []) 0 units.
End run.

End Orchestrator.

(** ** Replies of the language model

    A reply is empty when it is [None] or the empty text, and unparseable
    when [json.loads] rejects what the fences leave of it. *)

Definition unparseable (text : string) : Prop :=
  Json.loads (fenced_payload text) = Raise JSONDecodeError.

Definition empty_or_unparseable (reply : result (option string)) : Prop :=
  match reply with
  | Ok None => True
  | Ok (Some text) => text = "" ∨ unparseable text
  | Raise _ => False
  end.

(** ** First occurrence wins

    The spec's deduplication by source identifier, written on its own:
    of the results that share a source identifier only the first is
    kept.  [seen] holds the identifiers met so far. *)

Fixpoint first_by_url (seen : gset string) (l : list SearchResult.t) : list SearchResult.t :=
  match l with
  | [] => []
  | r :: l' =>
      if bool_decide (SearchResult.source_url r ∈ seen) then first_by_url seen l'
      else r :: first_by_url ({[SearchResult.source_url r]} ∪ seen) l'
  end.

Definition urls (l : list SearchResult.t) : list string := SearchResult.source_url <$> l.

(** ** The weights [aggregate] works with

    The weight of a dimension as [weights.get(k, 0.2)] reads it, the sum
    of the five weights so read, and the overall score they give: the
    weighted sum of the depth score, the accuracy, completeness and logic
    scores of the quality review and the readability score, truncated to
    an integer. *)

Definition effective_weight (weights : gmap string float) (k : string) : float :=
  default 0.2%float (weights !! k).

Definition effective_sum (weights : gmap string float) : float :=
  foldl (fun acc k => acc + effective_weight weights k)%float 0%float
    ScoreAggregator.dimensions.

Definition dimension_scores_of (depth_result : DepthCheckResult.t)
    (quality_result : QualityReviewResult.t) (readability_result : ReadabilityResult.t) :
    DimensionScores.t :=
  DimensionScores.mk (DepthCheckResult.score depth_result)
    (QualityReviewResult.accuracy_score quality_result)
    (QualityReviewResult.completeness_score quality_result)
    (QualityReviewResult.logic_score quality_result)
    (ReadabilityResult.vocabulary_score readability_result) 0 0
    (ReadabilityResult.score readability_result).

Definition weighted_score (w : string -> float) (depth_result : DepthCheckResult.t)
    (quality_result : QualityReviewResult.t) (readability_result : ReadabilityResult.t) :
    result (Z * DimensionScores.t) :=
  d ← PyFloat.mul_int (w "depth") (DepthCheckResult.score depth_result);
  a ← PyFloat.mul_int (w "accuracy") (QualityReviewResult.accuracy_score quality_result);
  c ← PyFloat.mul_int (w "completeness")
         (QualityReviewResult.completeness_score quality_result);
  l ← PyFloat.mul_int (w "logic") (QualityReviewResult.logic_score quality_result);
  r ← PyFloat.mul_int (w "readability") (ReadabilityResult.score readability_result);
  overall ← PyFloat.to_int (d + a + c + l + r)%float;
  Ok (overall, dimension_scores_of depth_result quality_result readability_result).

(** ** Extraction by bracket scanning

    The spec's fallback for a response without fence, written on its
    own: the text from the first opening brace to the last closing brace.
    No parser of the package does this. *)


(** [n] spaces. *)
Definition blank (n : nat) : string := string_of_list_ascii (replicate n " "%char).

(** A quoted JSON string, for the examples. *)
Definition quoted (s : string) : string := String "034" (s +:+ String "034" "").

(** Characters beyond ASCII, for the examples: the ideographic space
    U+3000, the no-break space U+00A0, and the ideograph U+4E2D. *)
Definition ideographic_space : string := String "227" (String "128" (String "128" "")).
Definition no_break_space : string := String "194" (String "160" "").
Definition zhong : string := String "228" (String "184" (String "173" "")).

(** [s * n]. *)
Fixpoint times (n : nat) (s : string) : string :=
  match n with
  | O => EmptyString
  | S k => s +:+ times k s
  end.

(** ** Search services

    A query fails when the service has no [search] method, when the call
    raises, when the envelope reports no success, or when the response
    is neither an envelope nor a list. *)

Definition search_fails (svc : SearchAgent.service) (query : string) (n : Z) : Prop :=
  SearchAgent.has_search svc = false
  ∨ match SearchAgent.search_method svc query n with
    | Raise _ => True
    | Ok (SearchAgent.Envelope success _) => success = false
    | Ok (SearchAgent.Listing _) => False
    | Ok SearchAgent.Other => True
    end.

(** The items of a response that [_execute_search] converts. *)
Definition response_items (r : result SearchAgent.response) : list SearchAgent.item :=
  match r with
  | Ok (SearchAgent.Envelope true (Some items)) => items
  | Ok (SearchAgent.Listing items) => items
  | _ => []
  end.

(** A service honours the limit when no response holds more items than
    were asked for. *)
Definition honours_limit (svc : SearchAgent.service) : Prop :=
  ∀ query n, (length (response_items (SearchAgent.search_method svc query n)) ≤ Z.to_nat n)%nat.

(** The queries [search_multi_round] asks in its second round. *)
Definition term_queries (summary : ContentSummary.t) : list string :=
  (fun term => ContentSummary.topic summary +:+ " " +:+ term)
  <$> take 2 (ContentSummary.key_terms summary).

(** ** Results and their scores

    A result with the score [evaluate_relevance] gives it, the order the
    ranking sorts into, and a result and a summary in lower case. *)

Definition with_relevance (summary : ContentSummary.t) (result : SearchResult.t) :
    SearchResult.t :=
  {| SearchResult.query := SearchResult.query result;
     SearchResult.source_url := SearchResult.source_url result;
     SearchResult.title := SearchResult.title result;
     SearchResult.snippet := SearchResult.snippet result;
     SearchResult.relevance_score :=
       ReferenceManager._calculate_relevance result summary |}.

Definition ranks_before (a b : SearchResult.t) : Prop :=
  (SearchResult.relevance_score b <= SearchResult.relevance_score a)%Q.

Definition lower_result (r : SearchResult.t) : SearchResult.t :=
  {| SearchResult.query := SearchResult.query r;
     SearchResult.source_url := SearchResult.source_url r;
     SearchResult.title := Py.lower (SearchResult.title r);
     SearchResult.snippet := Py.lower (SearchResult.snippet r);
     SearchResult.relevance_score := SearchResult.relevance_score r |}.

Definition lower_summary (s : ContentSummary.t) : ContentSummary.t :=
  {| ContentSummary.topic := Py.lower (ContentSummary.topic s);
     ContentSummary.content_type := ContentSummary.content_type s;
     ContentSummary.core_points := Py.lower <$> ContentSummary.core_points s;
     ContentSummary.key_terms := Py.lower <$> ContentSummary.key_terms s;
     ContentSummary.fact_claims := ContentSummary.fact_claims s;
     ContentSummary.search_queries := ContentSummary.search_queries s |}.

(** ** Ranking by the score

    [evaluate_relevance] asks the scoring method of the manager for the
    score of every result and sorts by what it is given.  What it does as
    a ranking does not depend on the arithmetic of the score, so the
    method is a parameter here.  The score of the code is a binary64
    number between 0 and 1; such a number is a rational, and the order and
    the equality of the floats are those of the rationals: read so, the
    method of the code is one scoring function, and
    [ReferenceManager._calculate_relevance], the score in exact
    arithmetic, is another. *)

Module Ranking.
Section ranking.
(** [self._calculate_relevance]. *)
Variable _calculate_relevance : SearchResult.t -> ContentSummary.t -> Q.

(** A result once [result.relevance_score = score] has been done. *)
Definition scored (summary : ContentSummary.t) (result : SearchResult.t) :
    SearchResult.t :=
  {| SearchResult.query := SearchResult.query result;
     SearchResult.source_url := SearchResult.source_url result;
     SearchResult.title := SearchResult.title result;
     SearchResult.snippet := SearchResult.snippet result;
     SearchResult.relevance_score := _calculate_relevance result summary |}.

(** [evaluate_relevance]. *)
Definition evaluate_relevance (results : list SearchResult.t) (summary : ContentSummary.t) :
    list SearchResult.t :=
  match results with
  | [] => []
  | _ =>
      let evaluated_results := scored summary <$> results in
      sort_by_reverse SearchResult.relevance_score evaluated_results
  end.
End ranking.
End Ranking.

(** ** Integers of SQLite

    An [INTEGER] of SQLite holds 64 bits; binding a Python [int] beyond
    them raises [OverflowError], and the statement is not run. *)

Definition sqlite_integer (z : Z) : Prop := - 2 ^ 63 <= z < 2 ^ 63.

(** ** Replies of another shape

    A decoded reply that is no [dict] has no [get]; [d.get(k, dflt)] on
    the members of a [dict]; and a value that the loop over the items
    cannot get through, because it cannot be iterated or because one of
    its items is no [dict]. *)

Definition not_an_object (v : pyval) : Prop :=
  match v with
  | PDict _ => False
  | _ => True
  end.

Definition field (kvs : list (string * pyval)) (k : string) (dflt : pyval) : pyval :=
  default dflt (PyVal.lookup k kvs).

Definition has_bad_item (v : pyval) : Prop :=
  match PyVal.iter v with
  | Ok items => ∃ item, item ∈ items ∧ not_an_object item
  | Raise _ => True
  end.

(** What the loops of the parsers make of an item that is a [dict], and
    the level that the readability checker settles on. *)

Definition vague_point_of (kvs : list (string * pyval)) : VaguePoint.t :=
  VaguePoint.mk (field kvs "location" (PStr "")) (field kvs "issue" (PStr ""))
    (field kvs "question" (PStr "")) (field kvs "suggestion" (PStr "")).

Definition readability_issue_of (kvs : list (string * pyval)) : ContentIssue.t :=
  ContentIssue.mk (field kvs "issue_type" (PStr "unknown"))
    (field kvs "severity" (PStr "medium")) (field kvs "location" (PStr ""))
    (field kvs "description" (PStr "")) (field kvs "suggestion" (PStr "")) PNone.

Definition level_or_normal (level_values : list string) (v : pyval) : ReadabilityLevel :=
  match v with
  | PStr s => if bool_decide (s ∈ level_values) && negb (bool_decide (s = "normal"))
              then LEVEL s else NORMAL
  | _ => NORMAL
  end.

(** ** Tokens

    A token is a non-empty text that holds no white-space character:
    what [str.split] cuts a text into. *)

Fixpoint plain (s : string) : bool :=
  match s with
  | EmptyString => true
  | String _ s' => (Py.space_len s =? 0)%nat && plain s'
  end.

Definition token (s : string) : Prop := s ≠ "" ∧ plain s = true.

(** What may follow a token in a text that is joined: nothing, or an
    ASCII byte. *)
Definition ascii_next (v : string) : Prop :=
  match v with
  | String x _ => (N_of_ascii x < 128)%N
  | EmptyString => True
  end.

(** While [split] reads a run, the run holds no white space, whatever
    follows it. *)
Definition run_ok (cur : option string) (skip : nat) (s : string) : Prop :=
  ∀ c, cur = Some c →
    skip = 0%nat ∧ c ≠ ""
    ∧ ∀ a u, c = a +:+ u → u ≠ "" → Py.space_len (u +:+ s) = 0%nat.

(** ** multimodal/image_analyzer.py: the batch

    [analyze_image] reads the file, calls the multimodal model and parses
    its reply: here it is a function of the path and the context. *)

Module ImageAnalyzer.

(** [l[:n]]: a negative [n] counts from the end. *)
Definition upto {A : Type} (l : list A) (n : Z) : list A :=
  if 0 <=? n then take (Z.to_nat n) l else take (length l - Z.to_nat (- n)) l.

Section analyze_images_batch.
Context {ImageAnalysisResult : Type}.
Variable analyze_image : string -> option string -> option ImageAnalysisResult.

(** [contexts[i] if contexts and i < len(contexts) else None]. *)
Definition context_at (contexts : option (list string)) (i : nat) : option string :=
  contexts ≫= (fun l => l !! i).

(** [analyze_images_batch]. *)
Definition analyze_images_batch (image_paths : list string)
    (contexts : option (list string)) (max_images : Z) :
    list (option ImageAnalysisResult) :=
  let results :=
    imap (fun i path => analyze_image path (context_at contexts i))
      (upto image_paths max_images) in
  results ++ replicate (Z.to_nat (Z.of_nat (length image_paths) - max_images)) None.
End analyze_images_batch.

End ImageAnalyzer.

(** ** preprocessing/image_extractor.py: the images found *)

Module ImageInfo.
Record t : Set := mk {
  alt_text : string;
  src : string;
  is_external : bool;
  local_path : option string;
  exists_ : bool;
  position : Z;
}.
End ImageInfo.

Module ImageExtractor.

(** [get_local_images]. *)
Definition get_local_images (images : list ImageInfo.t) : list ImageInfo.t :=
  filter (fun img => negb (ImageInfo.is_external img) && ImageInfo.exists_ img = true) images.

(** [get_missing_images]. *)
Definition get_missing_images (images : list ImageInfo.t) : list ImageInfo.t :=
  filter (fun img => negb (ImageInfo.is_external img) && negb (ImageInfo.exists_ img) = true)
    images.

End ImageExtractor.

(** * Properties *)

(** ** The stable sort *)

Section stable_sort_facts.
Context {A : Type} (before : A -> A -> bool).

Lemma insert_sorted_perm (x : A) (l : list A) :
  insert_sorted before x l ≡ₚ x :: l.
Proof.
  induction l as [|y l IH]; simpl; [done|].
  destruct (before x y); [done|].
  rewrite IH. apply Permutation_swap.
Qed.

Lemma stable_sort_perm (l : list A) : stable_sort before l ≡ₚ l.
Proof.
  induction l as [|x l IH]; simpl; [done|].
  rewrite insert_sorted_perm. by rewrite IH.
Qed.

(** Inserting [x] moves no element that [x] may not stand before and
    that may not stand before [x]: a sub-list closed under that is kept
    in its order. *)
Lemma filter_insert_sorted (P : A -> Prop) `{!∀ x, Decision (P x)} (x : A) (l : list A) :
  (∀ y, P x → before x y = false → ¬ P y) →
  filter P (insert_sorted before x l) = filter P (x :: l).
Proof.
  intros Hsep. induction l as [|y l IH]; simpl; [done|].
  destruct (before x y) eqn:Hb; [done|].
  rewrite !filter_cons, IH, filter_cons.
  destruct (decide (P x)) as [Hx|Hx]; [|done].
  destruct (decide (P y)) as [Hy|Hy]; [|done].
  by destruct (Hsep y Hx Hb).
Qed.

Lemma filter_stable_sort (P : A -> Prop) `{!∀ x, Decision (P x)} (l : list A) :
  (∀ x y, P x → before x y = false → ¬ P y) →
  filter P (stable_sort before l) = filter P l.
Proof.
  intros Hsep. induction l as [|x l IH]; simpl; [done|].
  rewrite filter_insert_sorted by eauto.
  by rewrite !filter_cons, IH.
Qed.
End stable_sort_facts.

Section sort_by_facts.
Context {A : Type} (key : A -> Z).

Lemma insert_by_sorted (x : A) (l : list A) :
  StronglySorted (key_le key) l →
  StronglySorted (key_le key) (insert_sorted (fun x y => key x <=? key y) x l).
Proof.
  induction 1 as [|y l Hl IH Hy]; simpl.
  - repeat constructor.
  - destruct (Z.leb_spec (key x) (key y)) as [Hxy|Hxy].
    + constructor; [by constructor|].
      constructor; [done|].
      eapply Forall_impl; [exact Hy|]. unfold key_le. intros z Hz. lia.
    + constructor; [done|].
      rewrite insert_sorted_perm. constructor; [|done].
      unfold key_le. lia.
Qed.

Lemma sort_by_sorted (l : list A) : StronglySorted (key_le key) (sort_by key l).
Proof.
  induction l as [|x l IH]; simpl; [constructor|].
  by apply insert_by_sorted.
Qed.

Lemma sort_by_perm (l : list A) : sort_by key l ≡ₚ l.
Proof. apply stable_sort_perm. Qed.

(** Stability: the elements of one key are in the order they had. *)
Lemma sort_by_stable (k : Z) (l : list A) :
  filter (fun x => key x = k) (sort_by key l) = filter (fun x => key x = k) l.
Proof.
  apply (filter_stable_sort _ (fun x => key x = k)).
  intros x y Hx Hb Hy. apply Z.leb_gt in Hb. lia.
Qed.
End sort_by_facts.

(** ** Python equality with a string literal *)

Lemma eq_str_iff (v : pyval) (s : string) : PyVal.eq_str v s = true ↔ v = PStr s.
Proof.
  destruct v; simpl; try (split; [discriminate|discriminate]).
  rewrite String.eqb_eq. split; [by intros ->|by intros [= ->]].
Qed.

Lemma eq_str_false (v : pyval) (s : string) : PyVal.eq_str v s = false ↔ v ≠ PStr s.
Proof.
  rewrite <- eq_str_iff. destruct (PyVal.eq_str v s); split; congruence.
Qed.

(** ** The fallback of the improver (C5) *)

Lemma quality_priority (i : ContentIssue.t) :
  let p := ActionableFeedback.priority (Improver.of_quality_issue i) in
  let sev := ContentIssue.severity i in
  (sev = PStr "high" → p = 1)
  ∧ (sev ≠ PStr "high" → sev = PStr "medium" → p = 2)
  ∧ (sev ≠ PStr "high" → sev ≠ PStr "medium" → p = 4).
Proof.
  simpl. repeat split.
  - intros ->. reflexivity.
  - intros _ ->. reflexivity.
  - intros H1%eq_str_false H2%eq_str_false. by rewrite H1, H2.
Qed.

Lemma readability_priority (i : ContentIssue.t) :
  let p := ActionableFeedback.priority (Improver.of_readability_issue i) in
  let sev := ContentIssue.severity i in
  (sev = PStr "high" → p = 2)
  ∧ (sev ≠ PStr "high" → sev = PStr "medium" → p = 3)
  ∧ (sev ≠ PStr "high" → sev ≠ PStr "medium" → p = 4).
Proof.
  simpl. repeat split.
  - intros ->. reflexivity.
  - intros _ ->. reflexivity.
  - intros H1%eq_str_false H2%eq_str_false. by rewrite H1, H2.
Qed.

(** C5. For every triple of depth, quality and readability results, the
    fallback [_generate_from_results] returns the items generated in the
    order of the three loops (one per vague point with priority 3 and
    issue type [missing_detail]; one per quality issue with priority 1
    for severity [high], 2 for [medium] and 4 otherwise; one per
    readability issue with priority 2 for [high], 3 for [medium] and 4
    otherwise), rearranged so that priorities never decrease, items of
    equal priority keeping their generation order. *)
Theorem fallback_feedback_sorted_by_priority
    (depth_result : DepthCheckResult.t) (quality_result : QualityReviewResult.t)
    (readability_result : ReadabilityResult.t) :
  let out := Improver._generate_from_results depth_result quality_result readability_result in
  let gen := Improver.generated depth_result quality_result readability_result in
  let priority := ActionableFeedback.priority in
  gen = (Improver.of_vague_point <$> DepthCheckResult.vague_points depth_result)
        ++ (Improver.of_quality_issue <$> QualityReviewResult.issues quality_result)
        ++ (Improver.of_readability_issue <$> ReadabilityResult.issues readability_result)
  ∧ (∀ vp, priority (Improver.of_vague_point vp) = 3
           ∧ ActionableFeedback.issue_type (Improver.of_vague_point vp)
             = PStr "missing_detail")
  ∧ (∀ i, let p := priority (Improver.of_quality_issue i) in
          let sev := ContentIssue.severity i in
          (sev = PStr "high" → p = 1)
          ∧ (sev ≠ PStr "high" → sev = PStr "medium" → p = 2)
          ∧ (sev ≠ PStr "high" → sev ≠ PStr "medium" → p = 4))
  ∧ (∀ i, let p := priority (Improver.of_readability_issue i) in
          let sev := ContentIssue.severity i in
          (sev = PStr "high" → p = 2)
          ∧ (sev ≠ PStr "high" → sev = PStr "medium" → p = 3)
          ∧ (sev ≠ PStr "high" → sev ≠ PStr "medium" → p = 4))
  ∧ out ≡ₚ gen
  ∧ StronglySorted (key_le priority) out
  ∧ (∀ p, filter (fun fb => priority fb = p) out = filter (fun fb => priority fb = p) gen).
Proof.
  intros out gen priority. split; [reflexivity|].
  split; [by intros vp|].
  split; [apply quality_priority|].
  split; [apply readability_priority|].
  split; [apply sort_by_perm|].
  split; [apply sort_by_sorted|].
  intros p. apply sort_by_stable.
Qed.

(** The fallback on one vague point, three quality issues and two
    readability issues: the items come out by priority, and those of one
    priority in the order of the loops. *)
Example fallback_feedback_order :
  let issue (severity name : string) :=
    ContentIssue.mk (PStr name) (PStr severity) (PStr "") (PStr "") (PStr "") PNone in
  let depth_result :=
    DepthCheckResult.mk 60 (PBool false)
      [VaguePoint.mk (PStr "") (PStr "vague") (PStr "") (PStr "")] (PStr "") in
  let quality_result :=
    QualityReviewResult.mk 60 (PBool false)
      [issue "low" "q-low"; issue "high" "q-high"; issue "medium" "q-medium"]
      (PStr "") 60 60 60 in
  let readability_result :=
    ReadabilityResult.mk 60 NORMAL [issue "high" "r-high"; issue "medium" "r-medium"]
      (PStr "") 60 60 60 60 in
  (fun fb => (ActionableFeedback.priority fb, ActionableFeedback.issue_type fb))
  <$> Improver._generate_from_results depth_result quality_result readability_result
  = [(1, PStr "q-high"); (2, PStr "q-medium"); (2, PStr "r-high");
     (3, PStr "missing_detail"); (3, PStr "r-medium"); (4, PStr "q-low")].
Proof. vm_compute. done. Qed.

(** ** The default results of the evaluators (C4) *)

Lemma depth_check_default (llm : llm_service)
    (render : string -> option (list Reference.t) -> string)
    (content : string) (references : option (list Reference.t)) :
  empty_or_unparseable (llm (render content references)) →
  DepthChecker.check llm render content references = DepthChecker._default_result.
Proof.
  unfold DepthChecker.check. cbv zeta.
  destruct (llm (render content references)) as [[text|]|e]; simpl; [|done..].
  intros [->|Hbad]; [done|].
  case_bool_decide; [done|].
  unfold DepthChecker._parse_response. by rewrite Hbad.
Qed.

Lemma quality_review_default (llm : llm_service)
    (render : string -> option (list Reference.t) -> string)
    (content : string) (references : option (list Reference.t)) :
  empty_or_unparseable (llm (render content references)) →
  QualityReviewer.review llm render content references = QualityReviewer._default_result.
Proof.
  unfold QualityReviewer.review. cbv zeta.
  destruct (llm (render content references)) as [[text|]|e]; simpl; [|done..].
  intros [->|Hbad]; [done|].
  case_bool_decide; [done|].
  unfold QualityReviewer._parse_response. by rewrite Hbad.
Qed.

Lemma readability_check_default (llm : llm_service) (render : string -> string)
    (level_values : list string) (content : string) :
  empty_or_unparseable (llm (render content)) →
  ReadabilityChecker.check llm render level_values content
  = ReadabilityChecker._default_result.
Proof.
  unfold ReadabilityChecker.check. cbv zeta.
  destruct (llm (render content)) as [[text|]|e]; simpl; [|done..].
  intros [->|Hbad]; [done|].
  case_bool_decide; [done|].
  unfold ReadabilityChecker._parse_response. by rewrite Hbad.
Qed.

(** C4. For each of the three evaluators, an empty reply ([None] or the
    empty text) or a reply that [json.loads] rejects yields the fixed
    default result: score 70, no issue (for the depth checker no vague
    point), the logic, accuracy and completeness scores of the quality
    reviewer all 70, and the vocabulary, syntax, discourse and surface
    scores of the readability checker all 70. *)
Theorem evaluators_default_on_empty_or_unparseable
    (llm : llm_service)
    (render_depth_check render_quality_review : string -> option (list Reference.t) -> string)
    (render_readability_check : string -> string) (level_values : list string)
    (content : string) (references : option (list Reference.t)) :
  let depth_default := DepthChecker._default_result in
  let quality_default := QualityReviewer._default_result in
  let readability_default := ReadabilityChecker._default_result in
  (empty_or_unparseable (llm (render_depth_check content references)) →
   DepthChecker.check llm render_depth_check content references = depth_default)
  ∧ (empty_or_unparseable (llm (render_quality_review content references)) →
     QualityReviewer.review llm render_quality_review content references = quality_default)
  ∧ (empty_or_unparseable (llm (render_readability_check content)) →
     ReadabilityChecker.check llm render_readability_check level_values content
     = readability_default)
  ∧ (DepthCheckResult.score depth_default = 70
     ∧ DepthCheckResult.vague_points depth_default = [])
  ∧ (QualityReviewResult.score quality_default = 70
     ∧ QualityReviewResult.issues quality_default = []
     ∧ QualityReviewResult.logic_score quality_default = 70
     ∧ QualityReviewResult.accuracy_score quality_default = 70
     ∧ QualityReviewResult.completeness_score quality_default = 70)
  ∧ (ReadabilityResult.score readability_default = 70
     ∧ ReadabilityResult.issues readability_default = []
     ∧ ReadabilityResult.vocabulary_score readability_default = 70
     ∧ ReadabilityResult.syntax_score readability_default = 70
     ∧ ReadabilityResult.discourse_score readability_default = 70
     ∧ ReadabilityResult.surface_score readability_default = 70).
Proof.
  cbv zeta.
  split; [apply depth_check_default|].
  split; [apply quality_review_default|].
  split; [apply readability_check_default|].
  repeat split.
Qed.

Lemma evaluators_default_on_empty_or_unparseable_witness :
  let llm : llm_service := fun _ => Ok (Some "not json") in
  DepthChecker.check llm (fun c _ => c) "text" None = DepthChecker._default_result
  ∧ QualityReviewer.review llm (fun c _ => c) "text" None = QualityReviewer._default_result
  ∧ ReadabilityChecker.check llm (fun c => c) ["easy"; "hard"] "text"
    = ReadabilityChecker._default_result.
Proof.
  cbv zeta.
  destruct (evaluators_default_on_empty_or_unparseable (fun _ => Ok (Some "not json"))
              (fun c _ => c) (fun c _ => c) (fun c => c) ["easy"; "hard"] "text" None)
    as (Hd & Hq & Hr & _).
  split; [apply Hd|split; [apply Hq|apply Hr]]; right; reflexivity.
Defined.

(** The three evaluators on a reply that holds prose and no JSON. *)
Example evaluators_on_prose :
  let llm : llm_service := fun _ => Ok (Some "I cannot answer that.") in
  DepthChecker.check llm (fun c _ => c) "text" None = DepthChecker._default_result
  ∧ QualityReviewer.review llm (fun c _ => c) "text" None = QualityReviewer._default_result
  ∧ ReadabilityChecker.check llm (fun c => c) ["easy"; "hard"] "text"
    = ReadabilityChecker._default_result.
Proof. vm_compute. done. Qed.

(** White space beyond ASCII is stripped from a reply as [str.strip]
    strips it: an object behind an ideographic space is read, and is not
    the default result. *)
Example evaluators_strip_unicode_space :
  let reply := ideographic_space +:+ "{" +:+ quoted "score" +:+ ": 30}" +:+ no_break_space in
  let llm : llm_service := fun _ => Ok (Some reply) in
  DepthCheckResult.score (DepthChecker.check llm (fun c _ => c) "text" None) = 30
  ∧ QualityReviewResult.score (QualityReviewer.review llm (fun c _ => c) "text" None) = 30
  ∧ ReadabilityResult.score (ReadabilityChecker.check llm (fun c => c) [] "text") = 30.
Proof. by vm_compute. Qed.

(** ** The improver and its fallback (C3) *)

Section improver_generate.
Context (llm : llm_service) (render : string -> pyval -> pyval -> pyval -> string).
Context (content : string) (depth_result : DepthCheckResult.t)
  (quality_result : QualityReviewResult.t) (readability_result : ReadabilityResult.t).

#[local] Abbreviation prompt :=
  (render content (Improver.depth_dict depth_result)
     (Improver.quality_dict quality_result) (Improver.readability_dict readability_result)).
#[local] Abbreviation fallback :=
  (Improver._generate_from_results depth_result quality_result readability_result).
#[local] Abbreviation generated :=
  (Improver.generate llm render content depth_result quality_result readability_result).

(** A call that raises ends in the fallback. *)
Lemma generate_fallback_on_raise (e : exn) : llm prompt = Raise e → generated = fallback.
Proof.
  unfold Improver.generate. cbv zeta.
  by intros ->.
Qed.

(** An empty reply ends in the fallback. *)
Lemma generate_fallback_on_empty (reply : option string) :
  llm prompt = Ok reply → falsy reply = true → generated = fallback.
Proof.
  unfold Improver.generate. cbv zeta.
  by intros -> ->.
Qed.

(** A reply that decodes but has not the expected shape raises in
    [_parse_response], and [generate] catches it: the fallback again. *)
Lemma generate_fallback_on_shape_error (text : string) (e : exn) :
  llm prompt = Ok (Some text) → Improver._parse_response text = Raise e →
  generated = fallback.
Proof.
  unfold Improver.generate. cbv zeta.
  intros -> Hparse. simpl. rewrite Hparse. by case_bool_decide.
Qed.

(** A reply that [json.loads] rejects ends in the empty list, whatever
    the three results hold. *)
Lemma generate_empty_on_unparseable (text : string) :
  llm prompt = Ok (Some text) → text ≠ "" → unparseable text → generated = [].
Proof.
  unfold Improver.generate. cbv zeta.
  intros -> Hne Hbad. simpl. rewrite bool_decide_eq_false_2 by done.
  unfold Improver._parse_response. by rewrite Hbad.
Qed.
End improver_generate.

(** C3, on the code: a reply that is no JSON makes [generate] return the
    empty list, although the fallback over the same three results holds
    one item. *)
Theorem improver_unparseable_reply_loses_fallback :
  let llm : llm_service := fun _ => Ok (Some "not json") in
  let render := fun (content : string) (_ _ _ : pyval) => content in
  let depth_result :=
    DepthCheckResult.mk 60 (PBool false)
      [VaguePoint.mk (PStr "intro") (PStr "vague") (PStr "why") (PStr "add detail")]
      (PStr "thin") in
  let quality_result := QualityReviewer._default_result in
  let readability_result := ReadabilityChecker._default_result in
  unparseable "not json"
  ∧ Improver.generate llm render "text" depth_result quality_result readability_result = []
  ∧ Improver._generate_from_results depth_result quality_result readability_result
    = [ActionableFeedback.mk 3 (PStr "intro") (PStr "missing_detail") (PStr "vague")
         (PStr "add detail") PNone (PStr "medium")].
Proof. vm_compute. done. Qed.

(** ** Deduplication in the search agent (C2) *)

Lemma first_by_url_fresh (seen : gset string) (l : list SearchResult.t) :
  NoDup (urls (first_by_url seen l))
  ∧ (∀ u, u ∈ urls (first_by_url seen l) → (u ∉ seen) ∧ (u ∈ urls l)).
Proof.
  revert seen. induction l as [|r l IH]; intros seen; simpl.
  - split; [constructor|]. intros u Hu. by apply elem_of_nil in Hu.
  - case_bool_decide as Hin.
    + destruct (IH seen) as [Hnd Hfresh]. split; [done|].
      intros u Hu. destruct (Hfresh u Hu). split; [done|]. by right.
    + destruct (IH ({[SearchResult.source_url r]} ∪ seen)) as [Hnd Hfresh].
      unfold urls in *. rewrite fmap_cons. split.
      * constructor; [|done]. intros Hu. apply Hfresh in Hu. set_solver.
      * intros u [->|Hu]%elem_of_cons; [set_solver|].
        apply Hfresh in Hu. set_solver.
Qed.

(** What is kept is the first result of its source identifier. *)
Lemma first_by_url_first (seen : gset string) (l : list SearchResult.t) (r : SearchResult.t) :
  r ∈ first_by_url seen l →
  ∃ before after, l = before ++ r :: after
                  ∧ (SearchResult.source_url r ∉ urls before)
                  ∧ (SearchResult.source_url r ∉ seen).
Proof.
  revert seen. induction l as [|x l IH]; intros seen; simpl.
  - intros Hr. by apply elem_of_nil in Hr.
  - case_bool_decide as Hin.
    + intros (before & after & -> & Hb & Hs)%IH.
      exists (x :: before), after. split; [done|]. split; [|done].
      unfold urls. rewrite fmap_cons, not_elem_of_cons. split; [|done].
      intros Heq. apply Hs. by rewrite Heq.
    + intros [->|Hr]%elem_of_cons.
      * exists [], l. split; [done|]. split; [|done]. apply not_elem_of_nil.
      * apply IH in Hr as (before & after & -> & Hb & Hs).
        exists (x :: before), after. split; [done|]. split; [|set_solver].
        unfold urls. rewrite fmap_cons, not_elem_of_cons. split; [set_solver|done].
Qed.

(** Every source identifier that was met is kept once. *)
Lemma first_by_url_complete (seen : gset string) (l : list SearchResult.t) (u : string) :
  u ∈ urls l → u ∉ seen → u ∈ urls (first_by_url seen l).
Proof.
  revert seen. induction l as [|x l IH]; intros seen; unfold urls in *; simpl.
  - intros Hu. by apply elem_of_nil in Hu.
  - intros [->|Hu]%elem_of_cons Hs.
    + rewrite bool_decide_eq_false_2 by done. rewrite fmap_cons. by left.
    + case_bool_decide as Hin; [by apply IH|].
      rewrite fmap_cons.
      destruct (decide (u = SearchResult.source_url x)) as [->|Hne]; [by left|].
      right. apply IH; [done|set_solver].
Qed.

Lemma foldl_collect (acc : list SearchResult.t) (seen : gset string) (l : list SearchResult.t) :
  foldl SearchAgent.collect (acc, seen) l
  = (acc ++ first_by_url seen l, seen ∪ list_to_set (urls l)).
Proof.
  revert acc seen. induction l as [|r l IH]; intros acc seen; simpl.
  - f_equal; [by rewrite app_nil_r|set_solver].
  - case_bool_decide as Hin.
    + rewrite IH. f_equal. set_solver.
    + rewrite IH, <- app_assoc. f_equal. set_solver.
Qed.

(** [search] keeps the first result of every source identifier among the
    results of its queries, taken in order. *)
Lemma search_first_by_url (svc : SearchAgent.service) (queries : list string) (n : Z) :
  SearchAgent.search (Some svc) queries n
  = first_by_url ∅ (concat ((fun q => SearchAgent._execute_search svc q n) <$> queries)).
Proof.
  unfold SearchAgent.search.
  assert (∀ st, foldl (fun st q => foldl SearchAgent.collect st
                                      (SearchAgent._execute_search svc q n)) st queries
                = foldl SearchAgent.collect st
                    (concat ((fun q => SearchAgent._execute_search svc q n) <$> queries)))
    as ->.
  { induction queries as [|q queries IH]; intros st; simpl; [done|].
    by rewrite IH, foldl_app. }
  by rewrite foldl_collect.
Qed.

(** The results of one call of [search] hold every source identifier at
    most once. *)
Lemma search_nodup (service : option SearchAgent.service) (queries : list string) (n : Z) :
  NoDup (urls (SearchAgent.search service queries n)).
Proof.
  destruct service as [svc|]; [|constructor].
  rewrite search_first_by_url. apply first_by_url_fresh.
Qed.

(** C2, on the code: with the topic [X], the query [X] and the key term
    [Y], a search service that returns the same source for [X] and for
    [X Y] makes [search_multi_round] return that source twice, once per
    round, whereas [search] over the two queries returns it once. *)
Theorem search_multi_round_repeats_a_source :
  let hit (url title : string) : SearchAgent.item :=
    {[ "url" := url; "title" := title ]} in
  let service :=
    SearchAgent.Service true (fun query _ =>
      if bool_decide (query = "X")
      then Ok (SearchAgent.Envelope true (Some [hit "https://a.example" "A"]))
      else Ok (SearchAgent.Envelope true (Some [hit "https://a.example" "A";
                                                hit "https://b.example" "B"]))) in
  let summary := ContentSummary.mk "X" UNKNOWN [] ["Y"] [] ["X"] in
  urls (SearchAgent.search (Some service) ["X"; "X Y"] 3)
  = ["https://a.example"; "https://b.example"]
  ∧ urls (SearchAgent.search_multi_round (Some service) summary 2 5)
    = ["https://a.example"; "https://a.example"; "https://b.example"].
Proof. vm_compute. done. Qed.

(** ** The relevance score (C8) *)

Lemma ratio_nonneg (matched total : nat) : (0 <= ReferenceManager.ratio matched total)%Q.
Proof.
  unfold ReferenceManager.ratio, Qdiv.
  apply Qmult_le_0_compat; [|apply Qinv_le_0_compat];
    (rewrite <- (Zle_Qle 0); lia).
Qed.

Lemma add_share_nonneg (score : Q) (n d : positive) (matched total : nat) :
  (0 <= score)%Q →
  (0 <= score + (Z.pos n # d) * ReferenceManager.ratio matched total)%Q.
Proof.
  intros Hs. rewrite <- (Qplus_0_r 0).
  apply Qplus_le_compat; [done|].
  apply Qmult_le_0_compat; [done|apply ratio_nonneg].
Qed.

Lemma calculate_relevance_bounds (result : SearchResult.t) (summary : ContentSummary.t) :
  (0 <= ReferenceManager._calculate_relevance result summary <= 1)%Q.
Proof.
  unfold ReferenceManager._calculate_relevance. cbv zeta.
  split; [|apply Q.le_min_r].
  apply Q.min_glb; [|done].
  set (text := Py.lower _).
  set (s1 := if _ && _ then _ else _).
  assert (0 <= s1)%Q as H1 by (subst s1; by destruct (_ && _)).
  set (s2 := if bool_decide (ContentSummary.key_terms summary ≠ []) then _ else _).
  assert (0 <= s2)%Q as H2.
  { subst s2. case_bool_decide; [|done]. by apply add_share_nonneg. }
  case_bool_decide; [|done]. by apply add_share_nonneg.
Qed.

(** C8. For every search result and every content summary the relevance
    score of the reference manager lies in the closed interval from 0 to
    1, and so does the score of every result that [evaluate_relevance]
    returns. *)
Theorem relevance_score_in_unit_interval
    (result : SearchResult.t) (summary : ContentSummary.t) :
  (0 <= ReferenceManager._calculate_relevance result summary <= 1)%Q
  ∧ (∀ results,
       Forall (fun r => (0 <= SearchResult.relevance_score r <= 1)%Q)
         (ReferenceManager.evaluate_relevance results summary)).
Proof.
  split; [apply calculate_relevance_bounds|].
  intros results. unfold ReferenceManager.evaluate_relevance.
  destruct results as [|r0 results]; [constructor|].
  unfold sort_by_reverse. rewrite stable_sort_perm.
  apply Forall_fmap, Forall_forall. intros r _. simpl.
  apply calculate_relevance_bounds.
Qed.

(** A result that matches the topic, one key term of two and one core
    point of two scores 0.3 + 0.2 + 0.15. *)
Example relevance_of_a_partial_match :
  let result :=
    SearchResult.mk "q" "https://a.example" "Rocq Proof Assistant"
      "learn formal proofs with tactics" 0 in
  let summary :=
    ContentSummary.mk "rocq" UNKNOWN ["formal proofs are fun"; "nothing here"]
      ["tactics"; "lean"] [] ["rocq tutorial"] in
  (ReferenceManager._calculate_relevance result summary == 65 # 100)%Q.
Proof. vm_compute. done. Qed.

(** ** The weight table (C9) *)

(** C9. For each of the six content types of the weight table (the five
    defined types and the unknown default) the table has a row, the row
    holds the five dimensions depth, accuracy, completeness, logic and
    readability, and its five weights, added as binary64 numbers, sum to
    1.0 within 1e-6. *)
Theorem weight_rows_sum_to_one (content_type : ContentType) :
  dom ScoreAggregator.WEIGHT_CONFIGS = list_to_set ContentType_members
  ∧ ∃ weights,
      ScoreAggregator.WEIGHT_CONFIGS !! content_type = Some weights
      ∧ dom weights = list_to_set ScoreAggregator.dimensions
      ∧ ScoreAggregator.sums_to_one (ScoreAggregator.weight_sum weights) = true.
Proof.
  split.
  - unfold ScoreAggregator.WEIGHT_CONFIGS. by rewrite dom_list_to_map_L.
  - destruct content_type;
      (eexists (ScoreAggregator.row _ _ _ _ _); split; [reflexivity|]; split;
       [unfold ScoreAggregator.row; by rewrite dom_list_to_map_L
       |vm_compute; reflexivity]).
Qed.

(** ** Custom weights (C10) *)

Lemma aggregate_weighted (custom_weights : option (gmap string float))
    (depth_result : DepthCheckResult.t) (quality_result : QualityReviewResult.t)
    (readability_result : ReadabilityResult.t) (content_type : ContentType) :
  ScoreAggregator.aggregate custom_weights depth_result quality_result readability_result
    content_type
  = weighted_score
      (effective_weight
         (if ScoreAggregator.given custom_weights then default ∅ custom_weights
          else default (ScoreAggregator.WEIGHT_CONFIGS !!! UNKNOWN)
                 (ScoreAggregator.WEIGHT_CONFIGS !! content_type)))
      depth_result quality_result readability_result.
Proof. reflexivity. Qed.

(** C10. An aggregator built with a non-empty custom-weights mapping
    scores with that mapping whatever the content type, a dimension the
    mapping lacks weighing 0.2, so that the weights in effect need not
    sum to 1 (a mapping that gives depth alone the weight 0.5 has the sum
    1.3, up to rounding, and scores 130 on five scores of 100); an empty
    mapping is ignored, and the row of the content type is used as when
    no mapping is given. *)
Theorem custom_weights_replace_the_table
    (custom_weights : gmap string float)
    (depth_result : DepthCheckResult.t) (quality_result : QualityReviewResult.t)
    (readability_result : ReadabilityResult.t) (content_type : ContentType) :
  custom_weights ≠ ∅ →
  let aggregate w := ScoreAggregator.aggregate w depth_result quality_result readability_result in
  let row := default ∅ (ScoreAggregator.WEIGHT_CONFIGS !! content_type) in
  aggregate (Some custom_weights) content_type
  = weighted_score (effective_weight custom_weights)
      depth_result quality_result readability_result
  ∧ (∀ other, aggregate (Some custom_weights) other
              = aggregate (Some custom_weights) content_type)
  ∧ (∀ k, custom_weights !! k = None → effective_weight custom_weights k = 0.2%float)
  ∧ (let partial : gmap string float := {[ "depth" := 0.5%float ]} in
     ScoreAggregator.sums_to_one (effective_sum partial) = false
     ∧ effective_sum partial = 1.2999999999999998%float
     ∧ ScoreAggregator.aggregate (Some partial)
         (DepthCheckResult.mk 100 (PBool true) [] (PStr ""))
         (QualityReviewResult.mk 100 (PBool true) [] (PStr "") 100 100 100)
         (ReadabilityResult.mk 100 NORMAL [] (PStr "") 100 100 100 100) content_type
       = Ok (130, DimensionScores.mk 100 100 100 100 100 0 0 100))
  ∧ aggregate (Some ∅) content_type = aggregate None content_type
  ∧ aggregate None content_type
    = weighted_score (effective_weight row) depth_result quality_result readability_result.
Proof.
  intros Hne aggregate row. subst aggregate row. cbv beta.
  assert (ScoreAggregator.given (Some custom_weights) = true) as Hgiven
    by (simpl; by apply bool_decide_eq_true_2).
  split; [by rewrite aggregate_weighted, Hgiven|].
  split; [intros other; by rewrite !aggregate_weighted, Hgiven|].
  split; [intros k Hk; unfold effective_weight; by rewrite Hk|].
  split; [by vm_compute|].
  split; [reflexivity|].
  rewrite aggregate_weighted. simpl.
  by destruct content_type.
Qed.

Lemma custom_weights_replace_the_table_witness :
  let partial : gmap string float := {[ "depth" := 0.5%float ]} in
  let depth_result := DepthCheckResult.mk 80 (PBool true) [] (PStr "") in
  let quality_result := QualityReviewResult.mk 70 (PBool true) [] (PStr "") 60 90 50 in
  let readability_result := ReadabilityResult.mk 40 NORMAL [] (PStr "") 70 70 70 70 in
  ScoreAggregator.aggregate (Some partial) depth_result quality_result readability_result NEWS
  = weighted_score (effective_weight partial) depth_result quality_result readability_result
  ∧ ScoreAggregator.aggregate (Some partial) depth_result quality_result readability_result
      NEWS
    = Ok (88, dimension_scores_of depth_result quality_result readability_result).
Proof.
  cbv zeta. split; [|by vm_compute].
  refine (proj1 (custom_weights_replace_the_table {[ "depth" := 0.5%float ]}
                   _ _ _ NEWS _)).
  by vm_compute.
Defined.

(** The grade boundaries of the spec. *)
Example grade_boundaries :
  ScoreAggregator.get_grade 90 = "A" ∧ ScoreAggregator.get_grade 89 = "B"
  ∧ ScoreAggregator.get_grade 60 = "D" ∧ ScoreAggregator.get_grade 59 = "F".
Proof. done. Qed.

(** ** The incremental skip (C1) *)

Section incremental_skip.
Context (fingerprint : string -> string) (pipeline : string -> Orchestrator.evaluation).
Context (tutorial : Z).

#[local] Abbreviation stored := (Orchestrator.stored tutorial).
#[local] Abbreviation at_position := (Orchestrator.at_position tutorial).
#[local] Abbreviation evaluate_chapter :=
  (Orchestrator.evaluate_chapter fingerprint pipeline tutorial).
#[local] Abbreviation evaluate_from :=
  (Orchestrator.evaluate_from fingerprint pipeline tutorial).

Lemma at_position_inj (p p' : nat) (r : ChapterModel.row) :
  at_position p r = true → at_position p' r = true → p = p'.
Proof.
  unfold Orchestrator.at_position.
  intros [_ H%bool_decide_eq_true]%andb_true_iff [_ H'%bool_decide_eq_true]%andb_true_iff.
  lia.
Qed.

(** Persisting the record of one position leaves the record stored for
    any other position as it was. *)
Lemma stored_persist_other (db : ChapterModel.table) (p p' : nat)
    (fresh : Z -> ChapterModel.row) (next_id : Z) :
  p ≠ p' → (∀ id, at_position p' (fresh id) = true) →
  stored (Orchestrator.persist tutorial db p' fresh next_id) p = stored db p.
Proof.
  intros Hne Hfresh. unfold Orchestrator.stored.
  assert (∀ id, at_position p (fresh id) = false) as Hfresh'.
  { intros id. destruct (at_position p (fresh id)) eqn:Hp; [|done].
    destruct Hne. eapply at_position_inj; [exact Hp|apply Hfresh]. }
  revert next_id. induction db as [|r db IH]; intros next_id; simpl.
  - by rewrite Hfresh'.
  - destruct (at_position p' r) eqn:Hr; simpl.
    + rewrite Hfresh'. destruct (at_position p r) eqn:Hp; [|done].
      destruct Hne. by eapply at_position_inj.
    + destruct (at_position p r); [done|]. apply IH.
Qed.

(** A chapter whose fingerprint is the stored one changes nothing. *)
Lemma evaluate_chapter_skip (st : Orchestrator.state) (p : nat) (path text : string)
    (r : ChapterModel.row) :
  stored (Orchestrator.chapters st) p = Some r →
  ChapterModel.content_hash r = Some (fingerprint text) →
  evaluate_chapter st p path text = st.
Proof.
  intros Hr Hh. unfold Orchestrator.evaluate_chapter. cbv zeta.
  rewrite Hr. by rewrite bool_decide_eq_true_2.
Qed.

(** One chapter of a run touches neither the record nor the calls of
    another position. *)
Lemma evaluate_chapter_other (st : Orchestrator.state) (p p' : nat) (path text : string) :
  p ≠ p' →
  let st' := evaluate_chapter st p' path text in
  stored (Orchestrator.chapters st') p = stored (Orchestrator.chapters st) p
  ∧ (p ∈ Orchestrator.generation_log st' ↔ p ∈ Orchestrator.generation_log st)
  ∧ (p ∈ Orchestrator.search_log st' ↔ p ∈ Orchestrator.search_log st).
Proof.
  intros Hne. unfold Orchestrator.evaluate_chapter. cbv zeta.
  destruct (match stored _ p' with Some _ => _ | None => _ end); [done|]. simpl.
  split.
  { apply stored_persist_other; [done|]. intros id.
    unfold Orchestrator.at_position, Orchestrator.completed. simpl.
    by rewrite !bool_decide_eq_true_2. }
  split; rewrite elem_of_app, elem_of_replicate; naive_solver.
Qed.

Lemma evaluate_from_earlier (units : list (string * string)) (st : Orchestrator.state)
    (start p : nat) :
  (p < start)%nat →
  let st' := evaluate_from st start units in
  stored (Orchestrator.chapters st') p = stored (Orchestrator.chapters st) p
  ∧ (p ∈ Orchestrator.generation_log st' ↔ p ∈ Orchestrator.generation_log st)
  ∧ (p ∈ Orchestrator.search_log st' ↔ p ∈ Orchestrator.search_log st).
Proof.
  revert st start. induction units as [|[path text] units IH]; intros st start Hlt; simpl.
  - done.
  - destruct (IH (evaluate_chapter st start path text) (S start) ltac:(lia))
      as (Hs & Hg & Hq).
    destruct (evaluate_chapter_other st p start path text ltac:(lia)) as (Hs' & Hg' & Hq').
    rewrite Hs, Hg, Hq. done.
Qed.

Lemma evaluate_from_unchanged (units : list (string * string)) (st : Orchestrator.state)
    (start i : nat) (path text : string) (r : ChapterModel.row) :
  units !! i = Some (path, text) →
  stored (Orchestrator.chapters st) (start + i) = Some r →
  ChapterModel.content_hash r = Some (fingerprint text) →
  let st' := evaluate_from st start units in
  stored (Orchestrator.chapters st') (start + i) = Some r
  ∧ ((start + i)%nat ∈ Orchestrator.generation_log st'
     ↔ (start + i)%nat ∈ Orchestrator.generation_log st)
  ∧ ((start + i)%nat ∈ Orchestrator.search_log st'
     ↔ (start + i)%nat ∈ Orchestrator.search_log st).
Proof.
  revert st start i.
  induction units as [|[path0 text0] units IH]; intros st start i Hi Hr Hh; [done|].
  destruct i as [|i]; simpl in *.
  - injection Hi as -> ->. rewrite Nat.add_0_r in *.
    rewrite (evaluate_chapter_skip st start path text r) by done.
    destruct (evaluate_from_earlier units st (S start) start ltac:(lia)) as (Hs & Hg & Hq).
    by rewrite Hs, Hg, Hq.
  - destruct (evaluate_chapter_other st (start + S i) start path0 text0 ltac:(lia))
      as (Hs & Hg & Hq).
    rewrite <- Hg, <- Hq. replace (start + S i)%nat with (S start + i)%nat in * by lia.
    apply IH; [done| |done]. by rewrite Hs.
Qed.
End incremental_skip.

(** The lookup of the chapter model agrees: a fingerprint stored for a
    position of the tutorial is found by [get_by_hash]. *)
Lemma stored_found_by_hash (tutorial : Z) (db : ChapterModel.table) (p : nat)
    (r : ChapterModel.row) (hash : string) :
  Orchestrator.stored tutorial db p = Some r →
  ChapterModel.content_hash r = Some hash →
  ∃ r', ChapterModel.get_by_hash db tutorial hash = Some r'
        ∧ ChapterModel.content_hash r' = Some hash.
Proof.
  unfold Orchestrator.stored, ChapterModel.get_by_hash. intros Hr Hh.
  apply find_some in Hr as [Hin [Ht%bool_decide_eq_true _]%andb_true_iff].
  destruct (List.find _ db) as [r'|] eqn:Hf.
  - exists r'. split; [done|].
    by apply find_some in Hf as [_ [_ ?%bool_decide_eq_true]%andb_true_iff].
  - apply (find_none _ _ Hf) in Hin.
    by rewrite !bool_decide_eq_true_2 in Hin.
Qed.

(** C1. In a run over the prior records, a chapter whose current
    fingerprint is the one stored for its position is skipped entirely:
    the record stored for it after the run is the prior record, scores
    and all, and no call into the generation capability or the search
    capability is made for it. *)
Theorem unchanged_chapter_is_skipped
    (fingerprint : string -> string) (pipeline : string -> Orchestrator.evaluation)
    (tutorial : Z) (prior : ChapterModel.table) (units : list (string * string))
    (i : nat) (path text : string) (r : ChapterModel.row) :
  units !! i = Some (path, text) →
  Orchestrator.stored tutorial prior i = Some r →
  ChapterModel.content_hash r = Some (fingerprint text) →
  let st := Orchestrator.evaluate_tutorial fingerprint pipeline tutorial prior units in
  Orchestrator.stored tutorial (Orchestrator.chapters st) i = Some r
  ∧ (i ∉ Orchestrator.generation_log st)
  ∧ (i ∉ Orchestrator.search_log st).
Proof.
  intros Hi Hr Hh st. subst st. unfold Orchestrator.evaluate_tutorial.
  destruct (evaluate_from_unchanged fingerprint pipeline tutorial units
              (Orchestrator.mk_state prior [] []) 0 i path text r Hi Hr Hh)
    as (Hs & Hg & Hq).
  simpl in *. split; [done|].
  split; [rewrite Hg|rewrite Hq]; apply not_elem_of_nil.
Qed.

Lemma unchanged_chapter_is_skipped_witness :
  let fingerprint := fun text : string => "md5:" +:+ text in
  let pipeline := fun _ : string =>
    Orchestrator.mk_evaluation 81 80 82 83 (Some "normal") 3 1 1 1 5 4 in
  let row (id order : Z) (path hash text : string) :=
    ChapterModel.mk id 7 path order (Some hash) (Some text) 70 71 72 (Some "easy") 73
      2 0 1 1 "completed" in
  let prior := [row 1 0 "a.md" "md5:alpha" "alpha"; row 2 1 "b.md" "md5:beta" "beta"] in
  let units := [("a.md", "alpha"); ("b.md", "beta, revised")] in
  let st := Orchestrator.evaluate_tutorial fingerprint pipeline 7 prior units in
  (Orchestrator.stored 7 (Orchestrator.chapters st) 0
   = Some (row 1 0 "a.md" "md5:alpha" "alpha")
   ∧ (0%nat ∉ Orchestrator.generation_log st)
   ∧ (0%nat ∉ Orchestrator.search_log st))
  ∧ Orchestrator.generation_log st = [1; 1; 1; 1; 1]%nat
  ∧ Orchestrator.search_log st = [1; 1; 1; 1]%nat.
Proof.
  cbv zeta. split; [|by vm_compute].
  refine (unchanged_chapter_is_skipped _ _ 7 _ _ 0 "a.md" "alpha" _ _ _ _); reflexivity.
Defined.


(** ** Text lemmas: prefixes, [find] and slices *)

Lemma prefix_nil (s : string) : String.prefix "" s = true.
Proof. by destruct s. Qed.

Lemma prefix_app (a b : string) : String.prefix a (a +:+ b) = true.
Proof.
  induction a as [|c a IH]; simpl; [apply prefix_nil|].
  by destruct (ascii_dec c c).
Qed.


Lemma index_0_prefix (sub s : string) :
  String.prefix sub s = true → String.index 0 sub s = Some 0%nat.
Proof.
  destruct s; simpl.
  - by destruct sub.
  - by intros ->.
Qed.


Lemma append_cons (c : ascii) (a b : string) : String c a +:+ b = String c (a +:+ b).
Proof. reflexivity. Qed.


Lemma append_nil_l (s : string) : "" +:+ s = s.
Proof. reflexivity. Qed.

Lemma index_shift (a sub s : string) (n : nat) :
  String.index (String.length a + n) sub (a +:+ s)
  = Nat.add (String.length a) <$> String.index n sub s.
Proof.
  induction a as [|c a IH].
  - rewrite append_nil_l. cbn [String.length Nat.add].
    by destruct (String.index n sub s).
  - rewrite append_cons. cbn [String.length Nat.add String.index].
    rewrite IH. by destruct (String.index n sub s).
Qed.

Lemma length_app (a b : string) :
  String.length (a +:+ b) = (String.length a + String.length b)%nat.
Proof.
  induction a as [|c a IH]; [done|].
  rewrite append_cons. cbn [String.length Nat.add]. by rewrite IH.
Qed.

Lemma substring_head (b c : string) :
  String.substring 0 (String.length b) (b +:+ c) = b.
Proof.
  induction b as [|y b IHb].
  - by destruct c.
  - rewrite append_cons. cbn [String.length String.substring]. by rewrite IHb.
Qed.


Lemma position_inside (s : string) (i : Z) : 0 <= i <= Py.len s → Py.position s i = i.
Proof.
  intros H. unfold Py.position. rewrite (proj2 (Z.ltb_ge i 0)) by lia. lia.
Qed.


Lemma append_assoc (a b c : string) : (a +:+ b) +:+ c = a +:+ b +:+ c.
Proof.
  induction a as [|x a IH]; [done|].
  rewrite !append_cons. by rewrite IH.
Qed.

(** ** What the fences leave (C6) *)



Lemma find_index (sub s : string) (n : nat) :
  Py.find sub 0 s = Z.of_nat n → String.index 0 sub s = Some n.
Proof.
  unfold Py.find. change (Z.to_nat 0) with 0%nat.
  destruct (String.index 0 sub s) as [m|]; [|lia]. intros H. f_equal. lia.
Qed.



Lemma substring_skip (a b : string) (n k : nat) :
  String.substring (String.length a + n) k (a +:+ b) = String.substring n k b.
Proof.
  induction a as [|c a IH]; [done|].
  rewrite append_cons. cbn [String.length Nat.add String.substring]. apply IH.
Qed.

Lemma substring_none (n : nat) (s : string) : String.substring n 0 s = "".
Proof.
  revert n. induction s as [|c s IH]; intros [|n]; try done. apply IH.
Qed.

Lemma all_cont_app (a b : string) :
  Py.all_cont (a +:+ b) = Py.all_cont a && Py.all_cont b.
Proof.
  induction a as [|c a IH]; [done|].
  rewrite append_cons. cbn [Py.all_cont]. rewrite IH. by destruct (Py.is_cont c).
Qed.

Lemma chop_all_cont (b : string) : Py.all_cont b = true → Py.chop b = "".
Proof.
  destruct b as [|c b]; [done|]. cbn [Py.all_cont Py.chop].
  intros [_ ->]%andb_true_iff. done.
Qed.

Lemma chop_app (a b : string) :
  Py.all_cont b = false → Py.chop (a +:+ b) = a +:+ Py.chop b.
Proof.
  intros Hb. induction a as [|c a IH]; [done|].
  rewrite !append_cons. cbn [Py.chop]. rewrite all_cont_app, Hb, andb_false_r.
  by rewrite IH.
Qed.

Lemma chop_app_length (a b : string) :
  Py.all_cont b = true → (String.length (Py.chop (a +:+ b)) ≤ String.length a)%nat.
Proof.
  intros Hb. induction a as [|c a IH].
  - rewrite append_nil_l, chop_all_cont by done. done.
  - rewrite append_cons. cbn [Py.chop]. destruct (Py.all_cont (a +:+ b)); simpl; lia.
Qed.

Lemma chop_prefix (b : string) : ∃ r, b = Py.chop b +:+ r.
Proof.
  induction b as [|c b [r IH]]; [by exists ""|].
  cbn [Py.chop]. destruct (Py.all_cont b).
  - by exists (String c b).
  - exists r. rewrite append_cons. by rewrite <- IH.
Qed.

(** From the end of [a] to the last character of the text: what
    follows [a], without its last character. *)
Lemma slice_to_last (a b : string) :
  Py.slice (a +:+ b) (Py.len a) (-1) = Py.chop b.
Proof.
  unfold Py.slice. cbv zeta.
  rewrite position_inside by (unfold Py.len; rewrite length_app; lia).
  unfold Py.position. change (-1 <? 0) with true. cbv iota.
  change (Z.to_nat (- -1)) with 1%nat. cbn [Nat.iter nat_rect]. unfold Py.len.
  rewrite Nat2Z.id.
  destruct (Py.all_cont b) eqn:Hb.
  - pose proof (chop_app_length a b Hb).
    replace (Z.to_nat _) with 0%nat by lia.
    by rewrite substring_none, chop_all_cont.
  - rewrite chop_app, length_app by done.
    replace (Z.to_nat _) with (String.length (Py.chop b)) by lia.
    rewrite <- (Nat.add_0_r (String.length a)), substring_skip.
    destruct (chop_prefix b) as [r Hr]. rewrite Hr at 2. apply substring_head.
Qed.

(** The slice from the end of a marker that no fence follows: what
    follows the marker, without its last character. *)
Lemma payload_to_last (marker before body : string) :
  let text := before +:+ marker +:+ body in
  Py.find marker 0 text = Py.len before →
  Py.contains "```" body = false →
  Py.contains marker text = true
  ∧ Py.slice text (Py.find marker 0 text + Py.len marker)
      (Py.find "```" (Py.find marker 0 text + Py.len marker) text)
    = Py.chop body.
Proof.
  intros text Hfind Hnone.
  pose proof (find_index _ _ _ Hfind) as Hopen.
  split; [unfold Py.contains; by rewrite Hopen|].
  rewrite Hfind.
  assert (Py.len before + Py.len marker = Py.len (before +:+ marker)) as ->
    by (unfold Py.len; rewrite length_app; lia).
  assert (text = (before +:+ marker) +:+ body) as Htext
    by (subst text; by rewrite append_assoc).
  assert (Py.find "```" (Py.len (before +:+ marker)) text = -1) as ->.
  { unfold Py.find, Py.len. rewrite Nat2Z.id.
    rewrite <- (Nat.add_0_r (String.length (before +:+ marker))), Htext, index_shift.
    unfold Py.contains in Hnone. by destruct (String.index 0 "```" body). }
  rewrite Htext. apply slice_to_last.
Qed.




Lemma fenced_payload_json_open (response before body : string) :
  Py.strip response = before +:+ "```json" +:+ body →
  Py.find "```json" 0 (Py.strip response) = Py.len before →
  Py.contains "```" body = false →
  fenced_payload response = Py.strip (Py.chop body).
Proof.
  intros Hs Hfind Hnone. unfold fenced_payload. cbv zeta. rewrite Hs in Hfind |- *.
  destruct (payload_to_last "```json" before body Hfind Hnone) as [-> Hslice].
  change (Py.len "```json") with 7 in Hslice. by rewrite Hslice.
Qed.

Lemma fenced_payload_fence_open (response before body : string) :
  Py.strip response = before +:+ "```" +:+ body →
  Py.contains "```json" (Py.strip response) = false →
  Py.find "```" 0 (Py.strip response) = Py.len before →
  Py.contains "```" body = false →
  fenced_payload response = Py.strip (Py.chop body).
Proof.
  intros Hs Hjson Hfind Hnone. unfold fenced_payload. cbv zeta.
  rewrite Hjson. rewrite Hs in Hfind |- *.
  destruct (payload_to_last "```" before body Hfind Hnone) as [-> Hslice].
  change (Py.len "```") with 3 in Hslice. by rewrite Hslice.
Qed.

(** ** What [json.loads] rejects at its first character *)











(** Prose that opens with a letter a JSON literal could open with is
    rejected as well. *)
Example analyzer_rejects_a_note :
  let object := "{" +:+ quoted "topic" +:+ ": " +:+ quoted "rocq" +:+ "}" in
  Json.loads ("Note: " +:+ object) = Raise JSONDecodeError
  ∧ ContentAnalyzer._parse_response ("Note: " +:+ object)
    = Ok (Some (ContentSummary.mk "" UNKNOWN [] [] [] [])).
Proof. by vm_compute. Qed.

(** ** The default summary of the analyzer (C7) *)

Lemma default_summary_queries (content : string) :
  let tokens := Py.split (Py.prefix_of 500 content) in
  ContentSummary.search_queries (ContentAnalyzer._default_summary content)
  = match tokens with
    | [] => []
    | _ => [Py.join " " (take 5 tokens)]
    end.
Proof.
  cbv zeta. unfold ContentAnalyzer._default_summary. cbv zeta. simpl.
  destruct (Py.split (Py.prefix_of 500 content)) as [|w ws]; [done|].
  change (take 10 (w :: ws)) with (w :: take 9 ws).
  change (take 5 (w :: take 9 ws)) with (w :: take 4 (take 9 ws)).
  change (take 5 (w :: ws)) with (w :: take 4 ws).
  by rewrite take_take.
Qed.

(** C7, as the code has it.  For every chapter text, an empty reply
    ([None] or the empty text) makes [analyze] return the default summary
    of the text: content type unknown, no core point, no key term, and a
    query list that is empty when the first 500 characters of the text
    hold no token and otherwise holds one query, the first five tokens of
    those characters joined by single spaces.  A reply that [json.loads]
    rejects gives a summary with content type unknown, no core point and
    no key term as well. *)
Theorem analyze_default_summary
    (llm : llm_service) (render_analyze : string -> string) (content : string) :
  let reply := llm (render_analyze content) in
  let summary := ContentAnalyzer.analyze llm render_analyze content in
  let tokens := Py.split (Py.prefix_of 500 content) in
  (∀ response, reply = Ok response → falsy response = true →
     summary = Some (ContentAnalyzer._default_summary content)
     ∧ ContentSummary.content_type (ContentAnalyzer._default_summary content) = UNKNOWN
     ∧ ContentSummary.core_points (ContentAnalyzer._default_summary content) = []
     ∧ ContentSummary.key_terms (ContentAnalyzer._default_summary content) = []
     ∧ ContentSummary.search_queries (ContentAnalyzer._default_summary content)
       = match tokens with
         | [] => []
         | _ => [Py.join " " (take 5 tokens)]
         end)
  ∧ (∀ text, reply = Ok (Some text) → unparseable text →
       ∃ s, summary = Some s
            ∧ ContentSummary.content_type s = UNKNOWN
            ∧ ContentSummary.core_points s = []
            ∧ ContentSummary.key_terms s = []).
Proof.
  intros reply summary tokens. subst reply summary tokens.
  unfold ContentAnalyzer.analyze. cbv zeta. split.
  - intros response -> ->. split; [done|]. repeat split.
    apply default_summary_queries.
  - intros text -> Hbad. destruct (falsy (Some text)); [by eexists|].
    unfold ContentAnalyzer._parse_response, ContentAnalyzer.decode. simpl.
    rewrite Hbad. by eexists.
Qed.

Lemma analyze_default_summary_witness :
  let llm : llm_service := fun _ => Ok (Some "") in
  let content := "  Rocq is a proof assistant; it checks proofs by machine." in
  ContentAnalyzer.analyze llm (fun c => c) content
  = Some (ContentSummary.mk "" UNKNOWN [] [] [] ["Rocq is a proof assistant;"]).
Proof.
  cbv zeta.
  destruct (proj1 (analyze_default_summary (fun _ => Ok (Some "")) (fun c => c)
                     "  Rocq is a proof assistant; it checks proofs by machine.")
              (Some "") eq_refl eq_refl) as [-> _].
  reflexivity.
Defined.

(** C7 as stated fails: a text whose tokens all stand after its first 500
    characters has tokens, and yet the default summary of an empty reply
    holds no query. *)
Lemma default_summary_reads_500_characters :
  let content := blank 500 +:+ "hello world" in
  Py.split content = ["hello"; "world"]
  ∧ ContentAnalyzer.analyze (fun _ => Ok None) (fun c => c) content
    = Some (ContentSummary.mk "" UNKNOWN [] [] [] []).
Proof. vm_compute. done. Qed.

(** The same list is empty on a reply that [json.loads] rejects, whatever
    the text: [_parse_response] builds the default summary of the empty
    text. *)
Example analyze_unparseable_reply_has_no_query :
  ContentAnalyzer.analyze (fun _ => Ok (Some "not json")) (fun c => c) "hello world"
  = Some (ContentSummary.mk "" UNKNOWN [] [] [] []).
Proof. vm_compute. done. Qed.

(** The 500 are characters, and the tokens end at any white space: 200
    ideographs and two words behind them are three tokens and make the
    query whole, and of 600 ideographs the first 500 are the query. *)
Example default_summary_counts_characters :
  let text := times 200 zhong +:+ " tail" +:+ ideographic_space +:+ "end" in
  ContentSummary.search_queries (ContentAnalyzer._default_summary text)
  = [times 200 zhong +:+ " tail end"]
  ∧ ContentSummary.search_queries (ContentAnalyzer._default_summary (times 600 zhong))
    = [times 500 zhong].
Proof. by vm_compute. Qed.

(** * Further properties of the code *)

(** ** pipeline/search_agent.py *)

Lemma execute_search_items (svc : SearchAgent.service) (query : string) (n : Z) :
  SearchAgent._execute_search svc query n
  = if SearchAgent.has_search svc
    then SearchAgent.to_result query <$> response_items (SearchAgent.search_method svc query n)
    else [].
Proof.
  unfold SearchAgent._execute_search.
  destruct (SearchAgent.has_search svc); [|done].
  destruct (SearchAgent.search_method svc query n) as [[[] [items|]|items|]|e]; done.
Qed.

Lemma execute_search_failed (svc : SearchAgent.service) (query : string) (n : Z) :
  search_fails svc query n → SearchAgent._execute_search svc query n = [].
Proof.
  unfold search_fails, SearchAgent._execute_search. intros [->|H]; [done|].
  destruct (SearchAgent.has_search svc); [|done].
  destruct (SearchAgent.search_method svc query n) as [[success results|items|]|e];
    [by subst|done..].
Qed.

Lemma first_by_url_length (seen : gset string) (l : list SearchResult.t) :
  (length (first_by_url seen l) ≤ length l)%nat.
Proof.
  revert seen. induction l as [|r l IH]; intros seen; simpl; [done|].
  case_bool_decide; [specialize (IH seen)|specialize (IH ({[SearchResult.source_url r]} ∪ seen))];
    simpl; lia.
Qed.

(** X1. One call of [search] keeps, of the results its queries bring in
    order, the first of every source identifier and nothing else: no
    identifier comes twice, every identifier that a query brought is
    there, and what is kept has no earlier result of its identifier. *)
Theorem search_keeps_first_of_each_source
    (svc : SearchAgent.service) (queries : list string) (n : Z) :
  let found := concat ((fun q => SearchAgent._execute_search svc q n) <$> queries) in
  let kept := SearchAgent.search (Some svc) queries n in
  NoDup (urls kept)
  ∧ (∀ u, u ∈ urls kept ↔ u ∈ urls found)
  ∧ (∀ r, r ∈ kept →
       ∃ before after, found = before ++ r :: after
                       ∧ (SearchResult.source_url r ∉ urls before)).
Proof.
  intros found kept. subst found kept. rewrite search_first_by_url.
  split; [apply first_by_url_fresh|]. split.
  - intros u. split.
    + intros Hu. by apply first_by_url_fresh in Hu as [_ ?].
    + intros Hu. apply first_by_url_complete; [done|set_solver].
  - intros r (before & after & Hf & Hb & _)%first_by_url_first. eauto.
Qed.

(** X2. A query that fails is skipped and costs the other queries
    nothing: the results are those of the query list without it. *)
Theorem search_skips_a_failed_query
    (svc : SearchAgent.service) (earlier later : list string) (query : string) (n : Z) :
  search_fails svc query n →
  SearchAgent.search (Some svc) (earlier ++ query :: later) n
  = SearchAgent.search (Some svc) (earlier ++ later) n.
Proof.
  intros Hfail. rewrite !search_first_by_url, !fmap_app, fmap_cons, !concat_app.
  simpl. by rewrite execute_search_failed.
Qed.

Lemma search_skips_a_failed_query_witness :
  let hit (url : string) : SearchAgent.item := {[ "url" := url ]} in
  let svc :=
    SearchAgent.Service true (fun query _ =>
      if bool_decide (query = "down") then Raise ServiceError
      else Ok (SearchAgent.Listing [hit query])) in
  urls (SearchAgent.search (Some svc) (["a"] ++ "down" :: ["b"]) 3) = ["a"; "b"].
Proof.
  cbv zeta.
  rewrite (search_skips_a_failed_query
             (SearchAgent.Service true (fun query _ =>
                if bool_decide (query = "down") then Raise ServiceError
                else Ok (SearchAgent.Listing [({[ "url" := query ]} : SearchAgent.item)])))
             ["a"] ["b"] "down" 3);
    [reflexivity|right; exact I].
Defined.

Lemma search_result_query (svc : SearchAgent.service) (queries : list string) (n : Z)
    (r : SearchResult.t) :
  r ∈ SearchAgent.search (Some svc) queries n →
  SearchResult.query r ∈ queries ∧ SearchResult.relevance_score r = 0%Q.
Proof.
  rewrite search_first_by_url. intros (before & after & Hf & _)%first_by_url_first.
  assert (r ∈ concat ((fun q => SearchAgent._execute_search svc q n) <$> queries)) as Hr
    by (rewrite Hf; set_solver).
  apply list_elem_of_In, in_concat in Hr as (l & Hl & Hr).
  apply list_elem_of_In in Hl, Hr.
  apply list_elem_of_fmap in Hl as (q & -> & Hq).
  rewrite execute_search_items in Hr. destruct (SearchAgent.has_search svc).
  - apply list_elem_of_fmap in Hr as (it & -> & _). by split.
  - by apply elem_of_nil in Hr.
Qed.

(** X3. Every result of [search_multi_round] carries the query that
    brought it, and that query is one of the first three search queries
    of the summary or, when a second round is allowed, the topic followed
    by one of the first two key terms; its relevance score is still 0. *)
Theorem search_multi_round_asks_five_queries
    (service : option SearchAgent.service) (summary : ContentSummary.t)
    (max_rounds results_per_round : Z) (r : SearchResult.t) :
  r ∈ SearchAgent.search_multi_round service summary max_rounds results_per_round →
  (SearchResult.query r ∈ take 3 (ContentSummary.search_queries summary)
   ∨ (2 <= max_rounds ∧ SearchResult.query r ∈ term_queries summary))
  ∧ SearchResult.relevance_score r = 0%Q.
Proof.
  unfold SearchAgent.search_multi_round. cbv zeta.
  destruct service as [svc|].
  2:{ simpl. repeat case_bool_decide; destruct (2 <=? max_rounds); simpl;
        intros Hr; by apply elem_of_nil in Hr. }
  intros Hr.
  assert (r ∈ SearchAgent.search (Some svc) (take 3 (ContentSummary.search_queries summary))
                (results_per_round / 3 + 1)
          ∨ (2 <= max_rounds
             ∧ r ∈ SearchAgent.search (Some svc) (term_queries summary) 2)) as [H|[Hm H]].
  { destruct (2 <=? max_rounds) eqn:Hm; repeat case_bool_decide; simpl in Hr;
      rewrite ?app_nil_r in Hr; try apply elem_of_app in Hr as [Hr|Hr];
      try (by apply elem_of_nil in Hr); try (by left);
      right; split; try done; by apply Z.leb_le. }
  - apply search_result_query in H as [? ?]. by split; [left|].
  - apply search_result_query in H as [? ?]. by split; [right|].
Qed.

Lemma search_multi_round_asks_five_queries_witness :
  let svc :=
    SearchAgent.Service true (fun query _ =>
      Ok (SearchAgent.Listing [({[ "url" := query ]} : SearchAgent.item)])) in
  let summary := ContentSummary.mk "X" UNKNOWN [] ["Y"; "Z"; "W"] [] ["a"; "b"; "c"; "d"] in
  let r := SearchResult.mk "X Y" "X Y" "" "" 0 in
  (SearchResult.query r ∈ take 3 (ContentSummary.search_queries summary)
   ∨ (2 <= 2 ∧ SearchResult.query r ∈ term_queries summary))
  ∧ SearchResult.relevance_score r = 0%Q.
Proof.
  cbv zeta.
  refine (search_multi_round_asks_five_queries
            (Some (SearchAgent.Service true (fun query _ =>
               Ok (SearchAgent.Listing [({[ "url" := query ]} : SearchAgent.item)]))))
            (ContentSummary.mk "X" UNKNOWN [] ["Y"; "Z"; "W"] [] ["a"; "b"; "c"; "d"])
            2 5 _ _).
  assert (SearchAgent.search_multi_round
            (Some (SearchAgent.Service true (fun query _ =>
               Ok (SearchAgent.Listing [({[ "url" := query ]} : SearchAgent.item)]))))
            (ContentSummary.mk "X" UNKNOWN [] ["Y"; "Z"; "W"] [] ["a"; "b"; "c"; "d"])
            2 5
          = (fun q => SearchResult.mk q q "" "" 0) <$> ["a"; "b"; "c"; "X Y"; "X Z"]) as ->
    by reflexivity.
  simpl. do 3 right. left.
Defined.

(** X4. With a service that never returns more items than asked for,
    [search] returns at most as many results as queries times the limit,
    and [search_multi_round] at most three times the limit of the first
    round plus four. *)
Theorem search_results_are_bounded
    (svc : SearchAgent.service) (queries : list string) (n : Z)
    (summary : ContentSummary.t) (max_rounds results_per_round : Z) :
  honours_limit svc →
  (length (SearchAgent.search (Some svc) queries n) ≤ length queries * Z.to_nat n)%nat
  ∧ (length (SearchAgent.search_multi_round (Some svc) summary max_rounds results_per_round)
     ≤ 3 * Z.to_nat (results_per_round / 3 + 1) + 4)%nat.
Proof.
  intros Hlim.
  assert (∀ qs k, (length (SearchAgent.search (Some svc) qs k) ≤ length qs * Z.to_nat k)%nat)
    as Hsearch.
  { intros qs k. rewrite search_first_by_url.
    etrans; [apply first_by_url_length|].
    induction qs as [|q qs IH]; [done|].
    rewrite fmap_cons. cbn [concat length]. rewrite List.length_app, execute_search_items.
    specialize (Hlim q k).
    destruct (SearchAgent.has_search svc); [rewrite length_fmap|cbn [length]]; lia. }
  split; [apply Hsearch|].
  unfold SearchAgent.search_multi_round. cbv zeta.
  pose proof (Hsearch (take 3 (ContentSummary.search_queries summary))
                (results_per_round / 3 + 1)) as H1.
  pose proof (Hsearch ((fun term => ContentSummary.topic summary +:+ " " +:+ term)
                       <$> take 2 (ContentSummary.key_terms summary)) 2) as H2.
  rewrite length_fmap in H2. rewrite !length_take in H1, H2.
  change (Z.to_nat 2) with 2%nat in H2.
  set (round1 := SearchAgent.search _ (take 3 _) _) in *.
  set (round2 := SearchAgent.search _ (_ <$> _) _) in *.
  set (limit := Z.to_nat (results_per_round / 3 + 1)) in *.
  assert (length round1 ≤ 3 * limit)%nat by nia.
  assert (length round2 ≤ 4)%nat by lia.
  repeat case_bool_decide; destruct (2 <=? max_rounds); cbn [andb];
    rewrite ?List.length_app; cbn [app length]; lia.
Qed.

Lemma search_results_are_bounded_witness :
  let svc :=
    SearchAgent.Service true (fun query n =>
      Ok (SearchAgent.Listing
            (take (Z.to_nat n)
               [({[ "url" := query +:+ "/1" ]} : SearchAgent.item);
                {[ "url" := query +:+ "/2" ]}; {[ "url" := query +:+ "/3" ]}]))) in
  let summary := ContentSummary.mk "X" UNKNOWN [] ["Y"] [] ["a"; "b"] in
  (length (SearchAgent.search (Some svc) ["a"; "b"] 2) ≤ 2 * Z.to_nat 2)%nat
  ∧ (length (SearchAgent.search_multi_round (Some svc) summary 2 5)
     ≤ 3 * Z.to_nat (5 / 3 + 1) + 4)%nat.
Proof.
  cbv zeta.
  refine (search_results_are_bounded _ ["a"; "b"] 2 _ 2 5 _).
  intros query n. simpl. rewrite length_take. lia.
Defined.

(** ** pipeline/reference_manager.py *)

Section stable_sort_sorted.
Context {A : Type} (before : A -> A -> bool) (R : relation A).
Context (before_R : ∀ x y, before x y = true → R x y).
Context (not_before_R : ∀ x y, before x y = false → R y x).
Context `{!Transitive R}.

Lemma insert_sorted_sorted (x : A) (l : list A) :
  StronglySorted R l → StronglySorted R (insert_sorted before x l).
Proof.
  induction 1 as [|y l Hl IH Hy]; simpl.
  - repeat constructor.
  - destruct (before x y) eqn:Hb.
    + constructor; [by constructor|].
      constructor; [by apply before_R|].
      eapply Forall_impl; [exact Hy|]. intros z Hz. etrans; [|exact Hz].
      by apply before_R.
    + constructor; [done|].
      rewrite insert_sorted_perm. constructor; [by apply not_before_R|done].
Qed.

Lemma stable_sort_sorted (l : list A) : StronglySorted R (stable_sort before l).
Proof.
  induction l as [|x l IH]; simpl; [constructor|].
  by apply insert_sorted_sorted.
Qed.
End stable_sort_sorted.

Lemma sorted_sublist {A : Type} (R : relation A) (l1 l2 : list A) :
  l1 `sublist_of` l2 → StronglySorted R l2 → StronglySorted R l1.
Proof.
  induction 1 as [|x l1 l2 Hsub IH|x l1 l2 Hsub IH]; intros Hs; [done|..].
  - apply StronglySorted_inv in Hs as [Hs Hx]. constructor; [by apply IH|].
    eapply Forall_forall. intros y Hy. eapply Forall_forall in Hx; [exact Hx|].
    by eapply elem_of_sublist.
  - apply StronglySorted_inv in Hs as [Hs _]. by apply IH.
Qed.

Lemma sorted_app_elem_of {A : Type} (R : relation A) (l1 l2 : list A) (x y : A) :
  StronglySorted R (l1 ++ l2) → x ∈ l1 → y ∈ l2 → R x y.
Proof.
  induction l1 as [|z l1 IH]; simpl; intros Hs Hx Hy; [by apply elem_of_nil in Hx|].
  apply StronglySorted_inv in Hs as [Hs Hz].
  apply elem_of_cons in Hx as [->|Hx]; [|by apply IH].
  eapply Forall_forall in Hz; [exact Hz|]. apply elem_of_app. by right.
Qed.

#[local] Instance ranks_before_trans : Transitive ranks_before.
Proof. intros a b c Hab Hbc. unfold ranks_before in *. by eapply Qle_trans. Qed.

Lemma sort_by_reverse_sorted (l : list SearchResult.t) :
  StronglySorted ranks_before (sort_by_reverse SearchResult.relevance_score l).
Proof.
  apply stable_sort_sorted; [| |apply _].
  - intros x y H. by apply Qle_bool_iff in H.
  - intros x y H. unfold ranks_before.
    destruct (Qlt_le_dec (SearchResult.relevance_score x) (SearchResult.relevance_score y))
      as [Hlt|Hle]; [by apply Qlt_le_weak|].
    apply Qle_bool_iff in Hle. congruence.
Qed.

Lemma evaluate_relevance_sort (results : list SearchResult.t) (summary : ContentSummary.t) :
  ReferenceManager.evaluate_relevance results summary
  = sort_by_reverse SearchResult.relevance_score (with_relevance summary <$> results).
Proof. by destruct results. Qed.

Lemma ranking_sort (calculate : SearchResult.t -> ContentSummary.t -> Q)
    (results : list SearchResult.t) (summary : ContentSummary.t) :
  Ranking.evaluate_relevance calculate results summary
  = sort_by_reverse SearchResult.relevance_score
      (Ranking.scored calculate summary <$> results).
Proof. by destruct results. Qed.

(** The ranking by the exact score is one of them. *)
Lemma evaluate_relevance_ranking (results : list SearchResult.t) (summary : ContentSummary.t) :
  ReferenceManager.evaluate_relevance results summary
  = Ranking.evaluate_relevance ReferenceManager._calculate_relevance results summary.
Proof. reflexivity. Qed.

(** X5. Whatever the scoring method computes, [evaluate_relevance]
    returns the results it was given, each with the score of the method,
    ranked from the highest score to the lowest; results of equal score
    keep the order they came in. *)
Theorem evaluate_relevance_ranks
    (calculate : SearchResult.t -> ContentSummary.t -> Q)
    (results : list SearchResult.t) (summary : ContentSummary.t) :
  let ranked := Ranking.evaluate_relevance calculate results summary in
  let scored := Ranking.scored calculate summary <$> results in
  StronglySorted ranks_before ranked
  ∧ ranked ≡ₚ scored
  ∧ length ranked = length results
  ∧ (∀ score : Q,
       filter (fun r => Qeq_bool (SearchResult.relevance_score r) score = true) ranked
       = filter (fun r => Qeq_bool (SearchResult.relevance_score r) score = true) scored).
Proof.
  cbv zeta. rewrite ranking_sort.
  split; [apply sort_by_reverse_sorted|].
  split; [apply stable_sort_perm|].
  split; [unfold sort_by_reverse; by rewrite stable_sort_perm, length_fmap|].
  intros score.
  apply (filter_stable_sort _
           (fun r => Qeq_bool (SearchResult.relevance_score r) score = true)).
  intros x y Hx Hb Hy. apply Qeq_bool_iff in Hx, Hy.
  assert (Qle_bool (SearchResult.relevance_score y) (SearchResult.relevance_score x) = true)
    as Hle by (apply Qle_bool_iff; rewrite Hx, Hy; apply Qle_refl).
  congruence.
Qed.

(** The ranking of two results that the exact score ties at 2/5, under
    a scoring that tells them apart as the binary64 score of the code
    does: the second comes first. *)
Example ranking_of_a_near_tie :
  let a := SearchResult.mk "q" "https://a.example" "A" "" 0 in
  let b := SearchResult.mk "q" "https://b.example" "B" "" 0 in
  let summary := ContentSummary.mk "" UNKNOWN [] [] [] [] in
  let calculate (r : SearchResult.t) (_ : ContentSummary.t) : Q :=
    if String.eqb (SearchResult.title r) "A" then 39999999999999997 # 100000000000000000
    else 2 # 5 in
  SearchResult.title <$> Ranking.evaluate_relevance calculate [a; b] summary = ["B"; "A"]
  ∧ SearchResult.title <$> Ranking.evaluate_relevance (fun _ _ => 2 # 5) [a; b] summary
    = ["A"; "B"].
Proof. by vm_compute. Qed.

(** X6. Whatever the scoring method computes, what
    [filter_by_relevance] keeps of a ranking is still ranked from the
    highest score to the lowest, is part of the ranking in its order, and
    holds the results whose score is at least the threshold, all of them
    and no other. *)
Theorem filter_by_relevance_keeps_the_ranking
    (calculate : SearchResult.t -> ContentSummary.t -> Q)
    (results : list SearchResult.t) (summary : ContentSummary.t) (min_score : Q) :
  let ranked := Ranking.evaluate_relevance calculate results summary in
  let kept := ReferenceManager.filter_by_relevance ranked min_score in
  StronglySorted ranks_before kept
  ∧ kept `sublist_of` ranked
  ∧ (∀ r, r ∈ kept ↔ r ∈ ranked ∧ (min_score <= SearchResult.relevance_score r)%Q).
Proof.
  cbv zeta. unfold ReferenceManager.filter_by_relevance.
  split; [|split; [apply sublist_filter|]].
  - eapply sorted_sublist; [apply sublist_filter|].
    rewrite ranking_sort. apply sort_by_reverse_sorted.
  - intros r. rewrite list_elem_of_filter, Qle_bool_iff. tauto.
Qed.

(** X7. Whatever the scoring method computes, the top references of a
    ranking are its first [top_k] results, field for field: there are
    [top_k] of them, or as many as there are results when these are fewer,
    and none has a lower score than a result that was left out. *)
Theorem top_references_are_the_best
    (calculate : SearchResult.t -> ContentSummary.t -> Q)
    (results : list SearchResult.t) (summary : ContentSummary.t) (top_k : nat) :
  let ranked := Ranking.evaluate_relevance calculate results summary in
  let top := ReferenceManager.get_top_references ranked top_k in
  length top = (top_k `min` length results)%nat
  ∧ (∀ i ref, top !! i = Some ref →
       ∃ r, ranked !! i = Some r
            ∧ Reference.title ref = SearchResult.title r
            ∧ Reference.source_url ref = SearchResult.source_url r
            ∧ Reference.snippet ref = SearchResult.snippet r
            ∧ Reference.relevance_score ref = SearchResult.relevance_score r)
  ∧ (∀ ref r, ref ∈ top → r ∈ drop top_k ranked →
       (SearchResult.relevance_score r <= Reference.relevance_score ref)%Q).
Proof.
  cbv zeta. unfold ReferenceManager.get_top_references.
  split; [|split].
  - rewrite length_fmap, length_take, ranking_sort.
    unfold sort_by_reverse. by rewrite stable_sort_perm, length_fmap.
  - intros i ref Hi. apply list_lookup_fmap_Some in Hi as (r & -> & Hr).
    apply lookup_take_Some in Hr as [Hr _]. by exists r.
  - intros ref r (r0 & -> & Hr0)%list_elem_of_fmap Hr. simpl.
    pose proof (sort_by_reverse_sorted (Ranking.scored calculate summary <$> results))
      as Hs.
    rewrite <- ranking_sort, <- (take_drop top_k) in Hs.
    exact (sorted_app_elem_of _ _ _ _ _ Hs Hr0 Hr).
Qed.

Lemma lower_char_lower (c : ascii) : Py.lower_char (Py.lower_char c) = Py.lower_char c.
Proof. by destruct c as [[] [] [] [] [] [] [] []]. Qed.

Lemma lower_lower (s : string) : Py.lower (Py.lower s) = Py.lower s.
Proof. induction s as [|c s IH]; simpl; [done|]. by rewrite lower_char_lower, IH. Qed.

Lemma lower_app (s t : string) : Py.lower (s +:+ t) = Py.lower s +:+ Py.lower t.
Proof. induction s as [|c s IH]; [done|]. rewrite !append_cons. simpl. by rewrite IH, append_cons. Qed.

Lemma lower_empty (s : string) : Py.lower s = "" ↔ s = "".
Proof. by destruct s. Qed.

Lemma lowered_terms (text : string) (terms : list string) :
  length (filter (fun term => Py.contains (Py.lower term) text = true) (Py.lower <$> terms))
  = length (filter (fun term => Py.contains (Py.lower term) text = true) terms).
Proof.
  induction terms as [|term terms IH]; [done|].
  rewrite fmap_cons, !filter_cons, lower_lower.
  destruct (decide _); simpl; by rewrite IH.
Qed.

Lemma lowered_points (text : string) (points : list string) :
  length (filter (fun point =>
                    (2 <= ReferenceManager.common_words (Py.split (Py.lower point))
                            (Py.split text))%nat)
            (Py.lower <$> points))
  = length (filter (fun point =>
                      (2 <= ReferenceManager.common_words (Py.split (Py.lower point))
                              (Py.split text))%nat)
              points).
Proof.
  induction points as [|point points IH]; [done|].
  rewrite fmap_cons, !filter_cons, lower_lower.
  destruct (decide _); simpl; by rewrite IH.
Qed.

(** X9. The relevance score does not depend on the case of the letters:
    a result with its title and snippet in lower case scores, against the
    summary with its topic, key terms and core points in lower case, what
    the result scores against the summary. *)
Theorem relevance_ignores_case (r : SearchResult.t) (summary : ContentSummary.t) :
  ReferenceManager._calculate_relevance (lower_result r) (lower_summary summary)
  = ReferenceManager._calculate_relevance r summary.
Proof.
  unfold ReferenceManager._calculate_relevance. cbv zeta.
  cbn [lower_result lower_summary SearchResult.title SearchResult.snippet
       ContentSummary.topic ContentSummary.key_terms ContentSummary.core_points].
  rewrite !lower_app, !lower_lower, <- !lower_app.
  rewrite lowered_terms, lowered_points, !length_fmap.
  assert (bool_decide (Py.lower (ContentSummary.topic summary) ≠ "")
          = bool_decide (ContentSummary.topic summary ≠ "")) as ->
    by (apply bool_decide_ext; by rewrite lower_empty).
  assert (bool_decide (Py.lower <$> ContentSummary.key_terms summary ≠ [])
          = bool_decide (ContentSummary.key_terms summary ≠ [])) as ->
    by (apply bool_decide_ext; by destruct (ContentSummary.key_terms summary)).
  assert (bool_decide (Py.lower <$> ContentSummary.core_points summary ≠ [])
          = bool_decide (ContentSummary.core_points summary ≠ [])) as ->
    by (apply bool_decide_ext; by destruct (ContentSummary.core_points summary)).
  done.
Qed.

(** ** pipeline/score_aggregator.py *)

(** The overall score reads five scores of the three results and nothing
    else of them. *)
Lemma weighted_score_reads_five_scores (w : string -> float)
    (d d' : DepthCheckResult.t) (q q' : QualityReviewResult.t) (r r' : ReadabilityResult.t) :
  DepthCheckResult.score d = DepthCheckResult.score d' →
  QualityReviewResult.accuracy_score q = QualityReviewResult.accuracy_score q' →
  QualityReviewResult.completeness_score q = QualityReviewResult.completeness_score q' →
  QualityReviewResult.logic_score q = QualityReviewResult.logic_score q' →
  ReadabilityResult.score r = ReadabilityResult.score r' →
  weighted_score w d q r
  = match weighted_score w d' q' r' with
    | Ok (overall, _) => Ok (overall, dimension_scores_of d q r)
    | Raise e => Raise e
    end.
Proof.
  intros Hd Ha Hc Hl Hr. unfold weighted_score. rewrite Hd, Ha, Hc, Hl, Hr.
  repeat (match goal with |- context [PyFloat.mul_int ?x ?y] =>
            destruct (PyFloat.mul_int x y); cbn [mbind result_bind]; [|done] end).
  by destruct (PyFloat.to_int _).
Qed.

(** X10. With the weight table, five equal scores between 0 and 100 give
    that score as the overall score or one point less, the arithmetic
    being binary64 and the sum truncated; the rows for popular science,
    documentation and unknown content give the score itself. *)
Theorem equal_scores_lose_at_most_a_point
    (depth_result : DepthCheckResult.t) (quality_result : QualityReviewResult.t)
    (readability_result : ReadabilityResult.t) (content_type : ContentType) (s : Z) :
  0 <= s <= 100 →
  DepthCheckResult.score depth_result = s →
  QualityReviewResult.accuracy_score quality_result = s →
  QualityReviewResult.completeness_score quality_result = s →
  QualityReviewResult.logic_score quality_result = s →
  ReadabilityResult.score readability_result = s →
  ∃ overall,
    ScoreAggregator.aggregate None depth_result quality_result readability_result content_type
    = Ok (overall, dimension_scores_of depth_result quality_result readability_result)
    ∧ s - 1 <= overall <= s
    ∧ (content_type ∈ [SCIENCE_POPULAR; DOCUMENTATION; UNKNOWN] → overall = s).
Proof.
  intros Hs Hd Ha Hc Hl Hr.
  pose (exact := fun t => bool_decide (t ∈ [SCIENCE_POPULAR; DOCUMENTATION; UNKNOWN])).
  pose (check := fun t s =>
          match ScoreAggregator.aggregate None
                  (DepthCheckResult.mk s PNone [] PNone)
                  (QualityReviewResult.mk 0 PNone [] PNone s s s)
                  (ReadabilityResult.mk s NORMAL [] PNone 0 0 0 0) t with
          | Ok (overall, _) =>
              (s - 1 <=? overall) && (overall <=? s)
              && (negb (exact t) || (overall =? s))
          | Raise _ => false
          end).
  assert (forallb (fun t => forallb (check t) (seqZ 0 101)) ContentType_members = true)
    as Hall by (vm_compute; reflexivity).
  assert (check content_type s = true) as Hcheck.
  { rewrite forallb_forall in Hall.
    assert (In content_type ContentType_members) as Hin
      by (destruct content_type; simpl; tauto).
    specialize (Hall _ Hin). rewrite forallb_forall in Hall.
    apply Hall, list_elem_of_In, elem_of_seqZ. lia. }
  subst check. cbv beta in Hcheck.
  rewrite aggregate_weighted.
  rewrite aggregate_weighted in Hcheck.
  rewrite (weighted_score_reads_five_scores _ depth_result
             (DepthCheckResult.mk s PNone [] PNone) quality_result
             (QualityReviewResult.mk 0 PNone [] PNone s s s) readability_result
             (ReadabilityResult.mk s NORMAL [] PNone 0 0 0 0)) by done.
  destruct (weighted_score _ _ _ _) as [[overall dims]|e]; [|done].
  exists overall. split; [done|].
  apply andb_true_iff in Hcheck as [[H1 H2]%andb_true_iff H3].
  apply Z.leb_le in H1, H2. split; [lia|].
  intros Ht. apply orb_true_iff in H3 as [H3|H3]; [|by apply Z.eqb_eq].
  subst exact. cbv beta in H3. by rewrite bool_decide_eq_true_2 in H3.
Qed.

Lemma equal_scores_lose_at_most_a_point_witness :
  ∃ overall,
    ScoreAggregator.aggregate None
      (DepthCheckResult.mk 99 (PBool true) [] (PStr ""))
      (QualityReviewResult.mk 99 (PBool true) [] (PStr "") 99 99 99)
      (ReadabilityResult.mk 99 NORMAL [] (PStr "") 99 99 99 99) TECHNICAL_TUTORIAL
    = Ok (overall, DimensionScores.mk 99 99 99 99 99 0 0 99)
    ∧ 99 - 1 <= overall <= 99
    ∧ (TECHNICAL_TUTORIAL ∈ [SCIENCE_POPULAR; DOCUMENTATION; UNKNOWN] → overall = 99).
Proof.
  refine (equal_scores_lose_at_most_a_point
            (DepthCheckResult.mk 99 (PBool true) [] (PStr ""))
            (QualityReviewResult.mk 99 (PBool true) [] (PStr "") 99 99 99)
            (ReadabilityResult.mk 99 NORMAL [] (PStr "") 99 99 99 99)
            TECHNICAL_TUTORIAL 99 _ _ _ _ _ _); [lia|reflexivity..].
Defined.

(** A chapter with 99 in every dimension is given 98 as a technical
    tutorial and as news, and 99 as unknown content. *)
Example equal_scores_of_99 :
  let aggregate :=
    ScoreAggregator.aggregate None
      (DepthCheckResult.mk 99 (PBool true) [] (PStr ""))
      (QualityReviewResult.mk 99 (PBool true) [] (PStr "") 99 99 99)
      (ReadabilityResult.mk 99 NORMAL [] (PStr "") 99 99 99 99) in
  let scores := DimensionScores.mk 99 99 99 99 99 0 0 99 in
  aggregate TECHNICAL_TUTORIAL = Ok (98, scores)
  ∧ aggregate NEWS = Ok (98, scores)
  ∧ aggregate UNKNOWN = Ok (99, scores).
Proof. by vm_compute. Qed.

(** ** The evaluators on replies of another shape *)

Lemma for_each_raises {A B : Type} (f : A -> result B) (l : list A) (x : A) :
  x ∈ l → (∃ e, f x = Raise e) → ∃ e, for_each f l = Raise e.
Proof.
  intros Hx [e He]. induction l as [|y l IH]; [by apply elem_of_nil in Hx|].
  simpl. destruct (f y) as [b|e'] eqn:Hy; [|by eexists].
  apply elem_of_cons in Hx as [->|Hx]; [congruence|].
  destruct (IH Hx) as [e'' ->]. by eexists.
Qed.

Lemma for_each_fmap {A B C : Type} (f : A -> result B) (g : C -> A) (h : C -> B)
    (l : list C) :
  (∀ x, f (g x) = Ok (h x)) → for_each f (g <$> l) = Ok (h <$> l).
Proof.
  intros H. induction l as [|x l IH]; [done|].
  rewrite !fmap_cons. simpl. by rewrite H, IH.
Qed.

Lemma loads_empty_payload : Json.loads (fenced_payload "") = Raise JSONDecodeError.
Proof. reflexivity. Qed.

Lemma decoded_reply_not_falsy (text : string) (v : pyval) :
  Json.loads (fenced_payload text) = Ok v → falsy (Some text) = false.
Proof.
  intros H. simpl. case_bool_decide as Ht; [|done].
  subst text. by rewrite loads_empty_payload in H.
Qed.

(** X11. A reply that decodes to a JSON value other than an object (a
    list, a number, a string, [true], [null]) gives the default result of
    each of the three evaluators. *)
Theorem evaluators_default_on_non_object
    (llm : llm_service)
    (render_depth_check render_quality_review : string -> option (list Reference.t) -> string)
    (render_readability_check : string -> string) (level_values : list string)
    (content : string) (references : option (list Reference.t))
    (text : string) (v : pyval) :
  Json.loads (fenced_payload text) = Ok v →
  not_an_object v →
  (llm (render_depth_check content references) = Ok (Some text) →
   DepthChecker.check llm render_depth_check content references
   = DepthChecker._default_result)
  ∧ (llm (render_quality_review content references) = Ok (Some text) →
     QualityReviewer.review llm render_quality_review content references
     = QualityReviewer._default_result)
  ∧ (llm (render_readability_check content) = Ok (Some text) →
     ReadabilityChecker.check llm render_readability_check level_values content
     = ReadabilityChecker._default_result).
Proof.
  intros Hv Hshape. pose proof (decoded_reply_not_falsy _ _ Hv) as Hf.
  split; [|split]; intros Hllm.
  - unfold DepthChecker.check. cbv zeta. rewrite Hllm, Hf. change (default EmptyString (Some text)) with text.
    unfold DepthChecker._parse_response. rewrite Hv.
    by destruct v.
  - unfold QualityReviewer.review. cbv zeta. rewrite Hllm, Hf. change (default EmptyString (Some text)) with text.
    unfold QualityReviewer._parse_response. rewrite Hv.
    by destruct v.
  - unfold ReadabilityChecker.check. cbv zeta. rewrite Hllm, Hf. change (default EmptyString (Some text)) with text.
    unfold ReadabilityChecker._parse_response. rewrite Hv.
    by destruct v.
Qed.

Lemma evaluators_default_on_non_object_witness :
  let llm : llm_service := fun _ => Ok (Some "[30, 40]") in
  DepthChecker.check llm (fun c _ => c) "text" None = DepthChecker._default_result
  ∧ QualityReviewer.review llm (fun c _ => c) "text" None = QualityReviewer._default_result
  ∧ ReadabilityChecker.check llm (fun c => c) ["easy"; "hard"] "text"
    = ReadabilityChecker._default_result.
Proof.
  cbv zeta.
  destruct (evaluators_default_on_non_object (fun _ => Ok (Some "[30, 40]"))
              (fun c _ => c) (fun c _ => c) (fun c => c) ["easy"; "hard"] "text" None
              "[30, 40]" (PList [PInt 30; PInt 40]))
    as (Hd & Hq & Hr); [reflexivity|exact I|].
  split; [apply Hd|split; [apply Hq|apply Hr]]; reflexivity.
Defined.

(** X12. One item that is no object among the vague points, or among
    the issues, discards the whole reply: the evaluator returns its
    default result, whatever score the reply gave.  The same holds when
    the value under that key cannot be iterated. *)
Theorem one_bad_item_discards_the_reply
    (llm : llm_service)
    (render_depth_check render_quality_review : string -> option (list Reference.t) -> string)
    (render_readability_check : string -> string) (level_values : list string)
    (content : string) (references : option (list Reference.t))
    (text : string) (kvs : list (string * pyval)) :
  Json.loads (fenced_payload text) = Ok (PDict kvs) →
  (llm (render_depth_check content references) = Ok (Some text) →
   has_bad_item (field kvs "vague_points" (PList [])) →
   DepthChecker.check llm render_depth_check content references
   = DepthChecker._default_result)
  ∧ (llm (render_quality_review content references) = Ok (Some text) →
     has_bad_item (field kvs "issues" (PList [])) →
     QualityReviewer.review llm render_quality_review content references
     = QualityReviewer._default_result)
  ∧ (llm (render_readability_check content) = Ok (Some text) →
     has_bad_item (field kvs "issues" (PList [])) →
     ReadabilityChecker.check llm render_readability_check level_values content
     = ReadabilityChecker._default_result).
Proof.
  intros Hv. pose proof (decoded_reply_not_falsy _ _ Hv) as Hf.
  assert (∀ {B} (f : pyval -> result B) (v : pyval),
            (∀ item, not_an_object item → ∃ e, f item = Raise e) →
            has_bad_item v →
            ∃ e, (PyVal.iter v ≫= for_each f) = Raise e) as Hloop.
  { intros B f v Hf' Hbad. unfold has_bad_item in Hbad.
    destruct (PyVal.iter v) as [items|e]; [|by eexists].
    destruct Hbad as (item & Hin & Hitem).
    apply (for_each_raises f items item Hin), Hf', Hitem. }
  split; [|split]; intros Hllm Hbad.
  - unfold DepthChecker.check. cbv zeta. rewrite Hllm, Hf.
    change (default EmptyString (Some text)) with text.
    unfold DepthChecker._parse_response. rewrite Hv.
    destruct (Hloop _ DepthChecker.vague_point _
                (fun item H => ex_intro _ AttributeError
                   (ltac:(by destruct item) : DepthChecker.vague_point item = Raise _))
                Hbad) as [e He].
    unfold field in He. cbn [PyVal.get mbind result_bind] in He |- *.
    destruct (PyVal.iter _) as [items|]; cbn [mbind result_bind] in He |- *; [|done].
    by rewrite He.
  - unfold QualityReviewer.review. cbv zeta. rewrite Hllm, Hf.
    change (default EmptyString (Some text)) with text.
    unfold QualityReviewer._parse_response. rewrite Hv.
    destruct (Hloop _ QualityReviewer.content_issue _
                (fun item H => ex_intro _ AttributeError
                   (ltac:(by destruct item) : QualityReviewer.content_issue item = Raise _))
                Hbad) as [e He].
    unfold field in He. cbn [PyVal.get mbind result_bind] in He |- *.
    destruct (PyVal.iter _) as [items|]; cbn [mbind result_bind] in He |- *; [|done].
    by rewrite He.
  - unfold ReadabilityChecker.check. cbv zeta. rewrite Hllm, Hf.
    change (default EmptyString (Some text)) with text.
    unfold ReadabilityChecker._parse_response. rewrite Hv.
    destruct (Hloop _ ReadabilityChecker.content_issue _
                (fun item H => ex_intro _ AttributeError
                   (ltac:(by destruct item) : ReadabilityChecker.content_issue item = Raise _))
                Hbad) as [e He].
    unfold field in He. cbn [PyVal.get mbind result_bind] in He |- *.
    destruct (PyVal.iter _) as [items|]; cbn [mbind result_bind] in He |- *; [|done].
    by rewrite He.
Qed.

Lemma one_bad_item_discards_the_reply_witness :
  let text :=
    "{" +:+ quoted "score" +:+ ": 30, " +:+ quoted "vague_points" +:+ ": [7]}" in
  let llm : llm_service := fun _ => Ok (Some text) in
  DepthChecker.check llm (fun c _ => c) "text" None = DepthChecker._default_result
  ∧ QualityReviewResult.score (QualityReviewer.review llm (fun c _ => c) "text" None) = 30.
Proof.
  cbv zeta. split; [|reflexivity].
  refine (proj1 (one_bad_item_discards_the_reply
                   (fun _ => Ok (Some ("{" +:+ quoted "score" +:+ ": 30, "
                                       +:+ quoted "vague_points" +:+ ": [7]}")))
                   (fun c _ => c) (fun c _ => c) (fun c => c) [] "text" None
                   ("{" +:+ quoted "score" +:+ ": 30, " +:+ quoted "vague_points" +:+ ": [7]}")
                   [("score", PInt 30); ("vague_points", PList [PInt 7])] _) _ _);
    [reflexivity|reflexivity|].
  exists (PInt 7). split; [|exact I]. vm_compute. left.
Defined.

(** X13. A reply within the limits of the interpreter (at most 100
    brackets, at most 4300 digits in a row) that decodes to an object
    whose vague points are objects is read field by field: the score is
    what [int] makes of the score of the reply, 70 when it gives none,
    taken as it is and not brought into the range from 0 to 100; there is
    one vague point per item, in the order of the reply, an absent field
    of it being the empty text. *)
Theorem depth_check_reads_the_reply
    (llm : llm_service) (render_depth_check : string -> option (list Reference.t) -> string)
    (content : string) (references : option (list Reference.t))
    (text : string) (kvs : list (string * pyval))
    (points : list (list (string * pyval))) (score : Z) :
  llm (render_depth_check content references) = Ok (Some text) →
  Json.within_limits (fenced_payload text) →
  Json.loads (fenced_payload text) = Ok (PDict kvs) →
  field kvs "vague_points" (PList []) = PList (PDict <$> points) →
  PyVal.int (field kvs "score" (PInt 70)) = Ok score →
  DepthChecker.check llm render_depth_check content references
  = {| DepthCheckResult.score := score;
       DepthCheckResult.is_detailed_enough := field kvs "is_detailed_enough" (PBool true);
       DepthCheckResult.vague_points := vague_point_of <$> points;
       DepthCheckResult.summary := field kvs "summary" (PStr "") |}.
Proof.
  intros Hllm _ Hv Hpoints Hscore. pose proof (decoded_reply_not_falsy _ _ Hv) as Hf.
  unfold DepthChecker.check. cbv zeta. rewrite Hllm, Hf.
  change (default EmptyString (Some text)) with text.
  unfold DepthChecker._parse_response. rewrite Hv.
  unfold field in *. cbn [PyVal.get mbind result_bind]. rewrite Hpoints.
  cbn [PyVal.iter mbind result_bind].
  rewrite (for_each_fmap DepthChecker.vague_point PDict vague_point_of) by done.
  cbn [mbind result_bind]. by rewrite Hscore.
Qed.

Lemma depth_check_reads_the_reply_witness :
  let text :=
    "```json {" +:+ quoted "score" +:+ ": 250, " +:+ quoted "vague_points" +:+ ": [{"
    +:+ quoted "issue" +:+ ": " +:+ quoted "vague" +:+ "}]} ```" in
  DepthChecker.check (fun _ => Ok (Some text)) (fun c _ => c) "text" None
  = DepthCheckResult.mk 250 (PBool true)
      [VaguePoint.mk (PStr "") (PStr "vague") (PStr "") (PStr "")] (PStr "").
Proof.
  cbv zeta.
  exact (depth_check_reads_the_reply
           (fun _ => Ok (Some ("```json {" +:+ quoted "score" +:+ ": 250, "
                               +:+ quoted "vague_points" +:+ ": [{"
                               +:+ quoted "issue" +:+ ": " +:+ quoted "vague" +:+ "}]} ```")))
           (fun c _ => c) "text" None _
           [("score", PInt 250); ("vague_points", PList [PDict [("issue", PStr "vague")]])]
           [[("issue", PStr "vague")]] 250
           eq_refl ltac:(split; vm_compute; lia) eq_refl eq_refl eq_refl).
Defined.

(** A score with a fraction is the binary64 number of its literal before
    [int] cuts it, and a score beyond the floats is infinite: [int] raises
    on it, and the result is the default one. *)
Example depth_check_rounds_the_score :
  let reply (score : string) := "{" +:+ quoted "score" +:+ ": " +:+ score +:+ "}" in
  let check (score : string) :=
    DepthChecker.check (fun _ => Ok (Some (reply score))) (fun c _ => c) "text" None in
  DepthCheckResult.score (check "69.99999999999999999") = 70
  ∧ DepthCheckResult.score (check "69.9999999999999") = 69
  ∧ DepthCheckResult.score (check "-3.7e1") = -37
  ∧ check "1e400" = DepthChecker._default_result.
Proof. by vm_compute. Qed.

(** X14. The readability checker reads a reply within the limits of the
    interpreter (at most 100 brackets, at most 4300 digits in a row) that
    decodes to an object whose issues are objects field by field, and a
    level it does not know, or one that is no text, does not lose the
    reply: the level is then normal, and the scores and issues are those
    of the reply. *)
Theorem readability_check_reads_the_reply
    (llm : llm_service) (render_readability_check : string -> string)
    (level_values : list string) (content : string)
    (text : string) (kvs : list (string * pyval))
    (issues : list (list (string * pyval)))
    (score vocabulary syntax discourse surface : Z) :
  llm (render_readability_check content) = Ok (Some text) →
  Json.within_limits (fenced_payload text) →
  Json.loads (fenced_payload text) = Ok (PDict kvs) →
  field kvs "issues" (PList []) = PList (PDict <$> issues) →
  PyVal.int (field kvs "score" (PInt 70)) = Ok score →
  PyVal.int (field kvs "vocabulary_score" (PInt 70)) = Ok vocabulary →
  PyVal.int (field kvs "syntax_score" (PInt 70)) = Ok syntax →
  PyVal.int (field kvs "discourse_score" (PInt 70)) = Ok discourse →
  PyVal.int (field kvs "surface_score" (PInt 70)) = Ok surface →
  ReadabilityChecker.check llm render_readability_check level_values content
  = {| ReadabilityResult.score := score;
       ReadabilityResult.level :=
         level_or_normal level_values (field kvs "level" (PStr "normal"));
       ReadabilityResult.issues := readability_issue_of <$> issues;
       ReadabilityResult.summary := field kvs "summary" (PStr "");
       ReadabilityResult.vocabulary_score := vocabulary;
       ReadabilityResult.syntax_score := syntax;
       ReadabilityResult.discourse_score := discourse;
       ReadabilityResult.surface_score := surface |}.
Proof.
  intros Hllm _ Hv Hissues Hscore Hvoc Hsyn Hdis Hsur.
  pose proof (decoded_reply_not_falsy _ _ Hv) as Hf.
  unfold ReadabilityChecker.check. cbv zeta. rewrite Hllm, Hf.
  change (default EmptyString (Some text)) with text.
  unfold ReadabilityChecker._parse_response. rewrite Hv.
  unfold field in *. cbn [PyVal.get mbind result_bind]. rewrite Hissues.
  cbn [PyVal.iter mbind result_bind].
  rewrite (for_each_fmap ReadabilityChecker.content_issue PDict readability_issue_of)
    by done.
  cbn [mbind result_bind]. rewrite Hscore, Hvoc, Hsyn, Hdis, Hsur.
  cbn [mbind result_bind]. do 2 f_equal.
  unfold ReadabilityChecker.ReadabilityLevel_of, level_or_normal.
  destruct (default (PStr "normal") (PyVal.lookup "level" kvs)) as [| | | |s| |]; try done.
  repeat case_bool_decide; subst; done.
Qed.

Lemma readability_check_reads_the_reply_witness :
  let text :=
    "{" +:+ quoted "level" +:+ ": " +:+ quoted "postgraduate" +:+ ", "
    +:+ quoted "score" +:+ ": 55}" in
  ReadabilityChecker.check (fun _ => Ok (Some text)) (fun c => c) ["easy"; "hard"] "text"
  = ReadabilityResult.mk 55 NORMAL [] (PStr "") 70 70 70 70.
Proof.
  cbv zeta.
  exact (readability_check_reads_the_reply
           (fun _ => Ok (Some ("{" +:+ quoted "level" +:+ ": " +:+ quoted "postgraduate"
                               +:+ ", " +:+ quoted "score" +:+ ": 55}")))
           (fun c => c) ["easy"; "hard"] "text" _
           [("level", PStr "postgraduate"); ("score", PInt 55)] [] 55 70 70 70 70
           eq_refl ltac:(split; vm_compute; lia) eq_refl eq_refl eq_refl eq_refl eq_refl eq_refl
           eq_refl).
Defined.

(** ** What the improver returns *)

(** X15. Whatever the language model answers, the list [generate]
    returns is in the order of its priorities, lowest number first. *)
Theorem generate_is_sorted_by_priority
    (llm : llm_service) (render : string -> pyval -> pyval -> pyval -> string)
    (content : string) (depth_result : DepthCheckResult.t)
    (quality_result : QualityReviewResult.t) (readability_result : ReadabilityResult.t) :
  StronglySorted (key_le ActionableFeedback.priority)
    (Improver.generate llm render content depth_result quality_result readability_result).
Proof.
  unfold Improver.generate. cbv zeta.
  pose proof (sort_by_sorted ActionableFeedback.priority
                (Improver.generated depth_result quality_result readability_result))
    as Hfallback.
  fold (Improver._generate_from_results depth_result quality_result readability_result)
    in Hfallback.
  destruct (llm _) as [response|e]; [|done].
  destruct (falsy response); [done|].
  unfold Improver._parse_response.
  destruct (Json.loads _) as [data|[]]; try done; [|constructor].
  destruct (PyVal.get data "feedback" (PList [])) as [raw|]; [|done].
  cbn [mbind result_bind].
  destruct (PyVal.iter raw) as [items|]; [|done]. cbn [mbind result_bind].
  destruct (for_each Improver.feedback items) as [feedback_list|]; [|done].
  cbn [mbind result_bind]. apply sort_by_sorted.
Qed.

(** X16. A reply within the limits of the interpreter (at most 100
    brackets, at most 4300 digits in a row) that decodes to an object with
    no feedback in it (the key is absent, or its value is an empty list)
    makes [generate] return the empty list and not the fallback, whatever
    the three results hold. *)
Theorem generate_empty_on_object_without_feedback
    (llm : llm_service) (render : string -> pyval -> pyval -> pyval -> string)
    (content : string) (depth_result : DepthCheckResult.t)
    (quality_result : QualityReviewResult.t) (readability_result : ReadabilityResult.t)
    (text : string) (kvs : list (string * pyval)) :
  llm (render content (Improver.depth_dict depth_result)
         (Improver.quality_dict quality_result)
         (Improver.readability_dict readability_result)) = Ok (Some text) →
  Json.within_limits (fenced_payload text) →
  Json.loads (fenced_payload text) = Ok (PDict kvs) →
  field kvs "feedback" (PList []) = PList [] →
  Improver.generate llm render content depth_result quality_result readability_result = [].
Proof.
  intros Hllm _ Hv Hnone. pose proof (decoded_reply_not_falsy _ _ Hv) as Hf.
  unfold Improver.generate. cbv zeta. rewrite Hllm, Hf.
  change (default EmptyString (Some text)) with text.
  unfold Improver._parse_response. rewrite Hv.
  unfold field in Hnone. cbn [PyVal.get mbind result_bind]. by rewrite Hnone.
Qed.

Lemma generate_empty_on_object_without_feedback_witness :
  let vague := VaguePoint.mk (PStr "intro") (PStr "vague") (PStr "") (PStr "add detail") in
  let depth_result := DepthCheckResult.mk 40 (PBool false) [vague] (PStr "") in
  Improver.generate (fun _ => Ok (Some "{}")) (fun c _ _ _ => c) "text" depth_result
    QualityReviewer._default_result ReadabilityChecker._default_result = []
  ∧ length (Improver._generate_from_results depth_result
              QualityReviewer._default_result ReadabilityChecker._default_result) = 1%nat.
Proof.
  cbv zeta. split; [|reflexivity].
  exact (generate_empty_on_object_without_feedback (fun _ => Ok (Some "{}"))
           (fun c _ _ _ => c) "text" _ _ _ "{}" [] eq_refl ltac:(split; vm_compute; lia)
           eq_refl eq_refl).
Defined.

(** ** The analyzer on a call that fails and on replies of another shape *)

(** X17. When the call of the language model raises, or its reply
    decodes to a JSON value that is no object, [analyze] returns the
    default summary of the chapter text, with the query made of its first
    tokens. *)
Theorem analyze_default_on_raise_or_non_object
    (llm : llm_service) (render_analyze : string -> string) (content : string) :
  let reply := llm (render_analyze content) in
  let summary := ContentAnalyzer.analyze llm render_analyze content in
  (∀ e, reply = Raise e → summary = Some (ContentAnalyzer._default_summary content))
  ∧ (∀ text v, reply = Ok (Some text) →
       Json.loads (fenced_payload text) = Ok v → not_an_object v →
       summary = Some (ContentAnalyzer._default_summary content)).
Proof.
  cbv zeta. unfold ContentAnalyzer.analyze. cbv zeta.
  split; [by intros e ->|].
  intros text v -> Hv Hshape. rewrite (decoded_reply_not_falsy _ _ Hv).
  change (default EmptyString (Some text)) with text.
  unfold ContentAnalyzer._parse_response, ContentAnalyzer.decode. rewrite Hv.
  by destruct v.
Qed.

Lemma analyze_default_on_non_object_example :
  ContentAnalyzer.analyze (fun _ => Ok (Some "[30, 40]")) (fun c => c) "Rocq checks proofs"
  = Some (ContentSummary.mk "" UNKNOWN [] [] [] ["Rocq checks proofs"]).
Proof.
  exact (proj2 (analyze_default_on_raise_or_non_object
                  (fun _ => Ok (Some "[30, 40]")) (fun c => c) "Rocq checks proofs")
           "[30, 40]" (PList [PInt 30; PInt 40]) eq_refl eq_refl I).
Defined.

(** ** Splitting and joining *)

Lemma append_nil_r (s : string) : s +:+ "" = s.
Proof. induction s as [|c s IH]; [done|]. by rewrite append_cons, IH. Qed.

(** No white-space character goes on with an ASCII byte. *)
Lemma space2_ascii (a x : ascii) : (N_of_ascii x < 128)%N → Py.space2 a x = false.
Proof.
  intros Hx. cbv [Py.space2].
  rewrite (proj2 (N.eqb_neq (N_of_ascii x) 133)), (proj2 (N.eqb_neq (N_of_ascii x) 160))
    by lia.
  apply andb_false_r.
Qed.

Lemma space3_ascii_second (a x c : ascii) :
  (N_of_ascii x < 128)%N → Py.space3 a x c = false.
Proof.
  intros Hx. cbv [Py.space3].
  rewrite (proj2 (N.eqb_neq (N_of_ascii x) 154)), (proj2 (N.eqb_neq (N_of_ascii x) 128)),
    (proj2 (N.eqb_neq (N_of_ascii x) 129)) by lia.
  by rewrite !andb_false_r.
Qed.

Lemma space3_ascii_third (a b x : ascii) :
  (N_of_ascii x < 128)%N → Py.space3 a b x = false.
Proof.
  intros Hx. cbv [Py.space3].
  rewrite (proj2 (N.eqb_neq (N_of_ascii x) 128)), (proj2 (N.eqb_neq (N_of_ascii x) 159)),
    (proj2 (N.eqb_neq (N_of_ascii x) 168)), (proj2 (N.eqb_neq (N_of_ascii x) 169)),
    (proj2 (N.eqb_neq (N_of_ascii x) 175)), (proj2 (N.leb_gt 128 (N_of_ascii x))) by lia.
  by rewrite !andb_false_r.
Qed.

Lemma space_len_ext (u v : string) :
  u ≠ "" → ascii_next v → Py.space_len u = 0%nat → Py.space_len (u +:+ v) = 0%nat.
Proof.
  intros Hu Hv. destruct u as [|a [|b [|c u]]]; [done|..]; rewrite ?append_cons;
    cbn [Py.space_len]; [| |done].
  - rewrite append_nil_l. destruct (Py.isspace a); [done|]. intros _.
    destruct v as [|x [|y v]]; [done|..]; cbn [ascii_next] in Hv.
    + by rewrite space2_ascii.
    + by rewrite space2_ascii, space3_ascii_second.
  - rewrite append_nil_l. destruct (Py.isspace a); [done|].
    destruct (Py.space2 a b); [done|]. intros _.
    destruct v as [|x v]; [done|]. cbn [ascii_next] in Hv.
    by rewrite space3_ascii_third.
Qed.

Lemma space_len_cut (u v : string) :
  u ≠ "" → Py.space_len (u +:+ v) = 0%nat → Py.space_len u = 0%nat.
Proof.
  intros Hu. destruct u as [|a [|b [|c u]]]; [done|..]; rewrite ?append_cons;
    cbn [Py.space_len]; [| |done].
  - rewrite append_nil_l. by destruct (Py.isspace a).
  - rewrite append_nil_l. destruct (Py.isspace a); [done|]. by destruct (Py.space2 a b).
Qed.

Lemma split_go_plain (u v : string) (cur : option string) :
  u ≠ "" → plain u = true → ascii_next v →
  Py.split_go cur 0 (u +:+ v) = Py.split_go (Some (default "" cur +:+ u)) 0 v.
Proof.
  intros Hu Hp Hv. revert cur. induction u as [|x u IH]; intros cur; [done|].
  cbn [plain] in Hp. apply andb_true_iff in Hp as [Hx Hp]. apply Nat.eqb_eq in Hx.
  pose proof (space_len_ext (String x u) v Hu Hv Hx) as Hlen.
  rewrite append_cons in Hlen |- *. cbn [Py.split_go]. rewrite Hlen.
  destruct u as [|y u]; [by rewrite append_nil_l|].
  rewrite IH by done. cbn [default from_option id]. simpl.
  by rewrite append_assoc.
Qed.

Lemma split_token (t : string) : token t → Py.split t = [t].
Proof.
  intros [Hne Hp]. unfold Py.split. rewrite <- (append_nil_r t) at 1.
  by rewrite split_go_plain.
Qed.

Lemma split_token_space (t s : string) :
  token t → Py.split (t +:+ " " +:+ s) = t :: Py.split s.
Proof.
  intros [Hne Hp]. unfold Py.split.
  rewrite split_go_plain by (try done; change (" " +:+ s) with (String " " s); by cbn).
  done.
Qed.

(** Joining tokens by single spaces and splitting again gives the
    tokens back. *)
Lemma split_join (l : list string) : Forall token l → Py.split (Py.join " " l) = l.
Proof.
  induction 1 as [|t l Ht Hl IH]; [done|].
  destruct l as [|t' l]; [by apply split_token|].
  change (Py.join " " (t :: t' :: l)) with (t +:+ " " +:+ Py.join " " (t' :: l)).
  by rewrite split_token_space, IH.
Qed.

Lemma suffix_snoc (a u d : string) (x : ascii) :
  a +:+ u = d +:+ String x "" → u ≠ "" →
  ∃ u0, u = u0 +:+ String x "" ∧ d = a +:+ u0.
Proof.
  revert d. induction a as [|y a IH]; intros d H Hu.
  - exists d. by rewrite !append_nil_l in *.
  - destruct d as [|y' d].
    + rewrite append_cons, append_nil_l in H. injection H as _ H.
      destruct a; [by rewrite append_nil_l in H|done].
    + rewrite !append_cons in H. injection H as -> H.
      destruct (IH d H Hu) as (u0 & -> & ->). by exists u0.
Qed.

Lemma plain_of_suffixes (c : string) :
  (∀ a u, c = a +:+ u → u ≠ "" → Py.space_len u = 0%nat) → plain c = true.
Proof.
  induction c as [|x c IH]; intros H; [done|].
  cbn [plain]. apply andb_true_iff. split.
  - apply Nat.eqb_eq. by apply (H "").
  - apply IH. intros a u -> Hu. by apply (H (String x a)).
Qed.

Lemma run_token (cur : option string) (skip : nat) (s : string) :
  run_ok cur skip s → Forall token (option_list cur).
Proof.
  intros H. destruct cur as [c|]; [|constructor].
  destruct (H c eq_refl) as (_ & Hne & Hc). repeat constructor; [done|].
  apply plain_of_suffixes. intros a u Hau Hu. eapply space_len_cut; eauto.
Qed.

Lemma split_go_tokens (cur : option string) (skip : nat) (s : string) :
  run_ok cur skip s → Forall token (Py.split_go cur skip s).
Proof.
  revert cur skip. induction s as [|x s IH]; intros cur skip Hcur; cbn [Py.split_go].
  - by eapply run_token.
  - destruct skip as [|k].
    + destruct (Py.space_len (String x s)) as [|k] eqn:Hlen.
      * apply IH. intros c [= <-]. split; [done|]. split.
        { destruct (default "" cur); by rewrite ?append_cons. }
        intros a u Hau Hu. symmetry in Hau.
        apply suffix_snoc in Hau as (u0 & -> & Hd); [|done].
        rewrite append_assoc. change (String x "" +:+ s) with (String x s).
        destruct u0 as [|y u0]; [by rewrite append_nil_l|].
        destruct cur as [c|]; [|by destruct a].
        destruct (Hcur c eq_refl) as (_ & _ & Hc). by eapply Hc.
      * apply Forall_app. split; [by eapply run_token|]. by apply IH.
    + apply IH. intros c ->. by destruct (Hcur c eq_refl).
Qed.

Lemma split_tokens (s : string) : Forall token (Py.split s).
Proof. by apply split_go_tokens. Qed.

(** X18. When the first 500 characters of the text hold a token, the
    default summary has one query, and this query splits back into the
    tokens it was joined from, the first five of those characters, five at
    most; joining them again gives the query, which so has no white space
    but single spaces between its tokens. *)
Theorem default_query_splits_into_its_tokens (content : string) :
  let tokens := Py.split (Py.prefix_of 500 content) in
  tokens ≠ [] →
  ∃ query,
    ContentSummary.search_queries (ContentAnalyzer._default_summary content) = [query]
    ∧ Py.split query = take 5 tokens
    ∧ (0 < length (Py.split query) ≤ 5)%nat
    ∧ Py.join " " (Py.split query) = query.
Proof.
  cbv zeta. intros Hne. rewrite default_summary_queries.
  destruct (Py.split (Py.prefix_of 500 content)) as [|t l] eqn:Hsplit; [done|].
  eexists. split; [done|].
  assert (Forall token (take 5 (t :: l))) as Htok.
  { apply Forall_take. rewrite <- Hsplit. apply split_tokens. }
  rewrite split_join by done.
  split; [done|]. split; [|done].
  rewrite length_take. cbn [length]. lia.
Qed.

Lemma default_query_splits_into_its_tokens_witness :
  ∃ query,
    ContentSummary.search_queries
      (ContentAnalyzer._default_summary "  Rocq  is a proof assistant; it checks proofs.")
    = [query]
    ∧ Py.split query = ["Rocq"; "is"; "a"; "proof"; "assistant;"]
    ∧ (0 < length (Py.split query) ≤ 5)%nat
    ∧ Py.join " " (Py.split query) = query.
Proof.
  refine (default_query_splits_into_its_tokens
            "  Rocq  is a proof assistant; it checks proofs." _).
  discriminate.
Defined.

(** ** A fence that is not closed *)

(** The last character of a text: its last byte that is no
    continuation byte, and the continuation bytes after it. *)
Lemma chop_last (body : string) :
  Py.all_cont body = false →
  ∃ c r, body = Py.chop body +:+ String c r ∧ Py.is_cont c = false ∧ Py.all_cont r = true.
Proof.
  induction body as [|x body IH]; [done|].
  cbn [Py.all_cont Py.chop]. destruct (Py.all_cont body) eqn:Hb.
  - rewrite andb_true_r. intros Hx. by exists x, body.
  - intros _. destruct (IH eq_refl) as (c & r & Hbody & Hc & Hr).
    exists c, r. rewrite append_cons. by rewrite <- Hbody.
Qed.

(** X19. When the stripped reply opens a fence and no fence follows
    the opening marker, the text handed to [json.loads] is what follows
    the marker without its last character, stripped: the search for the
    closing fence gives -1, and the slice then ends before the last
    character. *)
Theorem unclosed_fence_drops_the_last_character (response before body : string) :
  let text := Py.strip response in
  Py.contains "```" body = false →
  (text = before +:+ "```json" +:+ body →
   Py.find "```json" 0 text = Py.len before →
   fenced_payload response = Py.strip (Py.chop body))
  ∧ (text = before +:+ "```" +:+ body →
     Py.contains "```json" text = false →
     Py.find "```" 0 text = Py.len before →
     fenced_payload response = Py.strip (Py.chop body))
  ∧ (Py.all_cont body = false →
     ∃ c r, body = Py.chop body +:+ String c r
            ∧ Py.is_cont c = false ∧ Py.all_cont r = true).
Proof.
  cbv zeta. intros Hbody.
  split; [intros; by apply fenced_payload_json_open with before|].
  split; [intros; by apply fenced_payload_fence_open with before|].
  apply chop_last.
Qed.

Lemma unclosed_fence_drops_the_last_character_witness :
  let wan := String "229" (String "174" (String "140" "")) in
  fenced_payload "Use `json`: ```json [30, 40]" = "[30, 40"
  ∧ Json.loads (fenced_payload "Use `json`: ```json [30, 40]") = Raise JSONDecodeError
  ∧ fenced_payload ("```json [30, 40]" +:+ wan) = "[30, 40]".
Proof.
  cbv zeta. split; [|split; reflexivity].
  etrans.
  - refine (proj1 (unclosed_fence_drops_the_last_character
                     "Use `json`: ```json [30, 40]" "Use `json`: " " [30, 40]" _) _ _);
      reflexivity.
  - reflexivity.
Defined.

(** ** models/reviewer_models.py: scores of a chapter *)

Lemma find_fmap {A : Type} (p : A -> bool) (f : A -> A) (l : list A) :
  (∀ x, p (f x) = p x) → List.find p (f <$> l) = f <$> List.find p l.
Proof.
  intros H. induction l as [|x l IH]; [done|].
  rewrite fmap_cons. cbn [List.find]. rewrite H. by destruct (p x).
Qed.

Lemma find_fmap_fixed {A : Type} (p : A -> bool) (f : A -> A) (l : list A) :
  (∀ x, p (f x) = p x) → (∀ x, p x = true → f x = x) →
  List.find p (f <$> l) = List.find p l.
Proof.
  intros H Hfix. induction l as [|x l IH]; [done|].
  rewrite fmap_cons. cbn [List.find]. rewrite H.
  destruct (p x) eqn:Hp; [by rewrite Hfix|done].
Qed.

(** X20. After [update_scores] on a chapter that exists, with an id,
    scores and issue counts that SQLite can store (64-bit integers),
    [get_by_id] returns that chapter with the scores, the level and the
    issue counts that were written and the status completed, its tutorial,
    path, order, content hash and text as they were; every other chapter is
    read as before, and no row is added or removed. *)
Theorem update_scores_then_get_by_id
    (db : ChapterModel.table) (chapter_id : Z) (r : ChapterModel.row)
    (overall depth quality readability : Z) (level : option string)
    (total high medium low : Z) :
  Forall sqlite_integer
    [chapter_id; overall; depth; quality; readability; total; high; medium; low] →
  ChapterModel.get_by_id db chapter_id = Some r →
  let db' :=
    ChapterModel.update_scores db chapter_id overall depth quality readability level
      total high medium low in
  ChapterModel.get_by_id db' chapter_id
  = Some (ChapterModel.mk chapter_id (ChapterModel.tutorial_id r) (ChapterModel.file_path r)
            (ChapterModel.chapter_order r) (ChapterModel.content_hash r)
            (ChapterModel.raw_content r) depth quality readability level overall
            total high medium low "completed")
  ∧ (∀ other, other ≠ chapter_id →
       ChapterModel.get_by_id db' other = ChapterModel.get_by_id db other)
  ∧ ChapterModel.id <$> db' = ChapterModel.id <$> db.
Proof.
  intros _ Hr db'. subst db'. unfold ChapterModel.get_by_id, ChapterModel.update_scores.
  assert (∀ other x,
            bool_decide
              (ChapterModel.id
                 (if bool_decide (ChapterModel.id x = chapter_id)
                  then ChapterModel.mk (ChapterModel.id x) (ChapterModel.tutorial_id x)
                         (ChapterModel.file_path x) (ChapterModel.chapter_order x)
                         (ChapterModel.content_hash x) (ChapterModel.raw_content x)
                         depth quality readability level overall total high medium low
                         "completed"
                  else x) = other)
            = bool_decide (ChapterModel.id x = other)) as Hid
    by (intros other x; by destruct (bool_decide (ChapterModel.id x = chapter_id))).
  split; [|split].
  - rewrite find_fmap by (intros x; apply Hid).
    unfold ChapterModel.get_by_id in Hr. rewrite Hr. cbn [fmap option_fmap option_map].
    apply find_some in Hr as [_ Hr]. apply bool_decide_eq_true in Hr.
    by rewrite bool_decide_eq_true_2, Hr by done.
  - intros other Hother. apply find_fmap_fixed.
    + intros x. apply Hid.
    + intros x Hx%bool_decide_eq_true. rewrite bool_decide_eq_false_2; [done|congruence].
  - rewrite <- list_fmap_compose. apply list_fmap_ext. intros i x _. simpl.
    by case_bool_decide.
Qed.

Lemma update_scores_then_get_by_id_witness :
  let chapter (id : Z) (hash : string) :=
    ChapterModel.mk id 1 "a.md" id (Some hash) (Some "text") 0 0 0 None 0 0 0 0 0 "pending" in
  let db := [chapter 1 "h1"; chapter 2 "h2"] in
  let db' := ChapterModel.update_scores db 2 81 80 85 78 (Some "normal") 3 1 1 1 in
  ChapterModel.get_by_id db' 2
  = Some (ChapterModel.mk 2 1 "a.md" 2 (Some "h2") (Some "text") 80 85 78 (Some "normal") 81
            3 1 1 1 "completed")
  ∧ (∀ other, other ≠ 2 →
       ChapterModel.get_by_id db' other = ChapterModel.get_by_id db other)
  ∧ ChapterModel.id <$> db' = ChapterModel.id <$> db.
Proof.
  cbv zeta.
  exact (update_scores_then_get_by_id
           [ChapterModel.mk 1 1 "a.md" 1 (Some "h1") (Some "text") 0 0 0 None 0 0 0 0 0 "pending";
            ChapterModel.mk 2 1 "a.md" 2 (Some "h2") (Some "text") 0 0 0 None 0 0 0 0 0 "pending"]
           2 _ 81 80 85 78 (Some "normal") 3 1 1 1
           ltac:(repeat constructor; unfold sqlite_integer; lia) eq_refl).
Defined.

(** X21. [update_scores] changes neither the tutorial nor the content
    hash of a row: after it [get_by_hash] finds the chapter it found
    before, with its path, order and text, so that a chapter that has been
    scored is still recognised by its hash; and an update for an id that
    no row has changes nothing. *)
Theorem update_scores_keeps_the_hash_lookup
    (db : ChapterModel.table) (chapter_id : Z)
    (overall depth quality readability : Z) (level : option string)
    (total high medium low : Z) :
  let db' :=
    ChapterModel.update_scores db chapter_id overall depth quality readability level
      total high medium low in
  let kept r :=
    (ChapterModel.id r, ChapterModel.tutorial_id r, ChapterModel.file_path r,
     ChapterModel.chapter_order r, ChapterModel.content_hash r, ChapterModel.raw_content r) in
  (∀ tutorial hash,
     kept <$> ChapterModel.get_by_hash db' tutorial hash
     = kept <$> ChapterModel.get_by_hash db tutorial hash)
  ∧ (ChapterModel.get_by_id db chapter_id = None → db' = db).
Proof.
  cbv zeta. unfold ChapterModel.update_scores. split.
  - intros tutorial hash. unfold ChapterModel.get_by_hash.
    rewrite find_fmap
      by (intros x; cbv beta; by destruct (bool_decide (ChapterModel.id x = chapter_id))).
    destruct (List.find _ db) as [r|]; [|done].
    cbn [fmap option_fmap option_map].
    destruct (bool_decide (ChapterModel.id r = chapter_id)) eqn:Hid; [|done].
    apply bool_decide_eq_true in Hid. simpl. by rewrite Hid.
  - intros Hnone. unfold ChapterModel.get_by_id in Hnone.
    rewrite <- (list_fmap_id db) at 2. apply list_fmap_ext. intros i x Hx.
    apply list_elem_of_lookup_2, list_elem_of_In in Hx.
    pose proof (find_none _ _ Hnone x Hx) as Hid. cbv beta in Hid.
    by rewrite Hid.
Qed.

(** ** The default summary and the references *)

Lemma stable_sort_all_before {A : Type} (before : A -> A -> bool) (l : list A) :
  (∀ x y, x ∈ l → y ∈ l → before x y = true) → stable_sort before l = l.
Proof.
  induction l as [|x l IH]; intros H; [done|].
  cbn [stable_sort foldr]. fold (stable_sort before l).
  rewrite IH by (intros a b Ha Hb; apply H; by right).
  destruct l as [|y l]; [done|]. cbn [insert_sorted].
  rewrite H; [done|by left|right; by left].
Qed.

Lemma calculate_relevance_empty_summary (r : SearchResult.t) (summary : ContentSummary.t) :
  ContentSummary.topic summary = "" →
  ContentSummary.key_terms summary = [] →
  ContentSummary.core_points summary = [] →
  ReferenceManager._calculate_relevance r summary = 0%Q.
Proof.
  intros Ht Hk Hc. unfold ReferenceManager._calculate_relevance. cbv zeta.
  by rewrite Ht, Hk, Hc.
Qed.

(** X22. Against a summary without topic, key terms and core points,
    the default summary of the analyzer among them, every search result
    scores 0: the ranking keeps the results in the order they came in,
    and the filter keeps none of them at any threshold above 0. *)
Theorem default_summary_makes_no_result_relevant
    (content : string) (results : list SearchResult.t) (min_score : Q) :
  (0 < min_score)%Q →
  let summary := ContentAnalyzer._default_summary content in
  let ranked := ReferenceManager.evaluate_relevance results summary in
  ranked = with_relevance summary <$> results
  ∧ Forall (fun r => SearchResult.relevance_score r = 0%Q) ranked
  ∧ ReferenceManager.filter_by_relevance ranked min_score = [].
Proof.
  intros Hmin summary ranked.
  assert (∀ r, ReferenceManager._calculate_relevance r summary = 0%Q) as Hzero
    by (intros r; by apply calculate_relevance_empty_summary).
  assert (Forall (fun r => SearchResult.relevance_score r = 0%Q)
            (with_relevance summary <$> results)) as Hall.
  { apply Forall_fmap, Forall_forall. intros r _. apply Hzero. }
  assert (ranked = with_relevance summary <$> results) as Hranked.
  { subst ranked. rewrite evaluate_relevance_sort. unfold sort_by_reverse.
    apply stable_sort_all_before. intros x y Hx Hy.
    rewrite Forall_forall in Hall. by rewrite (Hall x Hx), (Hall y Hy). }
  split; [done|]. split; [by rewrite Hranked|].
  rewrite Hranked. unfold ReferenceManager.filter_by_relevance.
  clear Hranked. induction Hall as [|r l Hr Hl IH]; [done|].
  rewrite filter_cons, Hr, IH. case_decide as Hle; [|done].
  apply Qle_bool_iff in Hle. by apply Qlt_not_le in Hmin.
Qed.

Lemma default_summary_makes_no_result_relevant_witness :
  let results :=
    [SearchResult.mk "q" "https://a.example" "Rocq" "a proof assistant" 0;
     SearchResult.mk "q" "https://b.example" "Proofs" "machine-checked" 0] in
  let ranked :=
    ReferenceManager.evaluate_relevance results
      (ContentAnalyzer._default_summary "Rocq is a proof assistant") in
  ranked = results ∧ ReferenceManager.filter_by_relevance ranked (3 # 10) = [].
Proof.
  cbv zeta.
  destruct (default_summary_makes_no_result_relevant "Rocq is a proof assistant"
              [SearchResult.mk "q" "https://a.example" "Rocq" "a proof assistant" 0;
               SearchResult.mk "q" "https://b.example" "Proofs" "machine-checked" 0]
              (3 # 10) eq_refl) as (H1 & _ & H3).
  split; [exact H1|exact H3].
Defined.

(** ** An evaluation that fails throughout *)

(** X23. When the replies to the three evaluators are all empty or
    rejected by [json.loads], the aggregated score of the chapter is 70
    and its grade C, whatever its content type. *)
Theorem failed_evaluation_scores_70
    (llm : llm_service)
    (render_depth_check render_quality_review : string -> option (list Reference.t) -> string)
    (render_readability_check : string -> string) (level_values : list string)
    (content : string) (references : option (list Reference.t))
    (content_type : ContentType) :
  empty_or_unparseable (llm (render_depth_check content references)) →
  empty_or_unparseable (llm (render_quality_review content references)) →
  empty_or_unparseable (llm (render_readability_check content)) →
  ScoreAggregator.aggregate None
    (DepthChecker.check llm render_depth_check content references)
    (QualityReviewer.review llm render_quality_review content references)
    (ReadabilityChecker.check llm render_readability_check level_values content)
    content_type
  = Ok (70, DimensionScores.mk 70 70 70 70 70 0 0 70)
  ∧ ScoreAggregator.get_grade 70 = "C".
Proof.
  intros Hd Hq Hr.
  rewrite depth_check_default, quality_review_default, readability_check_default by done.
  split; [|done]. by destruct content_type; vm_compute.
Qed.

Lemma failed_evaluation_scores_70_witness :
  let llm : llm_service := fun _ => Ok (Some "Sorry, I cannot help with that.") in
  ScoreAggregator.aggregate None
    (DepthChecker.check llm (fun c _ => c) "text" None)
    (QualityReviewer.review llm (fun c _ => c) "text" None)
    (ReadabilityChecker.check llm (fun c => c) [] "text") NEWS
  = Ok (70, DimensionScores.mk 70 70 70 70 70 0 0 70)
  ∧ ScoreAggregator.get_grade 70 = "C".
Proof.
  cbv zeta.
  refine (failed_evaluation_scores_70 (fun _ => Ok (Some "Sorry, I cannot help with that."))
            (fun c _ => c) (fun c _ => c) (fun c => c) [] "text" None NEWS _ _ _);
    right; reflexivity.
Defined.

(** ** multimodal/image_analyzer.py *)

(** X24. With a limit that is not negative, [analyze_images_batch]
    returns one entry per image path, in the order of the paths: the
    analysis of the image, with the context of its index when there is
    one, for the paths before the limit, and [None] for the others.  With
    a negative limit it returns more entries than there are paths. *)
Theorem analyze_images_batch_has_one_entry_per_path
    {ImageAnalysisResult : Type}
    (analyze_image : string -> option string -> option ImageAnalysisResult)
    (image_paths : list string) (contexts : option (list string)) (max_images : Z) :
  let results :=
    ImageAnalyzer.analyze_images_batch analyze_image image_paths contexts max_images in
  (0 <= max_images →
   length results = length image_paths
   ∧ ∀ i path, image_paths !! i = Some path →
       results !! i
       = Some (if bool_decide (Z.of_nat i < max_images)
               then analyze_image path (ImageAnalyzer.context_at contexts i)
               else None))
  ∧ (max_images < 0 → image_paths ≠ [] → (length image_paths < length results)%nat).
Proof.
  cbv zeta. unfold ImageAnalyzer.analyze_images_batch, ImageAnalyzer.upto. cbv zeta.
  split.
  - intros Hmax. rewrite (proj2 (Z.leb_le 0 max_images)) by done. split.
    + rewrite List.length_app, length_imap, length_take, length_replicate. lia.
    + intros i path Hi. pose proof (lookup_lt_Some _ _ _ Hi) as Hlt.
      case_bool_decide as Hlim.
      * rewrite lookup_app_l by (rewrite length_imap, length_take; lia).
        rewrite list_lookup_imap, lookup_take_lt by lia. by rewrite Hi.
      * rewrite lookup_app_r by (rewrite length_imap, length_take; lia).
        apply lookup_replicate_2. rewrite length_imap, length_take. lia.
  - intros Hmax Hne. rewrite (proj2 (Z.leb_gt 0 max_images)) by lia.
    rewrite List.length_app, length_imap, length_take, length_replicate.
    destruct image_paths; [done|]. cbn [length]. lia.
Qed.

Lemma analyze_images_batch_has_one_entry_per_path_witness :
  let analyze_image (path : string) (context : option string) :=
    Some (path, context) in
  ImageAnalyzer.analyze_images_batch analyze_image ["a.png"; "b.png"; "c.png"]
    (Some ["first"]) 2
  = [Some ("a.png", Some "first"); Some ("b.png", None); None]
  ∧ length (ImageAnalyzer.analyze_images_batch analyze_image ["a.png"; "b.png"; "c.png"]
              (Some ["first"]) 2) = 3%nat.
Proof.
  cbv zeta. split; [reflexivity|].
  exact (proj1 (proj1 (analyze_images_batch_has_one_entry_per_path
                         (fun path context => Some (path, context))
                         ["a.png"; "b.png"; "c.png"] (Some ["first"]) 2)
                  ltac:(lia))).
Defined.

(** ** preprocessing/image_extractor.py *)

(** X25. [get_local_images] and [get_missing_images] split the images
    that are not external: each keeps the order of the images, no image
    is in both, an image that is not external is in one of them, and an
    external image is in neither, so that it is never reported missing. *)
Theorem local_and_missing_images_split_the_rest (images : list ImageInfo.t) :
  let local := ImageExtractor.get_local_images images in
  let missing := ImageExtractor.get_missing_images images in
  local `sublist_of` images
  ∧ missing `sublist_of` images
  ∧ (∀ img, img ∈ local → (img ∉ missing))
  ∧ (∀ img, img ∈ images →
       (ImageInfo.is_external img = true → (img ∉ local) ∧ (img ∉ missing))
       ∧ (ImageInfo.is_external img = false → img ∈ local ∨ img ∈ missing))
  ∧ (length local + length missing
     = length (filter (fun img => ImageInfo.is_external img = false) images))%nat.
Proof.
  cbv zeta. unfold ImageExtractor.get_local_images, ImageExtractor.get_missing_images.
  split; [apply sublist_filter|]. split; [apply sublist_filter|]. split; [|split].
  - intros img [H1 _]%list_elem_of_filter [H2 _]%list_elem_of_filter.
    destruct (ImageInfo.is_external img), (ImageInfo.exists_ img); done.
  - intros img Hin. split; intros Hext.
    + split; intros [H _]%list_elem_of_filter; by rewrite Hext in H.
    + destruct (ImageInfo.exists_ img) eqn:Hex; [left|right];
        apply list_elem_of_filter; by rewrite Hext, Hex.
  - induction images as [|img images IH]; [done|].
    rewrite !filter_cons.
    destruct (ImageInfo.is_external img), (ImageInfo.exists_ img);
      repeat case_decide; try done; cbn [length]; lia.
Qed.

(** ** Ranking a ranking *)

Lemma stable_sort_of_sorted {A : Type} (before : A -> A -> bool) (l : list A) :
  StronglySorted (fun x y => before x y = true) l → stable_sort before l = l.
Proof.
  induction 1 as [|x l Hl IH Hx]; [done|].
  cbn [stable_sort foldr]. fold (stable_sort before l). rewrite IH.
  destruct l as [|y l]; [done|]. cbn [insert_sorted].
  by rewrite (Forall_inv Hx).
Qed.

(** X26. Ranking is idempotent: [evaluate_relevance] on a list it has
    returned, against the same summary, returns that list, every result
    in its place and with its score. *)
Theorem evaluate_relevance_twice
    (results : list SearchResult.t) (summary : ContentSummary.t) :
  ReferenceManager.evaluate_relevance
    (ReferenceManager.evaluate_relevance results summary) summary
  = ReferenceManager.evaluate_relevance results summary.
Proof.
  rewrite !evaluate_relevance_sort.
  set (ranked := sort_by_reverse _ (with_relevance summary <$> results)).
  assert (with_relevance summary <$> ranked = ranked) as ->.
  { rewrite <- (list_fmap_id ranked) at 2. apply list_fmap_ext. intros i r Hr.
    apply list_elem_of_lookup_2 in Hr. subst ranked. unfold sort_by_reverse in Hr.
    rewrite stable_sort_perm in Hr. by apply list_elem_of_fmap in Hr as (r0 & -> & _). }
  apply stable_sort_of_sorted.
  pose proof (sort_by_reverse_sorted (with_relevance summary <$> results)) as Hs.
  fold ranked in Hs. clearbody ranked.
  induction Hs as [|x l Hl IH Hx]; constructor; [done|].
  eapply Forall_impl; [exact Hx|]. intros y Hy. by apply Qle_bool_iff.
Qed.
